(** * Radiology DApp: procedure reconciliation and FHIR claim documents

    A shallow embedding of the Python backend
    ([shared/utils/fhir_converter.py], [backend/app/utils/blockchain.py],
    [backend/app/routers/procedures.py], [backend/app/routers/fhir.py],
    [backend/app/database.py], [backend/app/schemas/procedure.py]) and the
    properties of its claim-document pipeline.

    Conventions of the embedding.
    - A Python [str] is a [string] holding one code point per character;
      this covers U+0000..U+00FF, which contains every literal the
      embedded functions return, store or raise (the accented letters are
      single characters here, written with their decimal code, for
      instance ["233"] for e-acute).  What the program prints is not part
      of the embedding.
    - A Python call that may raise returns a [result]; code that also
      reads or writes the process state (committed tables, module globals)
      is a function from the state to a [result] and the state after the
      call, so that what was written before an exception stays written.
    - A nullable column is an [option]; the primary key [id] is not
      nullable. *)

From Stdlib Require Import String Ascii ZArith NArith List Bool Lia DecimalString.
Import ListNotations.
Set Warnings "-register-all".
Local Open Scope string_scope.
Local Open Scope Z_scope.

(* ================================================================== *)
(** ** The Python runtime the program relies on *)
(* ================================================================== *)

Module Py.

(** Exceptions, by class.  All of them derive from [Exception], so every
    [except Exception] clause of the program catches each of them. *)
Inductive exn : Type :=
| HTTPException (status_code : Z) (detail : string)
| ValueError (msg : string)
| ConnectionError (msg : string)
| AttributeError (msg : string)
| TypeError (msg : string)
| IndexError (msg : string)
| FileNotFoundError (msg : string)
| LibraryError (cls msg : string).  (* raised inside web3, json or the ORM *)

(** [str(e)] *)
Definition str_exn (e : exn) : string :=
  match e with
  | HTTPException _ d => d
  | ValueError m | ConnectionError m | AttributeError m
  | TypeError m | IndexError m | FileNotFoundError m | LibraryError _ m => m
  end.

Inductive result (A : Type) : Type :=
| Ok (a : A)
| Raise (e : exn).
Arguments Ok {A} a.
Arguments Raise {A} e.

Definition bind {A B} (m : result A) (k : A -> result B) : result B :=
  match m with
  | Ok a => k a
  | Raise e => Raise e
  end.

(** [str(n)] for an [int]. *)
Definition str_int (n : Z) : string := NilZero.string_of_int (Z.to_int n).

(** [s.lower()] on U+0000..U+00FF: A-Z and the capital letters of the
    Latin-1 supplement (all of U+00C0..U+00DE but the multiplication sign)
    move up by 32. *)
Definition lower_char (c : ascii) : ascii :=
  let n := N_of_ascii c in
  if (((65 <=? n) && (n <=? 90))
      || ((192 <=? n) && (n <=? 222) && negb (n =? 215)))%N
  then ascii_of_N (n + 32) else c.

Fixpoint lower (s : string) : string :=
  match s with
  | EmptyString => EmptyString
  | String c r => String (lower_char c) (lower r)
  end.

(** [s[:n]] *)
Definition prefix (n : nat) (s : string) : string := substring 0 n s.

(** [needle in hay] for two strings. *)
Definition str_contains (needle hay : string) : bool :=
  match index 0 needle hay with
  | Some _ => true
  | None => false
  end.

(** Truth value of an [Optional[str]]: [None] and the empty string are
    false. *)
Definition truthy (o : option string) : bool :=
  match o with
  | None => false
  | Some s => negb (s =? "")%string
  end.

(** [l.append(x)] *)
Definition append {A} (l : list A) (x : A) : list A := (l ++ [x])%list.

(** [x in xs] for a list of strings. *)
Definition str_in (x : string) (xs : list string) : bool :=
  existsb (String.eqb x) xs.

(** [repr] of a list of strings without quotes or backslashes. *)
Definition repr_str_list (xs : list string) : string :=
  "[" ++ String.concat ", " (map (fun s => "'" ++ s ++ "'") xs) ++ "]".

(** A naive [datetime] and its [isoformat()]. *)
Record datetime : Type := mk_datetime {
  year : N; month : N; day : N;
  hour : N; minute : N; second : N; microsecond : N
}.

Fixpoint zeros (n : nat) : string :=
  match n with
  | O => ""
  | S k => "0" ++ zeros k
  end.

Definition pad (w : nat) (n : N) : string :=
  let s := NilZero.string_of_uint (N.to_uint n) in
  zeros (w - String.length s) ++ s.

Definition isoformat (d : datetime) : string :=
  pad 4 (year d) ++ "-" ++ pad 2 (month d) ++ "-" ++ pad 2 (day d) ++ "T"
  ++ pad 2 (hour d) ++ ":" ++ pad 2 (minute d) ++ ":" ++ pad 2 (second d)
  ++ (if (microsecond d =? 0)%N then "" else "." ++ pad 6 (microsecond d)).

(** [o.isoformat()] on a nullable column. *)
Definition isoformat_opt (o : option datetime) : result string :=
  match o with
  | Some d => Ok (isoformat d)
  | None => Raise (AttributeError "'NoneType' object has no attribute 'isoformat'")
  end.

(** Letters outside ASCII used by the program's literals. *)
Definition e_acute : string := String "233"%char EmptyString.
Definition e_circ : string := String "234"%char EmptyString.

End Py.
Import Py.

Declare Scope py_scope.
Delimit Scope py_scope with py.
Notation "x <- m ;; k" := (Py.bind m (fun x => k))
  (at level 100, m at next level, right associativity) : py_scope.
Notation "m ;;; k" := (Py.bind m (fun _ => k))
  (at level 100, right associativity) : py_scope.

(** Code that runs on a process state [S]: the outcome and the state it
    leaves.  An exception keeps the state reached when it was raised. *)
Module St.

Definition M (S A : Type) : Type := S -> result A * S.

Definition ret {S A} (a : A) : M S A := fun s => (Ok a, s).

Definition raise {S A} (e : exn) : M S A := fun s => (Raise e, s).

Definition bind {S A B} (m : M S A) (k : A -> M S B) : M S B :=
  fun s =>
    match m s with
    | (Ok a, s') => k a s'
    | (Raise e, s') => (Raise e, s')
    end.

(** [try: m  except Exception as e: h(e)] *)
Definition try_except {S A} (m : M S A) (h : exn -> M S A) : M S A :=
  fun s =>
    match m s with
    | (Ok a, s') => (Ok a, s')
    | (Raise e, s') => h e s'
    end.

(** A pure, possibly raising, computation. *)
Definition lift {S A} (r : result A) : M S A := fun s => (r, s).

Definition gets {S A} (f : S -> A) : M S A := fun s => (Ok (f s), s).

Definition modify {S} (f : S -> S) : M S unit := fun s => (Ok tt, f s).

(** Running code written for a part [T] of the state [S]. *)
Definition zoom {S T A} (proj : S -> T) (upd : T -> S -> S) (m : M T A) : M S A :=
  fun s =>
    match m (proj s) with
    | (r, t') => (r, upd t' s)
    end.

End St.

Declare Scope st_scope.
Delimit Scope st_scope with st.
Notation "x <- m ;; k" := (St.bind m (fun x => k))
  (at level 100, m at next level, right associativity) : st_scope.
Notation "m ;;; k" := (St.bind m (fun _ => k))
  (at level 100, right associativity) : st_scope.

(* ================================================================== *)
(** ** JSON-shaped values: [Dict[str, Any]] *)
(* ================================================================== *)

Module Json.

(** A [dict] keeps its keys in insertion order, which is also the order
    [json.dumps] writes them in. *)
Inductive json : Type :=
| JNull
| JBool (b : bool)
| JInt (n : Z)
| JFloat (bits : Z)          (* a binary64, never inspected by the program *)
| JStr (s : string)
| JList (l : list json)
| JDict (d : list (string * json)).

Definition dict : Type := list (string * json).

(** [d.get(k)] *)
Fixpoint get (k : string) (d : dict) : option json :=
  match d with
  | [] => None
  | (k', v) :: r => if (k' =? k)%string then Some v else get k r
  end.

(** [k in d] *)
Definition has (k : string) (d : dict) : bool :=
  match get k d with
  | Some _ => true
  | None => false
  end.

(** [d[k] = v]: an existing key keeps its position, a new one goes last. *)
Fixpoint set (k : string) (v : json) (d : dict) : dict :=
  match d with
  | [] => [(k, v)]
  | (k', v') :: r =>
      if (k' =? k)%string then (k', v) :: r else (k', v') :: set k v r
  end.

(** [v == s] and [v in xs] for a string [s] and a list of strings [xs]:
    only a [str] equals a [str]. *)
Definition eq_str (v : option json) (s : string) : bool :=
  match v with
  | Some (JStr t) => (t =? s)%string
  | _ => false
  end.

Definition in_strs (v : option json) (xs : list string) : bool :=
  existsb (eq_str v) xs.

(** [needle in x] for an arbitrary value [x]. *)
Definition contains (needle : string) (x : json) : result bool :=
  match x with
  | JDict d => Ok (has needle d)
  | JList l => Ok (existsb (fun e => eq_str (Some e) needle) l)
  | JStr s => Ok (str_contains needle s)
  | JNull => Raise (TypeError "argument of type 'NoneType' is not iterable")
  | JBool _ => Raise (TypeError "argument of type 'bool' is not iterable")
  | JInt _ => Raise (TypeError "argument of type 'int' is not iterable")
  | JFloat _ => Raise (TypeError "argument of type 'float' is not iterable")
  end.

(** The items [for ... in x] runs over. *)
Definition iter (x : json) : result (list json) :=
  match x with
  | JList l => Ok l
  | JDict d => Ok (map (fun kv => JStr (fst kv)) d)
  | JStr s => Ok (map (fun c => JStr (String c EmptyString)) (list_ascii_of_string s))
  | JNull => Raise (TypeError "'NoneType' object is not iterable")
  | JBool _ => Raise (TypeError "'bool' object is not iterable")
  | JInt _ => Raise (TypeError "'int' object is not iterable")
  | JFloat _ => Raise (TypeError "'float' object is not iterable")
  end.

(** Reading a value by a path of keys and positions:
    [v["meta"]["extension"][0]] is [at_path [Key "meta"; Key "extension"; Idx 0] v]. *)
Inductive step : Type :=
| Key (k : string)
| Idx (i : nat).

Fixpoint at_path (p : list step) (v : json) : option json :=
  match p with
  | [] => Some v
  | Key k :: r =>
      match v with
      | JDict d => match get k d with
                   | Some x => at_path r x
                   | None => None
                   end
      | _ => None
      end
  | Idx i :: r =>
      match v with
      | JList l => match nth_error l i with
                   | Some x => at_path r x
                   | None => None
                   end
      | _ => None
      end
  end.

(** An [Optional[str]] as a value. *)
Definition of_opt_str (o : option string) : json :=
  match o with
  | Some s => JStr s
  | None => JNull
  end.

End Json.
Import Json.

(* ================================================================== *)
(** ** database.py: the ORM models *)
(* ================================================================== *)

Module Database.

Record User : Type := mk_User {
  user_id : Z;
  username : option string;
  email : option string;
  hashed_password : option string;
  role : option string;
  wallet_address : option string;
  is_active : option bool;
  user_created_at : option datetime;
  user_updated_at : option datetime
}.

Record Patient : Type := mk_Patient {
  patient_id : Z;
  patient_hash : option string;
  first_name_hash : option string;
  last_name_hash : option string;
  birth_date_hash : option string;
  patient_created_at : option datetime
}.

Record Procedure : Type := mk_Procedure {
  id : Z;
  blockchain_id : option Z;
  proc_patient_hash : option string;
  practitioner_id : option Z;
  procedure_type : option string;
  duration : option Z;
  consent_hash : option string;
  metadata : option string;
  blockchain_tx_hash : option string;
  created_at : option datetime;
  updated_at : option datetime
}.

Record Consent : Type := mk_Consent {
  consent_id : Z;
  consent_procedure_id : option Z;
  consent_consent_hash : option string;
  file_path : option string;
  signed_at : option datetime;
  expires_at : option datetime;
  consent_created_at : option datetime
}.

(** [fhir_data] is the text [json.dumps] writes; the embedding keeps the
    value that text denotes. *)
Record FHIRResource : Type := mk_FHIRResource {
  fhir_id : Z;
  resource_type : option string;
  resource_id : option string;
  fhir_data : option dict;
  fhir_created_at : option datetime;
  fhir_updated_at : option datetime
}.

(** The committed tables, each in row order. *)
Record db : Type := mk_db {
  users : list User;
  patients : list Patient;
  procedures : list Procedure;
  consents : list Consent;
  fhir_resources : list FHIRResource
}.

Definition empty_db : db := mk_db [] [] [] [] [].

(** The key an integer primary key column gives a new row. *)
Definition next_id {A} (key : A -> Z) (rows : list A) : Z :=
  fold_right (fun r m => Z.max (key r) m) 0 rows + 1.

End Database.
Import Database.

(* ================================================================== *)
(** ** shared/utils/fhir_converter.py *)
(* ================================================================== *)

Module FhirConverter.

(** One entry of the catalog: a dict with the keys [code], [display] and
    [system]. *)
Record snomed : Type := mk_snomed {
  code : string;
  display : string;
  system : string
}.

Definition SNOMED_PROCEDURE_CODES : list (string * snomed) :=
  [ ("embolisation", mk_snomed "433144002" "Embolization procedure" "http://snomed.info/sct");
    ("ponction", mk_snomed "261190007" "Percutaneous puncture" "http://snomed.info/sct");
    ("stent", mk_snomed "384692006" "Insertion of stent" "http://snomed.info/sct");
    ("angioplastie", mk_snomed "372024009" "Angioplasty" "http://snomed.info/sct");
    ("biopsie", mk_snomed "387713003" "Surgical biopsy" "http://snomed.info/sct");
    ("drainage", mk_snomed "174250002" "Drainage procedure" "http://snomed.info/sct");
    ("ablation", mk_snomed "713295009" "Ablation" "http://snomed.info/sct");
    ("radiofr" ++ e_acute ++ "quence",
       mk_snomed "173666000" "Radiofrequency ablation" "http://snomed.info/sct");
    ("cryoth" ++ e_acute ++ "rapie",
       mk_snomed "173665001" "Cryotherapy" "http://snomed.info/sct");
    ("chimioembolisation", mk_snomed "430193006" "Chemoembolization" "http://snomed.info/sct") ].

(** [SNOMED_PROCEDURE_CODES.get(k)] *)
Fixpoint catalog_get (k : string) (c : list (string * snomed)) : option snomed :=
  match c with
  | [] => None
  | (k', v) :: r => if (k' =? k)%string then Some v else catalog_get k r
  end.

Definition default_snomed : snomed :=
  mk_snomed "261190007" "Percutaneous puncture" "http://snomed.info/sct".

Definition get_snomed_code (procedure_type : string) : snomed :=
  match catalog_get (lower procedure_type) SNOMED_PROCEDURE_CODES with
  | Some v => v
  | None => default_snomed
  end.

Definition coding_of (s : snomed) : json :=
  JDict [ ("system", JStr (system s)); ("code", JStr (code s));
          ("display", JStr (display s)) ].

Definition blockchain_extension (tx_hash : string) : json :=
  JList [ JDict [ ("url", JStr "http://radiology-dapp.com/blockchain-transaction");
                  ("valueString", JStr tx_hash) ] ].

Definition consent_supporting_info (consent : string) : json :=
  JList [ JDict [
    ("sequence", JInt 1);
    ("category", JDict [ ("coding", JList [ JDict [
        ("system", JStr "http://terminology.hl7.org/CodeSystem/claim-informationcategory");
        ("code", JStr "consent");
        ("display", JStr "Consent") ] ]) ]);
    ("valueString", JStr consent) ] ].

(** [claim["meta"]["extension"] = v] *)
Definition set_meta_extension (v : json) (claim : dict) : dict :=
  match get "meta" claim with
  | Some (JDict m) => set "meta" (JDict (set "extension" v m)) claim
  | _ => claim
  end.

Definition create_fhir_claim (procedure : Procedure) (patient : Patient)
    (practitioner : User) : result dict :=
  (ptype <- match procedure_type procedure with
            | Some t => Ok t
            | None => Raise (AttributeError "'NoneType' object has no attribute 'lower'")
            end ;;
   let snomed_code := get_snomed_code ptype in
   phash <- match patient_hash patient with
            | Some h => Ok h
            | None => Raise (TypeError "'NoneType' object is not subscriptable")
            end ;;
   created <- isoformat_opt (created_at procedure) ;;
   updated <- isoformat_opt (updated_at procedure) ;;
   let claim : dict :=
     [ ("resourceType", JStr "Claim");
       ("id", JStr ("claim-" ++ str_int (id procedure)));
       ("status", JStr "active");
       ("type", JDict [ ("coding", JList [ JDict [
           ("system", JStr "http://terminology.hl7.org/CodeSystem/claim-type");
           ("code", JStr "institutional");
           ("display", JStr "Institutional") ] ]) ]);
       ("use", JStr "claim");
       ("patient", JDict [
           ("reference", JStr ("Patient/" ++ phash));
           ("display", JStr ("Patient " ++ prefix 8 phash ++ "...")) ]);
       ("created", JStr created);
       ("provider", JDict [
           ("reference", JStr ("Practitioner/" ++ str_int (user_id practitioner)));
           ("display", of_opt_str (username practitioner)) ]);
       ("priority", JDict [ ("coding", JList [ JDict [
           ("system", JStr "http://terminology.hl7.org/CodeSystem/processpriority");
           ("code", JStr "normal");
           ("display", JStr "Normal") ] ]) ]);
       ("procedure", JList [ JDict [
           ("sequence", JInt 1);
           ("procedureCodeableConcept", JDict [
               ("coding", JList [ coding_of snomed_code ]);
               ("text", JStr ptype) ]);
           ("date", JStr created) ] ]);
       ("insurance", JList [ JDict [
           ("sequence", JInt 1);
           ("focal", JBool true);
           ("coverage", JDict [
               ("reference", JStr ("Coverage/coverage-" ++ prefix 8 phash)) ]) ] ]);
       ("item", JList [ JDict [
           ("sequence", JInt 1);
           ("careTeamSequence", JList [ JInt 1 ]);
           ("productOrService", JDict [ ("coding", JList [ coding_of snomed_code ]) ]);
           ("servicedDate", JStr created);
           ("quantity", JDict [ ("value", JInt 1); ("unit", JStr "procedure") ]) ] ]);
       ("total", JDict [ ("currency", JStr "EUR"); ("value", JInt 0) ]);
       ("meta", JDict [
           ("versionId", JStr "1");
           ("lastUpdated", JStr updated);
           ("source", JStr "#radiology-dapp") ]) ] in
   let claim :=
     match blockchain_tx_hash procedure with
     | Some tx => if truthy (Some tx)
                  then set_meta_extension (blockchain_extension tx) claim
                  else claim
     | None => claim
     end in
   let claim :=
     match consent_hash procedure with
     | Some c => if truthy (Some c)
                 then set "supportingInfo" (consent_supporting_info c) claim
                 else claim
     | None => claim
     end in
   Ok claim)%py.

Record validation : Type := mk_validation {
  valid : bool;
  errors : list string;
  warnings : list string
}.

Definition required_fields : list string :=
  ["resourceType"; "id"; "status"; "type"; "patient"; "provider"].

Definition valid_statuses : list string :=
  ["active"; "cancelled"; "draft"; "entered-in-error"].

(** The loop over [enumerate(claim["procedure"])], from index [i] on. *)
Fixpoint check_procedures (i : nat) (entries : list json) (errors : list string)
    : result (list string) :=
  match entries with
  | [] => Ok errors
  | procedure :: rest =>
      (has_seq <- contains "sequence" procedure ;;
       let errors :=
         if has_seq then errors
         else append errors ("Sequence manquante pour la proc" ++ e_acute ++ "dure "
                             ++ str_int (Z.of_nat i)) in
       has_cc <- contains "procedureCodeableConcept" procedure ;;
       let errors :=
         if has_cc then errors
         else append errors ("procedureCodeableConcept manquant pour la proc" ++ e_acute
                             ++ "dure " ++ str_int (Z.of_nat i)) in
       check_procedures (S i) rest errors)%py
  end.

Definition validate_fhir_claim (claim : dict) : result validation :=
  (let errors : list string := [] in
   let warnings : list string := [] in
   let errors :=
     fold_left (fun errors field =>
                  if has field claim then errors
                  else append errors ("Champ requis manquant: " ++ field))
               required_fields errors in
   let errors :=
     if eq_str (get "resourceType" claim) "Claim" then errors
     else append errors ("resourceType doit " ++ e_circ ++ "tre 'Claim'") in
   let errors :=
     if in_strs (get "status" claim) valid_statuses then errors
     else append errors ("Status invalide. Valeurs autoris" ++ e_acute ++ "es: "
                         ++ repr_str_list valid_statuses) in
   errors <- match get "procedure" claim with
             | Some section =>
                 entries <- iter section ;;
                 check_procedures 0 entries errors
             | None => Ok errors
             end ;;
   Ok (mk_validation (Nat.eqb (List.length errors) 0) errors warnings))%py.

End FhirConverter.
Import FhirConverter.

(* ================================================================== *)
(** ** schemas/procedure.py and schemas/auth.py: request bodies *)
(* ================================================================== *)

Module Schemas.

Record PatientCreate : Type := mk_PatientCreate {
  pc_patient_hash : string;
  pc_first_name_hash : option string;
  pc_last_name_hash : option string;
  pc_birth_date_hash : option string
}.

Record ProcedureCreate : Type := mk_ProcedureCreate {
  patient_hash : string;
  procedure_type : string;
  duration : Z;
  consent_hash : string;
  metadata : option string
}.

(** [duration: int = Field(..., gt=0)]: what the framework checks before
    the handler runs. *)
Definition ProcedureCreate_valid (p : ProcedureCreate) : bool := 0 <? duration p.

(** The authenticated principal handed to the handlers. *)
Record User : Type := mk_User {
  id : Z;
  username : string;
  email : string;
  role : string;
  wallet_address : string;
  is_active : bool
}.

Definition PROCEDURE_TYPES : list string :=
  [ "embolisation"; "ponction"; "stent"; "angioplastie"; "biopsie"; "drainage";
    "ablation"; "radiofr" ++ e_acute ++ "quence"; "cryoth" ++ e_acute ++ "rapie";
    "chimioembolisation" ].

End Schemas.

(* ================================================================== *)
(** ** What the process finds around it *)
(* ================================================================== *)

Module World.

(** The arguments of the contract function [recordProcedure]. *)
Record call : Type := mk_call {
  call_patient_hash : string;
  call_procedure_type : string;
  call_duration : Z;
  call_consent_hash : string;
  call_metadata : string
}.

Record tx_params : Type := mk_tx_params {
  tx_from : string;
  tx_gas : Z;
  tx_gasPrice : Z;
  tx_nonce : Z
}.

Record receipt : Type := mk_receipt {
  blockNumber : Z;
  gasUsed : Z
}.

(** The contract interface in use: the compiled artifact's, or the one the
    program falls back to when the artifact file does not exist. *)
Inductive abi : Type :=
| ArtifactAbi (content : Json.json)
| FallbackAbi.

(** The ledger node and the web3 library in front of it, as a black box:
    each field is what the corresponding call returns or raises. *)
Record Node : Type := mk_Node {
  is_connected : string -> bool;
  load_abi : result abi;
  eth_contract : string -> abi -> result unit;
  functions_recordProcedure : abi -> call -> result unit;
  eth_accounts : result (list string);
  estimate_gas : call -> string -> result Z;
  eth_gas_price : result Z;
  get_transaction_count : string -> result Z;
  build_transaction : call -> tx_params -> result unit;
  sign_transaction : call -> tx_params -> string -> result string;
  send_raw_transaction : string -> result string;
  wait_for_transaction_receipt : string -> result receipt
}.

Record t : Type := mk {
  BLOCKCHAIN_URL : option string;
  CONTRACT_ADDRESS : option string;
  PRACTITIONER_PRIVATE_KEY : option string;
  node : Node;
  (** [datetime.utcnow()] as read for the column defaults of a new row
      and for [onupdate] *)
  utcnow_created : datetime;
  utcnow_updated : datetime;
  utcnow_onupdate : datetime;
  (** what [db.commit()] does after an [add], and after an attribute
      update *)
  commit_insert : result unit;
  commit_update : result unit;
  (** writing the uploaded file *)
  write_file : string -> result unit
}.

(** [os.getenv(name, default)] *)
Definition getenv_default (v : option string) (default : string) : string :=
  match v with
  | Some s => s
  | None => default
  end.

End World.

(* ================================================================== *)
(** ** backend/app/utils/blockchain.py *)
(* ================================================================== *)

Module Blockchain.
Import World.

Record contract_handle : Type := mk_contract_handle {
  handle_address : string;
  handle_abi : abi
}.

(** The module globals [web3], [contract] and [contract_address]. *)
Record client : Type := mk_client {
  web3 : option string;               (* the endpoint the provider points to *)
  contract : option contract_handle;
  contract_address : option string
}.

Definition no_client : client := mk_client None None None.

(** The dict [record_procedure_on_blockchain] returns, by its [success]
    entry. *)
Inductive blockchain_result : Type :=
| Success (tx_hash : string) (block_number gas_used : Z)
| Failure (error : string).

Section WithWorld.
Variable w : World.t.

Definition init_web3 : St.M client unit :=
  (let network_url := getenv_default (BLOCKCHAIN_URL w) "http://127.0.0.1:8545" in
   St.modify (fun c => mk_client (web3 c) (contract c) (CONTRACT_ADDRESS w)) ;;;
   address <- (if truthy (CONTRACT_ADDRESS w)
               then St.ret (getenv_default (CONTRACT_ADDRESS w) "")
               else St.raise (ValueError
                      ("CONTRACT_ADDRESS non d" ++ e_acute
                       ++ "finie dans les variables d'environnement"))) ;;
   St.modify (fun c => mk_client (Some network_url) (contract c) (contract_address c)) ;;;
   (if is_connected (node w) network_url
    then St.ret tt
    else St.raise (ConnectionError
           ("Impossible de se connecter au r" ++ e_acute ++ "seau blockchain"))) ;;;
   abi <- St.lift (match load_abi (node w) with
                   | Ok a => Ok a
                   | Raise (FileNotFoundError _) => Ok FallbackAbi
                   | Raise e => Raise e
                   end) ;;
   St.lift (eth_contract (node w) address abi) ;;;
   St.modify (fun c => mk_client (web3 c)
                         (Some (mk_contract_handle address abi))
                         (contract_address c)))%st.

(** [web3.eth.accounts[0]] *)
Definition first_account (c : client) : result string :=
  match web3 c with
  | None => Raise (AttributeError "'NoneType' object has no attribute 'eth'")
  | Some _ =>
      (accounts <- eth_accounts (node w) ;;
       match accounts with
       | a :: _ => Ok a
       | [] => Raise (IndexError "list index out of range")
       end)%py
  end.

(** The body of the [try] block. *)
Definition submit (c : client) (args : call) (private_key : string)
    : result blockchain_result :=
  (h <- match contract c with
        | Some h => Ok h
        | None => Raise (AttributeError "'NoneType' object has no attribute 'functions'")
        end ;;
   functions_recordProcedure (node w) (handle_abi h) args ;;;
   sender <- first_account c ;;
   gas_estimate <- estimate_gas (node w) args sender ;;
   sender <- first_account c ;;
   gas_price <- eth_gas_price (node w) ;;
   nonce_of <- first_account c ;;
   nonce <- get_transaction_count (node w) nonce_of ;;
   let transaction := mk_tx_params sender gas_estimate gas_price nonce in
   build_transaction (node w) args transaction ;;;
   raw <- sign_transaction (node w) args transaction private_key ;;
   tx_hash <- send_raw_transaction (node w) raw ;;
   tx_receipt <- wait_for_transaction_receipt (node w) tx_hash ;;
   Ok (Success tx_hash (blockNumber tx_receipt) (gasUsed tx_receipt)))%py.

Definition record_procedure_on_blockchain (patient_hash procedure_type : string)
    (duration : Z) (consent_hash metadata private_key : string)
    : St.M client blockchain_result :=
  ((fun c => match contract c with
             | None => init_web3 c
             | Some _ => St.ret tt c
             end) ;;;
   (fun c =>
      let args := mk_call patient_hash procedure_type duration consent_hash metadata in
      match submit c args private_key with
      | Ok r => (Ok r, c)
      | Raise e => (Ok (Failure (str_exn e)), c)
      end))%st.

End WithWorld.

End Blockchain.

(* ================================================================== *)
(** ** The process state and the database session *)
(* ================================================================== *)

Module Session.
Import World.

Record state : Type := mk_state {
  st_db : db;
  st_client : Blockchain.client
}.

Definition with_db (f : db -> db) (s : state) : state :=
  mk_state (f (st_db s)) (st_client s).

(** Code of [utils/blockchain.py] run from a handler. *)
Definition on_client {A} (m : St.M Blockchain.client A) : St.M state A :=
  St.zoom st_client (fun c s => mk_state (st_db s) c) m.

(** [column == value] in a filter: a NULL column matches nothing. *)
Definition col_eq_str (col : option string) (v : string) : bool :=
  match col with
  | Some s => (s =? v)%string
  | None => false
  end.

(** The same against a value that may be [None]: the ORM then renders
    the comparison as [column IS NULL]. *)
Definition col_eq_opt_str (col v : option string) : bool :=
  match v with
  | Some s => col_eq_str col s
  | None => match col with
            | None => true
            | Some _ => false
            end
  end.

(** A primary key column against a value that may be [None]; a primary
    key is never NULL. *)
Definition col_eq_opt_int (col : Z) (v : option Z) : bool :=
  match v with
  | Some n => col =? n
  | None => false
  end.

(** [a != b] in Python for a nullable integer attribute [a] and an
    integer [b]. *)
Definition ne_opt_int (a : option Z) (b : Z) : bool :=
  match a with
  | Some n => negb (n =? b)
  | None => true
  end.

(** [db.query(T).filter(cond).first()] *)
Definition first {A} (cond : A -> bool) (rows : list A) : option A := find cond rows.

Definition set_patients (v : list Patient) (d : db) : db :=
  mk_db (users d) v (procedures d) (consents d) (fhir_resources d).

Definition set_procedures (v : list Procedure) (d : db) : db :=
  mk_db (users d) (patients d) v (consents d) (fhir_resources d).

Definition set_consents (v : list Consent) (d : db) : db :=
  mk_db (users d) (patients d) (procedures d) v (fhir_resources d).

Definition set_fhir_resources (v : list FHIRResource) (d : db) : db :=
  mk_db (users d) (patients d) (procedures d) (consents d) v.

Section WithWorld.
Variable w : World.t.

(** [db.add(row); db.commit(); db.refresh(row)] for a new row of a table:
    the row gets the next key and its column defaults, and is appended
    when the commit goes through. *)
Definition add_commit {A} (table : db -> list A) (store : list A -> db -> db)
    (key : A -> Z) (row_of : Z -> A) : St.M state A :=
  fun s =>
    match commit_insert w with
    | Raise e => (Raise e, s)
    | Ok _ =>
        let row := row_of (next_id key (table (st_db s))) in
        (Ok row, with_db (store (table (st_db s) ++ [row])%list) s)
    end.

(** The committed procedure row with the key of [r] becomes [r]. *)
Definition store_procedure (r : Procedure) (d : db) : db :=
  set_procedures (map (fun x => if id x =? id r then r else x) (procedures d)) d.

(** [onupdate=datetime.utcnow] *)
Definition touched (r : Procedure) : Procedure :=
  mk_Procedure (id r) (blockchain_id r) (proc_patient_hash r) (practitioner_id r)
    (procedure_type r) (Database.duration r) (consent_hash r) (metadata r)
    (blockchain_tx_hash r) (created_at r) (Some (utcnow_onupdate w)).

End WithWorld.

End Session.

(* ================================================================== *)
(** ** backend/app/routers/procedures.py *)
(* ================================================================== *)

Module Procedures.
Import World Session.

Section WithWorld.
Variable w : World.t.

Definition create_patient (patient : Schemas.PatientCreate) (current_user : Schemas.User)
    : St.M state Patient :=
  (existing_patient <- St.gets (fun s =>
       first (fun p => col_eq_str (patient_hash p) (Schemas.pc_patient_hash patient))
             (patients (st_db s))) ;;
   match existing_patient with
   | Some _ => St.raise (HTTPException 400 ("Patient d" ++ e_acute ++ "j"
                                            ++ String "224"%char " enregistr"
                                            ++ e_acute))
   | None =>
       add_commit w patients set_patients patient_id
         (fun new_id => mk_Patient new_id
                          (Some (Schemas.pc_patient_hash patient))
                          (Schemas.pc_first_name_hash patient)
                          (Schemas.pc_last_name_hash patient)
                          (Schemas.pc_birth_date_hash patient)
                          (Some (utcnow_created w)))
   end)%st.

(** [x or ""] *)
Definition or_empty (o : option string) : string :=
  match o with
  | Some s => s
  | None => ""
  end.

(** The two assignments to [db_procedure] after a successful submission. *)
Definition stamp (r : Procedure) (tx_hash : string) : Procedure :=
  mk_Procedure (id r) (Some (id r)) (proc_patient_hash r) (practitioner_id r)
    (procedure_type r) (Database.duration r) (consent_hash r) (metadata r)
    (Some tx_hash) (created_at r) (updated_at r).

(** The body of the [try] block.  The object [db_procedure] travels with
    the state, because the function returns it as the block left it, also
    when the block was left by an exception. *)
Definition anchor (procedure : Schemas.ProcedureCreate)
    : St.M (state * Procedure) unit :=
  let private_key := PRACTITIONER_PRIVATE_KEY w in
  if truthy private_key then
    (blockchain_result <-
       St.zoom fst (fun s sp => (s, snd sp))
         (on_client (Blockchain.record_procedure_on_blockchain w
            (Schemas.patient_hash procedure)
            (Schemas.procedure_type procedure)
            (Schemas.duration procedure)
            (Schemas.consent_hash procedure)
            (or_empty (Schemas.metadata procedure))
            (or_empty private_key))) ;;
     match blockchain_result with
     | Blockchain.Success tx_hash _ _ =>
         St.modify (fun sp => (fst sp, stamp (snd sp) tx_hash)) ;;;
         St.lift (commit_update w) ;;;
         St.modify (fun sp =>
           let row := touched w (snd sp) in
           (with_db (store_procedure row) (fst sp), row))
     | Blockchain.Failure _ => St.ret tt
     end)%st
  else St.ret tt.

Definition create_procedure (procedure : Schemas.ProcedureCreate)
    (current_user : Schemas.User) : St.M state Procedure :=
  ((if str_in (Schemas.procedure_type procedure) Schemas.PROCEDURE_TYPES
    then St.ret tt
    else St.raise (HTTPException 400
           ("Type d'intervention invalide. Types support" ++ e_acute ++ "s: "
            ++ repr_str_list Schemas.PROCEDURE_TYPES))) ;;;
   patient <- St.gets (fun s =>
       first (fun p => col_eq_str (patient_hash p) (Schemas.patient_hash procedure))
             (patients (st_db s))) ;;
   match patient with
   | None => St.raise (HTTPException 404 ("Patient non trouv" ++ e_acute))
   | Some _ =>
       db_procedure <- add_commit w procedures set_procedures id
         (fun new_id => mk_Procedure new_id None
                          (Some (Schemas.patient_hash procedure))
                          (Some (Schemas.id current_user))
                          (Some (Schemas.procedure_type procedure))
                          (Some (Schemas.duration procedure))
                          (Some (Schemas.consent_hash procedure))
                          (Schemas.metadata procedure)
                          None
                          (Some (utcnow_created w))
                          (Some (utcnow_updated w))) ;;
       (fun s =>
          match St.try_except (anchor procedure) (fun e => St.ret tt) (s, db_procedure) with
          | (_, (s', db_procedure')) => (Ok db_procedure', s')
          end)
   end)%st.

(** The consent upload, from the digest [hash_consent_file(content)] of
    the uploaded bytes on. *)
Definition upload_consent (procedure_id : Z) (consent_hash : string)
    (current_user : Schemas.User) : St.M state (string * string) :=
  (procedure <- St.gets (fun s =>
       first (fun p => id p =? procedure_id) (procedures (st_db s))) ;;
   match procedure with
   | None => St.raise (HTTPException 404 ("Acte non trouv" ++ e_acute))
   | Some procedure =>
       (if ne_opt_int (practitioner_id procedure) (Schemas.id current_user)
        then St.raise (HTTPException 403
               ("Vous n'" ++ e_circ ++ "tes pas autoris" ++ e_acute ++ " "
                ++ String "224"%char " modifier cet acte"))
        else St.ret tt) ;;;
       let file_path := "uploads/consents/consent_" ++ str_int procedure_id ++ "_"
                        ++ prefix 8 consent_hash ++ ".pdf" in
       St.lift (write_file w file_path) ;;;
       add_commit w consents set_consents consent_id
         (fun new_id => mk_Consent new_id (Some procedure_id) (Some consent_hash)
                          (Some file_path) None None (Some (utcnow_created w))) ;;;
       St.lift (commit_update w) ;;;
       St.modify (with_db (store_procedure
         (touched w (mk_Procedure (id procedure) (blockchain_id procedure)
            (proc_patient_hash procedure) (practitioner_id procedure)
            (procedure_type procedure) (Database.duration procedure)
            (Some consent_hash) (metadata procedure)
            (blockchain_tx_hash procedure) (created_at procedure)
            (updated_at procedure))))) ;;;
       St.ret (consent_hash, file_path)
   end)%st.

End WithWorld.

End Procedures.

(* ================================================================== *)
(** ** backend/app/routers/fhir.py *)
(* ================================================================== *)

Module Fhir.
Import World Session.

Section WithWorld.
Variable w : World.t.

Definition generate_fhir_claim (procedure_id : Z) (current_user : Schemas.User)
    : St.M state dict :=
  (procedure <- St.gets (fun s =>
       first (fun p => id p =? procedure_id) (procedures (st_db s))) ;;
   match procedure with
   | None => St.raise (HTTPException 404 ("Acte non trouv" ++ e_acute))
   | Some procedure =>
       patient <- St.gets (fun s =>
           first (fun p => col_eq_opt_str (patient_hash p) (proc_patient_hash procedure))
                 (patients (st_db s))) ;;
       match patient with
       | None => St.raise (HTTPException 404 ("Patient non trouv" ++ e_acute))
       | Some patient =>
           practitioner <- St.gets (fun s =>
               first (fun u => col_eq_opt_int (user_id u) (practitioner_id procedure))
                     (users (st_db s))) ;;
           match practitioner with
           | None => St.raise (HTTPException 404 ("Praticien non trouv" ++ e_acute))
           | Some practitioner =>
               claim <- St.lift (create_fhir_claim procedure patient practitioner) ;;
               add_commit w fhir_resources set_fhir_resources fhir_id
                 (fun new_id => mk_FHIRResource new_id (Some "Claim")
                                  (Some ("claim-" ++ str_int procedure_id))
                                  (Some claim)
                                  (Some (utcnow_created w))
                                  (Some (utcnow_updated w))) ;;;
               St.ret claim
           end
       end
   end)%st.

(** The stored documents under a key. *)
Definition documents_under (resource_type_ resource_id_ : string) (d : db)
    : list FHIRResource :=
  filter (fun r => col_eq_str (resource_type r) resource_type_
                   && col_eq_str (resource_id r) resource_id_)
         (fhir_resources d).

End WithWorld.

End Fhir.

(* ================================================================== *)
(** ** Vocabulary of the statements *)
(* ================================================================== *)

Module Spec.
Import World Session.

(** A record carries a hash in a column when the column holds a non-empty
    string. *)
Definition carries (o : option string) : Prop :=
  exists h, o = Some h /\ h <> "".

(** The fields [create_fhir_claim] dereferences. *)
Definition well_formed (procedure : Procedure) (patient : Patient) : Prop :=
  procedure_type procedure <> None /\ patient_hash patient <> None
  /\ created_at procedure <> None /\ updated_at procedure <> None.

Definition provenance_path : list step := [Key "meta"; Key "extension"].
Definition supporting_path : list step := [Key "supportingInfo"].

(** A procedure entry that passes both per-entry checks. *)
Definition entry_ok (e : json) : Prop :=
  contains "sequence" e = Ok true /\ contains "procedureCodeableConcept" e = Ok true.

(** The [procedure] section is absent, or can be run over and every entry
    in it passes. *)
Definition procedure_section_ok (claim : dict) : Prop :=
  match get "procedure" claim with
  | None => True
  | Some section => exists entries, iter section = Ok entries /\ Forall entry_ok entries
  end.

(** The ledger-side id, when present, is the local id. *)
Definition ledger_id_ok (r : Procedure) : Prop :=
  forall b, blockchain_id r = Some b -> b = id r.

(** The submission made on the client state [c] with the configured
    credential does not end in a receipt. *)
Definition submission_fails (w : World.t) (procedure : Schemas.ProcedureCreate)
    (c : Blockchain.client) : Prop :=
  forall key tx_hash block_number gas_used,
    PRACTITIONER_PRIVATE_KEY w = Some key -> key <> "" ->
    fst (Blockchain.record_procedure_on_blockchain w
           (Schemas.patient_hash procedure) (Schemas.procedure_type procedure)
           (Schemas.duration procedure) (Schemas.consent_hash procedure)
           (Procedures.or_empty (Schemas.metadata procedure)) key c)
    <> Ok (Blockchain.Success tx_hash block_number gas_used).

(** The row [create_procedure] inserts. *)
Definition new_row (w : World.t) (procedure : Schemas.ProcedureCreate) (user : Schemas.User)
    (s : state) : Procedure :=
  mk_Procedure (next_id id (procedures (st_db s))) None
    (Some (Schemas.patient_hash procedure)) (Some (Schemas.id user))
    (Some (Schemas.procedure_type procedure)) (Some (Schemas.duration procedure))
    (Some (Schemas.consent_hash procedure)) (Schemas.metadata procedure) None
    (Some (utcnow_created w)) (Some (utcnow_updated w)).

Definition inserted (w : World.t) (procedure : Schemas.ProcedureCreate) (user : Schemas.User)
    (s : state) : state :=
  with_db (set_procedures (procedures (st_db s) ++ [new_row w procedure user s])) s.

(** States the handlers lead to from a store without procedures. *)
Inductive reachable : state -> Prop :=
| reach_init : forall s, procedures (st_db s) = [] -> reachable s
| reach_create_patient : forall w patient user s r s',
    reachable s ->
    Procedures.create_patient w patient user s = (r, s') ->
    reachable s'
| reach_create_procedure : forall w procedure user s r s',
    reachable s ->
    Procedures.create_procedure w procedure user s = (r, s') ->
    reachable s'
| reach_upload_consent : forall w procedure_id digest user s r s',
    reachable s ->
    Procedures.upload_consent w procedure_id digest user s = (r, s') ->
    reachable s'
| reach_generate_fhir_claim : forall w procedure_id user s r s',
    reachable s ->
    Fhir.generate_fhir_claim w procedure_id user s = (r, s') ->
    reachable s'.

End Spec.
Import Spec.

(* ================================================================== *)
(** ** Sample data *)
(* ================================================================== *)

Module Sample.
Import World Session.

Definition t0 : datetime := mk_datetime 2024 3 7 9 5 0 0.
Definition t1 : datetime := mk_datetime 2024 3 7 9 5 0 1500.
Definition t2 : datetime := mk_datetime 2024 3 7 9 6 30 0.

Definition digest : string :=
  "9f86d081884c7d659a2feaa0c55ad015a3bf4f1b2b0b822cd15d6c15b0f00a08".

Definition patient : Patient :=
  mk_Patient 1 (Some "a1b2c3d4e5f60718") None None None (Some t0).

Definition practitioner : User :=
  mk_User 7 (Some "dr.martin") (Some "martin@example.org") None
          (Some "practitioner") None (Some true) (Some t0) (Some t0).

Definition stent : Procedure :=
  mk_Procedure 1 None (Some "a1b2c3d4e5f60718") (Some 7) (Some "stent") (Some 45)
               None None None (Some t0) (Some t1).

Definition anchored : Procedure :=
  mk_Procedure 2 (Some 2) (Some "a1b2c3d4e5f60718") (Some 7) (Some "Biopsie") (Some 20)
               (Some digest) None (Some "0xabc") (Some t0) (Some t2).

Definition user : Schemas.User :=
  Schemas.mk_User 7 "dr.martin" "martin@example.org" "practitioner" "0xf39F" true.

Definition request : Schemas.ProcedureCreate :=
  Schemas.mk_ProcedureCreate "a1b2c3d4e5f60718" "stent" 45 "" None.

(** A node that answers every call. *)
Definition node_up : Node :=
  mk_Node (fun _ => true)
          (Ok (ArtifactAbi (JList [])))
          (fun _ _ => Ok tt)
          (fun _ _ => Ok tt)
          (Ok ["0xf39F"])
          (fun _ _ => Ok 90000)
          (Ok 1000000000)
          (fun _ => Ok 3)
          (fun _ _ => Ok tt)
          (fun _ _ _ => Ok "0xf86b")
          (fun _ => Ok "0xabc")
          (fun _ => Ok (mk_receipt 42 81234)).

(** A node that cannot be reached. *)
Definition node_down : Node :=
  mk_Node (fun _ => false)
          (Raise (FileNotFoundError "MedicalProcedure.json"))
          (fun _ _ => Ok tt)
          (fun _ _ => Raise (LibraryError "ConnectionError" "Connection refused"))
          (Raise (LibraryError "ConnectionError" "Connection refused"))
          (fun _ _ => Raise (LibraryError "ConnectionError" "Connection refused"))
          (Raise (LibraryError "ConnectionError" "Connection refused"))
          (fun _ => Raise (LibraryError "ConnectionError" "Connection refused"))
          (fun _ _ => Raise (LibraryError "ConnectionError" "Connection refused"))
          (fun _ _ _ => Ok "0xf86b")
          (fun _ => Raise (LibraryError "ConnectionError" "Connection refused"))
          (fun _ => Raise (LibraryError "ConnectionError" "Connection refused")).

Definition world (address key : option string) (n : Node) : World.t :=
  World.mk None address key n t0 t1 t2 (Ok tt) (Ok tt) (fun _ => Ok tt).

(** Ledger reachable and configured; ledger unreachable; no contract
    address in the environment; no signing credential. *)
Definition world_up : World.t := world (Some "0x5FbDB2315678") (Some "0xac0974be") node_up.
Definition world_down : World.t := world (Some "0x5FbDB2315678") (Some "0xac0974be") node_down.
Definition world_no_address : World.t := world None (Some "0xac0974be") node_up.
Definition world_no_key : World.t := world (Some "0x5FbDB2315678") None node_up.

(** A store holding one practitioner and one patient. *)
Definition s0 : state :=
  mk_state (mk_db [practitioner] [patient] [] [] []) Blockchain.no_client.

(** The same store with the stent procedure recorded. *)
Definition s1 : state :=
  mk_state (mk_db [practitioner] [patient] [stent] [] []) Blockchain.no_client.

End Sample.


(* ================================================================== *)
(** ** More of the Python runtime: dictionaries, truth values, ordering *)
(* ================================================================== *)

From Stdlib Require Import Sorted Permutation.

Module PyMore.

(** [KeyError(k)]; its [str] is the [repr] of the key. *)
Definition KeyError (k : string) : exn := LibraryError "KeyError" ("'" ++ k ++ "'").

(** [d[k]] *)
Definition item (k : string) (d : dict) : result json :=
  match get k d with
  | Some v => Ok v
  | None => Raise (KeyError k)
  end.

(** [t[i]] for the tuple a contract call returns. *)
Definition tuple_item (i : nat) (t : list json) : result json :=
  match nth_error t i with
  | Some v => Ok v
  | None => Raise (IndexError "tuple index out of range")
  end.

(** [d.update(u)]: the entries of [u], in order, are written into [d]. *)
Definition dict_update (u d : dict) : dict :=
  fold_left (fun acc kv => set (fst kv) (snd kv) acc) u d.

(** Truth value of a value: [None], [False], zero (for a binary64 the two
    signed zeros), and the empty string, list and dict are false. *)
Definition truth_value (v : json) : bool :=
  match v with
  | JNull => false
  | JBool b => b
  | JInt n => negb (n =? 0)
  | JFloat bits => negb ((bits =? 0) || (bits =? 2 ^ 63))
  | JStr s => negb (s =? "")%string
  | JList l => match l with [] => false | _ :: _ => true end
  | JDict d => match d with [] => false | _ :: _ => true end
  end.

Definition of_opt_bool (o : option bool) : json :=
  match o with
  | Some b => JBool b
  | None => JNull
  end.

(** [str(v)], as an f-string renders [v].  The text of a float, a list or
    a dict is left to [repr_other]. *)
Definition str_value (repr_other : json -> string) (v : json) : string :=
  match v with
  | JStr s => s
  | JInt n => str_int n
  | JBool true => "True"
  | JBool false => "False"
  | JNull => "None"
  | _ => repr_other v
  end.

(** Chronological order of two naive datetimes. *)
Definition lex (c1 c2 : comparison) : comparison :=
  match c1 with
  | Eq => c2
  | _ => c1
  end.

Definition datetime_compare (a b : datetime) : comparison :=
  lex (year a ?= year b)%N
  (lex (month a ?= month b)%N
  (lex (day a ?= day b)%N
  (lex (hour a ?= hour b)%N
  (lex (minute a ?= minute b)%N
  (lex (second a ?= second b)%N
       (microsecond a ?= microsecond b)%N))))).

(** The order of a nullable DateTime column, NULL below every value (as
    SQLite, the default database, sorts it). *)
Definition column_compare (a b : option datetime) : comparison :=
  match a, b with
  | None, None => Eq
  | None, Some _ => Lt
  | Some _, None => Gt
  | Some x, Some y => datetime_compare x y
  end.

(** [a] may stand before [b] under [ORDER BY column DESC]. *)
Definition desc_ok (a b : option datetime) : bool :=
  match column_compare a b with
  | Lt => false
  | _ => true
  end.

Section OrderBy.
Context {A : Type}.
Variable column : A -> option datetime.

Fixpoint insert_desc (x : A) (l : list A) : list A :=
  match l with
  | [] => [x]
  | y :: r => if desc_ok (column y) (column x) then y :: insert_desc x r
              else x :: y :: r
  end.

(** [a] may stand before [b] in the ordered result. *)
Definition newest_first (a b : A) : Prop := desc_ok (column a) (column b) = true.

(** [.order_by(column.desc())]; rows with equal values keep their table
    order. *)
Definition order_by_desc (rows : list A) : list A :=
  fold_left (fun sorted x => insert_desc x sorted) rows [].

End OrderBy.

(** [.offset(skip).limit(limit)], as SQLite reads the two numbers: a
    negative offset skips nothing and a negative limit does not bound. *)
Definition offset_limit {A} (skip limit : Z) (rows : list A) : list A :=
  let rest := skipn (Z.to_nat skip) rows in
  if limit <? 0 then rest else firstn (Z.to_nat limit) rest.

End PyMore.
Import PyMore.

(* ================================================================== *)
(** ** shared/utils/fhir_converter.py: the other resources *)
(* ================================================================== *)

Module FhirResources.

Definition create_fhir_patient (patient : Patient) : result dict :=
  (last_updated <- isoformat_opt (patient_created_at patient) ;;
   let patient_resource : dict :=
     [ ("resourceType", JStr "Patient");
       ("id", of_opt_str (patient_hash patient));
       ("identifier", JList [ JDict [
           ("system", JStr "http://radiology-dapp.com/patient");
           ("value", of_opt_str (patient_hash patient)) ] ]);
       ("active", JBool true);
       ("meta", JDict [
           ("versionId", JStr "1");
           ("lastUpdated", JStr last_updated);
           ("source", JStr "#radiology-dapp");
           ("security", JList [ JDict [ ("coding", JList [ JDict [
               ("system", JStr "http://terminology.hl7.org/CodeSystem/v3-Confidentiality");
               ("code", JStr "R");
               ("display", JStr "Restricted") ] ]) ] ]) ]) ] in
   if truthy (first_name_hash patient) then
     phash <- match patient_hash patient with
              | Some h => Ok h
              | None => Raise (TypeError "'NoneType' object is not subscriptable")
              end ;;
     Ok (set "name" (JList [ JDict [
            ("use", JStr "official");
            ("text", JStr ("Patient " ++ prefix 8 phash ++ "...")) ] ])
           patient_resource)
   else Ok patient_resource)%py.

Definition create_fhir_practitioner (practitioner : User) : result dict :=
  (start <- isoformat_opt (user_created_at practitioner) ;;
   last_updated <- isoformat_opt (user_updated_at practitioner) ;;
   let practitioner_resource : dict :=
     [ ("resourceType", JStr "Practitioner");
       ("id", JStr (str_int (user_id practitioner)));
       ("identifier", JList [ JDict [
           ("system", JStr "http://radiology-dapp.com/practitioner");
           ("value", JStr (str_int (user_id practitioner))) ] ]);
       ("active", of_opt_bool (Database.is_active practitioner));
       ("name", JList [ JDict [
           ("use", JStr "official");
           ("text", of_opt_str (username practitioner)) ] ]);
       ("telecom", JList [ JDict [
           ("system", JStr "email");
           ("value", of_opt_str (email practitioner));
           ("use", JStr "work") ] ]);
       ("qualification", JList [ JDict [
           ("identifier", JList [ JDict [
               ("system", JStr "http://radiology-dapp.com/qualification");
               ("value", of_opt_str (role practitioner)) ] ]);
           ("code", JDict [ ("coding", JList [ JDict [
               ("system", JStr "http://terminology.hl7.org/CodeSystem/practitioner-role");
               ("code", JStr "doctor");
               ("display", JStr "Doctor") ] ]) ]);
           ("period", JDict [ ("start", JStr start) ]) ] ]);
       ("meta", JDict [
           ("versionId", JStr "1");
           ("lastUpdated", JStr last_updated);
           ("source", JStr "#radiology-dapp") ]) ] in
   match wallet_address practitioner with
   | Some wallet =>
       if truthy (Some wallet)
       then Ok (set "extension" (JList [ JDict [
                   ("url", JStr "http://radiology-dapp.com/wallet-address");
                   ("valueString", JStr wallet) ] ])
                  practitioner_resource)
       else Ok practitioner_resource
   | None => Ok practitioner_resource
   end)%py.

(** The two readings of [datetime.utcnow()] are arguments, in the order
    the dict literal takes them. *)
Definition create_fhir_coverage (utcnow_start utcnow_updated : datetime)
    (patient_hash : string) (insurance_info : option dict) : dict :=
  let coverage : dict :=
    [ ("resourceType", JStr "Coverage");
      ("id", JStr ("coverage-" ++ prefix 8 patient_hash));
      ("status", JStr "active");
      ("type", JDict [ ("coding", JList [ JDict [
          ("system", JStr "http://terminology.hl7.org/CodeSystem/v3-ActCode");
          ("code", JStr "EHCPOL");
          ("display", JStr "extended healthcare") ] ]) ]);
      ("subscriber", JDict [ ("reference", JStr ("Patient/" ++ patient_hash)) ]);
      ("beneficiary", JDict [ ("reference", JStr ("Patient/" ++ patient_hash)) ]);
      ("period", JDict [ ("start", JStr (isoformat utcnow_start)) ]);
      ("meta", JDict [
          ("versionId", JStr "1");
          ("lastUpdated", JStr (isoformat utcnow_updated));
          ("source", JStr "#radiology-dapp") ]) ] in
  match insurance_info with
  | Some info => if truth_value (JDict info) then dict_update info coverage else coverage
  | None => coverage
  end.

Section Bundle.
(** [hashlib.md5(str(resources).encode()).hexdigest()] and the text of
    composite values are the interpreter's. *)
Variable md5_of_str : list dict -> string.
Variable repr_other : json -> string.

(** The loop over [enumerate(resources)], appending to [bundle["entry"]]. *)
Fixpoint bundle_entries (resources : list dict) (entry : list json)
    : result (list json) :=
  match resources with
  | [] => Ok entry
  | resource :: rest =>
      (resource_type_ <- item "resourceType" resource ;;
       resource_id_ <- item "id" resource ;;
       bundle_entries rest
         (append entry (JDict [
            ("fullUrl", JStr (str_value repr_other resource_type_ ++ "/"
                              ++ str_value repr_other resource_id_));
            ("resource", JDict resource);
            ("search", JDict [ ("mode", JStr "match") ]) ])))%py
  end.

Definition create_fhir_bundle (utcnow : datetime) (resources : list dict)
    (bundle_type : string) : result dict :=
  (let bundle : dict :=
     [ ("resourceType", JStr "Bundle");
       ("id", JStr ("bundle-" ++ prefix 8 (md5_of_str resources)));
       ("type", JStr bundle_type);
       ("timestamp", JStr (isoformat utcnow));
       ("total", JInt (Z.of_nat (List.length resources)));
       ("entry", JList []) ] in
   entry <- bundle_entries resources [] ;;
   Ok (set "entry" (JList entry) bundle))%py.

End Bundle.

End FhirResources.
Import FhirResources.

(* ================================================================== *)
(** ** backend/app/utils/blockchain.py: the read side, and startup *)
(* ================================================================== *)

Module Chain.

(** The read functions of the contract, as a black box like [World.Node]:
    what [contract.functions.<name>(...).call()] returns or raises. *)
Record Reader : Type := mk_Reader {
  getProcedure : Z -> result (list json);
  getPatientProcedures : string -> result (list Z);
  getPractitionerProcedures : string -> result (list Z);
  isPractitioner : string -> result bool;
  getTotalProcedures : result Z
}.

End Chain.

Module BlockchainRead.
Import World Blockchain Chain.

Section WithWorld.
Variable w : World.t.
Variable rd : Reader.

(** [if contract is None: init_web3()] *)
Definition ensure_contract : St.M client unit :=
  fun c => match contract c with
           | None => init_web3 w c
           | Some _ => St.ret tt c
           end.

Definition get_web3 : St.M client (option string) :=
  ((fun c => match web3 c with
             | None => init_web3 w c
             | Some _ => St.ret tt c
             end) ;;;
   St.gets web3)%st.

Definition get_contract : St.M client (option contract_handle) :=
  (ensure_contract ;;; St.gets contract)%st.

(** [contract.functions]: the attribute access fails on [None]. *)
Definition functions (c : client) : result contract_handle :=
  match contract c with
  | Some h => Ok h
  | None => Raise (AttributeError "'NoneType' object has no attribute 'functions'")
  end.

Definition procedure_dict (procedure : list json) : result dict :=
  (f0 <- tuple_item 0 procedure ;;
   f1 <- tuple_item 1 procedure ;;
   f2 <- tuple_item 2 procedure ;;
   f3 <- tuple_item 3 procedure ;;
   f4 <- tuple_item 4 procedure ;;
   f5 <- tuple_item 5 procedure ;;
   f6 <- tuple_item 6 procedure ;;
   f7 <- tuple_item 7 procedure ;;
   f8 <- tuple_item 8 procedure ;;
   Ok [ ("id", f0); ("patient_id", f1); ("practitioner", f2);
        ("procedure_type", f3); ("duration", f4); ("timestamp", f5);
        ("consent_hash", f6); ("is_active", f7); ("metadata", f8) ])%py.

Definition get_procedure_from_blockchain (procedure_id : Z)
    : St.M client (option dict) :=
  (ensure_contract ;;;
   (fun c =>
      match (functions c ;;; procedure <- getProcedure rd procedure_id ;;
             procedure_dict procedure)%py with
      | Ok d => (Ok (Some d), c)
      | Raise _ => (Ok None, c)
      end))%st.

(** The loop over the ids: each is resolved, and kept when the result is
    true (a dict with entries). *)
Fixpoint resolve_all (procedure_ids : list Z) (procedures : list dict)
    : St.M client (list dict) :=
  match procedure_ids with
  | [] => St.ret procedures
  | proc_id :: rest =>
      (procedure <- get_procedure_from_blockchain proc_id ;;
       match procedure with
       | Some d => if truth_value (JDict d)
                   then resolve_all rest (append procedures d)
                   else resolve_all rest procedures
       | None => resolve_all rest procedures
       end)%st
  end.

Definition get_patient_procedures_from_blockchain (patient_hash : string)
    : St.M client (list dict) :=
  (ensure_contract ;;;
   St.try_except
     (procedure_ids <- (fun c => ((functions c ;;; getPatientProcedures rd patient_hash)%py, c)) ;;
      resolve_all procedure_ids [])
     (fun _ => St.ret []))%st.

Definition get_practitioner_procedures_from_blockchain (practitioner_address : string)
    : St.M client (list dict) :=
  (ensure_contract ;;;
   St.try_except
     (procedure_ids <- (fun c => ((functions c ;;;
                                   getPractitionerProcedures rd practitioner_address)%py, c)) ;;
      resolve_all procedure_ids [])
     (fun _ => St.ret []))%st.

Definition is_practitioner (practitioner_address : string) : St.M client bool :=
  (ensure_contract ;;;
   (fun c =>
      match (functions c ;;; isPractitioner rd practitioner_address)%py with
      | Ok b => (Ok b, c)
      | Raise _ => (Ok false, c)
      end))%st.

Definition get_total_procedures : St.M client Z :=
  (ensure_contract ;;;
   (fun c =>
      match (functions c ;;; getTotalProcedures rd)%py with
      | Ok n => (Ok n, c)
      | Raise _ => (Ok 0, c)
      end))%st.

End WithWorld.

End BlockchainRead.

(* ================================================================== *)
(** ** backend/app/main.py: startup *)
(* ================================================================== *)

Module Main.

(** The ledger part of [lifespan], up to the [yield]. *)
Definition lifespan_startup (w : World.t) : St.M Blockchain.client unit :=
  St.try_except (Blockchain.init_web3 w) (fun _ => St.ret tt).

End Main.

(* ================================================================== *)
(** ** backend/app/utils/auth.py and routers/auth.py *)
(* ================================================================== *)

Module Auth.
Import World Session.

Record UserCreate : Type := mk_UserCreate {
  uc_username : string;
  uc_email : string;
  uc_role : string;
  uc_wallet_address : string;
  uc_password : string
}.

Definition get_current_active_user (current_user : User) : result User :=
  match Database.is_active current_user with
  | Some true => Ok current_user
  | _ => Raise (HTTPException 400 "Utilisateur inactif")
  end.

Definition get_current_practitioner (current_user : User) : result User :=
  if match role current_user with
     | Some r => str_in r ["practitioner"; "admin"]
     | None => false
     end
  then Ok current_user
  else Raise (HTTPException 403 "Permissions insuffisantes").

Definition get_current_admin (current_user : User) : result User :=
  if col_eq_str (role current_user) "admin"
  then Ok current_user
  else Raise (HTTPException 403 "Permissions administrateur requises").

Definition get_user_by_username (username_ : string) (d : db) : option User :=
  first (fun u => col_eq_str (username u) username_) (users d).

Definition get_user_by_email (email_ : string) (d : db) : option User :=
  first (fun u => col_eq_str (email u) email_) (users d).

Definition get_user_by_wallet (wallet : string) (d : db) : option User :=
  first (fun u => col_eq_str (wallet_address u) wallet) (users d).

Definition set_users (v : list User) (d : db) : db :=
  mk_db v (patients d) (procedures d) (consents d) (fhir_resources d).

Section WithWorld.
Variable w : World.t.
(** [pwd_context.hash] *)
Variable get_password_hash : string -> string.

Definition create_user (username_ email_ password role_ wallet : string)
    : St.M state User :=
  let hashed_password_ := get_password_hash password in
  add_commit w users set_users user_id
    (fun new_id => mk_User new_id (Some username_) (Some email_)
                     (Some hashed_password_) (Some role_) (Some wallet)
                     (Some true) (Some (utcnow_created w)) (Some (utcnow_updated w))).

Definition register (user : UserCreate) : St.M state User :=
  (db_user <- St.gets (fun s => get_user_by_username (uc_username user) (st_db s)) ;;
   match db_user with
   | Some _ => St.raise (HTTPException 400
                 ("Nom d'utilisateur d" ++ e_acute ++ "j" ++ String "224"%char " utilis"
                  ++ e_acute))
   | None =>
       db_user <- St.gets (fun s => get_user_by_email (uc_email user) (st_db s)) ;;
       match db_user with
       | Some _ => St.raise (HTTPException 400
                     ("Email d" ++ e_acute ++ "j" ++ String "224"%char " utilis"
                      ++ e_acute))
       | None => create_user (uc_username user) (uc_email user) (uc_password user)
                   (uc_role user) (uc_wallet_address user)
       end
   end)%st.

End WithWorld.

End Auth.

(* ================================================================== *)
(** ** backend/app/routers/procedures.py: the read endpoints *)
(* ================================================================== *)

Module ProceduresRead.
Import World Session Chain.

Definition get_patients (skip limit : Z) : St.M state (list Patient) :=
  St.gets (fun s => offset_limit skip limit (patients (st_db s))).

Definition get_patient (patient_hash_ : string) : St.M state Patient :=
  (patient <- St.gets (fun s =>
       first (fun p => col_eq_str (patient_hash p) patient_hash_) (patients (st_db s))) ;;
   match patient with
   | None => St.raise (HTTPException 404 ("Patient non trouv" ++ e_acute))
   | Some patient => St.ret patient
   end)%st.

(** Truth value of an [Optional[int]]. *)
Definition truthy_int (o : option Z) : bool :=
  match o with
  | Some n => negb (n =? 0)
  | None => false
  end.

(** [column == n] for a nullable integer column. *)
Definition col_eq_int (col : option Z) (n : Z) : bool :=
  match col with
  | Some m => m =? n
  | None => false
  end.

Definition get_procedures (skip limit : Z) (patient_hash_ : option string)
    (practitioner_id_ : option Z) : St.M state (list Procedure) :=
  St.gets (fun s =>
    let query := procedures (st_db s) in
    let query :=
      match patient_hash_ with
      | Some h => if truthy (Some h)
                  then filter (fun p => col_eq_str (proc_patient_hash p) h) query
                  else query
      | None => query
      end in
    let query :=
      match practitioner_id_ with
      | Some n => if truthy_int (Some n)
                  then filter (fun p => col_eq_int (practitioner_id p) n) query
                  else query
      | None => query
      end in
    offset_limit skip limit query).

Definition get_procedure (procedure_id : Z) : St.M state Procedure :=
  (procedure <- St.gets (fun s =>
       first (fun p => id p =? procedure_id) (procedures (st_db s))) ;;
   match procedure with
   | None => St.raise (HTTPException 404 ("Acte non trouv" ++ e_acute))
   | Some procedure => St.ret procedure
   end)%st.

Definition get_patient_history (patient_hash_ : string) : St.M state (list Procedure) :=
  St.gets (fun s =>
    order_by_desc created_at
      (filter (fun p => col_eq_str (proc_patient_hash p) patient_hash_)
              (procedures (st_db s)))).

Section WithWorld.
Variable w : World.t.
Variable rd : Reader.

Definition get_procedure_from_blockchain_endpoint (procedure_id : Z)
    : St.M state dict :=
  (procedure <- on_client (BlockchainRead.get_procedure_from_blockchain w rd procedure_id) ;;
   match procedure with
   | None => St.raise (HTTPException 404
               ("Acte non trouv" ++ e_acute ++ " sur la blockchain"))
   | Some procedure => St.ret procedure
   end)%st.

Definition get_patient_procedures_from_blockchain_endpoint (patient_hash_ : string)
    : St.M state dict :=
  (procedures_ <- on_client
       (BlockchainRead.get_patient_procedures_from_blockchain w rd patient_hash_) ;;
   St.ret [ ("procedures", JList (map JDict procedures_)) ])%st.

End WithWorld.

Definition get_procedure_types : list string * Z :=
  (Schemas.PROCEDURE_TYPES, Z.of_nat (List.length Schemas.PROCEDURE_TYPES)).

(** [counts[k] = counts.get(k, 0) + 1] on a dict whose keys are column
    values ([None] for NULL). *)
Definition opt_str_eqb (a b : option string) : bool :=
  match a, b with
  | Some x, Some y => (x =? y)%string
  | None, None => true
  | _, _ => false
  end.

Fixpoint count_get (k : option string) (counts : list (option string * Z)) : Z :=
  match counts with
  | [] => 0
  | (k', n) :: r => if opt_str_eqb k' k then n else count_get k r
  end.

Fixpoint count_set (k : option string) (n : Z) (counts : list (option string * Z))
    : list (option string * Z) :=
  match counts with
  | [] => [(k, n)]
  | (k', n') :: r => if opt_str_eqb k' k then (k', n) :: r
                     else (k', n') :: count_set k n r
  end.

Definition count_types (values : list (option string)) : list (option string * Z) :=
  fold_left (fun type_counts v => count_set v (count_get v type_counts + 1) type_counts)
            values [].

(** The values [SELECT DISTINCT] keeps: the first occurrence of each. *)
Fixpoint distinct (values : list (option string)) : list (option string) :=
  match values with
  | [] => []
  | v :: r => v :: filter (fun x => negb (opt_str_eqb x v)) (distinct r)
  end.

Record procedure_stats : Type := mk_procedure_stats {
  total_procedures : Z;
  user_procedures : Z;
  procedure_types : list (option string * Z);
  unique_patients : Z
}.

Definition get_procedure_stats (current_user : Schemas.User)
    : St.M state procedure_stats :=
  St.gets (fun s =>
    let rows := procedures (st_db s) in
    mk_procedure_stats
      (Z.of_nat (List.length rows))
      (Z.of_nat (List.length
         (filter (fun p => col_eq_int (practitioner_id p) (Schemas.id current_user)) rows)))
      (count_types (map procedure_type rows))
      (Z.of_nat (List.length (distinct (map proc_patient_hash rows))))).

End ProceduresRead.

(* ================================================================== *)
(** ** backend/app/routers/fhir.py: the other endpoints *)
(* ================================================================== *)

Module FhirRead.
Import World Session.

Section WithWorld.
Variable w : World.t.
Variable repr_other : json -> string.

Definition generate_fhir_patient (patient_hash_ : string) (current_user : Schemas.User)
    : St.M state dict :=
  (patient <- St.gets (fun s =>
       first (fun p => col_eq_str (patient_hash p) patient_hash_) (patients (st_db s))) ;;
   match patient with
   | None => St.raise (HTTPException 404 ("Patient non trouv" ++ e_acute))
   | Some patient =>
       fhir_patient <- St.lift (create_fhir_patient patient) ;;
       add_commit w fhir_resources set_fhir_resources fhir_id
         (fun new_id => mk_FHIRResource new_id (Some "Patient")
                          (Some ("patient-" ++ patient_hash_))
                          (Some fhir_patient)
                          (Some (utcnow_created w))
                          (Some (utcnow_updated w))) ;;;
       St.ret fhir_patient
   end)%st.

Definition generate_fhir_practitioner (practitioner_id_ : Z)
    (current_user : Schemas.User) : St.M state dict :=
  (practitioner <- St.gets (fun s =>
       first (fun u => user_id u =? practitioner_id_) (users (st_db s))) ;;
   match practitioner with
   | None => St.raise (HTTPException 404 ("Praticien non trouv" ++ e_acute))
   | Some practitioner =>
       fhir_practitioner <- St.lift (create_fhir_practitioner practitioner) ;;
       add_commit w fhir_resources set_fhir_resources fhir_id
         (fun new_id => mk_FHIRResource new_id (Some "Practitioner")
                          (Some ("practitioner-" ++ str_int practitioner_id_))
                          (Some fhir_practitioner)
                          (Some (utcnow_created w))
                          (Some (utcnow_updated w))) ;;;
       St.ret fhir_practitioner
   end)%st.

(** The loop over the patient's procedures, appending to
    [bundle["entry"]]. *)
Fixpoint bundle_claims (d : db) (patient : Patient) (procedures_ : list Procedure)
    (entry : list json) : result (list json) :=
  match procedures_ with
  | [] => Ok entry
  | procedure :: rest =>
      match first (fun u => col_eq_opt_int (user_id u) (practitioner_id procedure))
                  (users d) with
      | Some practitioner =>
          (claim <- create_fhir_claim procedure patient practitioner ;;
           claim_id <- item "id" claim ;;
           bundle_claims d patient rest
             (append entry (JDict [
                ("resource", JDict claim);
                ("fullUrl", JStr ("Claim/" ++ str_value repr_other claim_id)) ])))%py
      | None => bundle_claims d patient rest entry
      end
  end.

Definition generate_patient_bundle (utcnow : datetime) (patient_hash_ : string)
    (current_user : Schemas.User) : St.M state dict :=
  (patient <- St.gets (fun s =>
       first (fun p => col_eq_str (patient_hash p) patient_hash_) (patients (st_db s))) ;;
   match patient with
   | None => St.raise (HTTPException 404 ("Patient non trouv" ++ e_acute))
   | Some patient =>
       procedures_ <- St.gets (fun s =>
           filter (fun p => col_eq_str (proc_patient_hash p) patient_hash_)
                  (procedures (st_db s))) ;;
       let bundle : dict :=
         [ ("resourceType", JStr "Bundle");
           ("id", JStr ("bundle-patient-" ++ patient_hash_));
           ("type", JStr "collection");
           ("timestamp", JStr (isoformat utcnow));
           ("entry", JList []) ] in
       fhir_patient <- St.lift (create_fhir_patient patient) ;;
       let entry := [ JDict [ ("resource", JDict fhir_patient);
                              ("fullUrl", JStr ("Patient/" ++ patient_hash_)) ] ] in
       d <- St.gets st_db ;;
       entry <- St.lift (bundle_claims d patient procedures_ entry) ;;
       St.ret (set "entry" (JList entry) bundle)
   end)%st.

(** One stored document as the two read endpoints return it. *)
Definition resource_view (resource : FHIRResource) : result dict :=
  (data <- match fhir_data resource with
           | Some d => Ok d
           | None => Raise (TypeError
               "the JSON object must be str, bytes or bytearray, not NoneType")
           end ;;
   created <- isoformat_opt (fhir_created_at resource) ;;
   updated <- isoformat_opt (fhir_updated_at resource) ;;
   Ok [ ("id", JInt (fhir_id resource));
        ("resource_type", of_opt_str (resource_type resource));
        ("resource_id", of_opt_str (resource_id resource));
        ("fhir_data", JDict data);
        ("created_at", JStr created);
        ("updated_at", JStr updated) ])%py.

Fixpoint resource_views (resources : list FHIRResource) (result_ : list dict)
    : result (list dict) :=
  match resources with
  | [] => Ok result_
  | resource :: rest =>
      (v <- resource_view resource ;; resource_views rest (append result_ v))%py
  end.

Definition get_fhir_resources (resource_type_ : option string) (skip limit : Z)
    : St.M state (list dict) :=
  (resources <- St.gets (fun s =>
       let query := fhir_resources (st_db s) in
       let query :=
         match resource_type_ with
         | Some t => if truthy (Some t)
                     then filter (fun r => col_eq_str (resource_type r) t) query
                     else query
         | None => query
         end in
       offset_limit skip limit query) ;;
   St.lift (resource_views resources []))%st.

Definition get_fhir_resource (resource_id_ : string) : St.M state dict :=
  (resource <- St.gets (fun s =>
       first (fun r => col_eq_str (resource_id r) resource_id_)
             (fhir_resources (st_db s))) ;;
   match resource with
   | None => St.raise (HTTPException 404 ("Ressource FHIR non trouv" ++ e_acute ++ "e"))
   | Some resource => St.lift (resource_view resource)
   end)%st.

Definition resource_required_fields : list (string * list string) :=
  [ ("Claim", ["resourceType"; "id"; "status"; "type"; "patient"; "provider"]);
    ("Patient", ["resourceType"; "id"]);
    ("Practitioner", ["resourceType"; "id"]) ].

Fixpoint required_of (k : string) (table : list (string * list string))
    : option (list string) :=
  match table with
  | [] => None
  | (k', v) :: r => if (k' =? k)%string then Some v else required_of k r
  end.

Definition validate_fhir_resource (fhir_data_ : dict) : result dict :=
  match get "resourceType" fhir_data_ with
  | None => Raise (HTTPException 400 "resourceType manquant")
  | Some resource_type_ =>
      if negb (truth_value resource_type_)
      then Raise (HTTPException 400 "resourceType manquant")
      else
        match resource_type_ with
        | JList _ => Raise (TypeError "unhashable type: 'list'")
        | JDict _ => Raise (TypeError "unhashable type: 'dict'")
        | _ =>
            let fields :=
              match resource_type_ with
              | JStr t => required_of t resource_required_fields
              | _ => None
              end in
            match fields with
            | None => Raise (HTTPException 400
                        ("Type de ressource non support" ++ e_acute ++ ": "
                         ++ str_value repr_other resource_type_))
            | Some fields =>
                let missing_fields :=
                  fold_left (fun missing field =>
                               if has field fhir_data_ then missing
                               else append missing field)
                            fields [] in
                match missing_fields with
                | _ :: _ => Raise (HTTPException 400
                              ("Champs manquants pour "
                               ++ str_value repr_other resource_type_ ++ ": "
                               ++ repr_str_list missing_fields))
                | [] => Ok [ ("valid", JBool true);
                             ("resource_type", resource_type_);
                             ("message", JStr "Ressource FHIR valide") ]
                end
            end
        end
  end.

Record fhir_stats : Type := mk_fhir_stats {
  total_resources : Z;
  resource_types : list (option string * Z);
  last_created : option string
}.

Definition get_fhir_stats : St.M state fhir_stats :=
  (rows <- St.gets (fun s => fhir_resources (st_db s)) ;;
   let total := Z.of_nat (List.length rows) in
   let type_counts := ProceduresRead.count_types (map resource_type rows) in
   last <- St.lift
     (if 0 <? total
      then match order_by_desc fhir_created_at rows with
           | newest :: _ => (t <- isoformat_opt (fhir_created_at newest) ;; Ok (Some t))%py
           | [] => Raise (AttributeError "'NoneType' object has no attribute 'created_at'")
           end
      else Ok None) ;;
   St.ret (mk_fhir_stats total type_counts last))%st.

End WithWorld.

End FhirRead.

(* ================================================================== *)
(** ** Vocabulary of the further statements *)
(* ================================================================== *)

Module SpecMore.
Import World Session Chain.

(** The keys of a dict are distinct. *)
Definition distinct_keys (d : dict) : Prop := NoDup (map fst d).

(** A resource the bundle builder can address. *)
Definition addressable (resource : dict) : Prop :=
  has "resourceType" resource = true /\ has "id" resource = true.

(** The bundle entry [e] wraps the resource [r]: it holds [r] itself and
    addresses it as [<resourceType>/<id>]. *)
Definition wraps (repr_other : json -> string) (r : dict) (e : json) : Prop :=
  at_path [Key "resource"] e = Some (JDict r)
  /\ exists rt rid,
       get "resourceType" r = Some rt /\ get "id" r = Some rid
       /\ at_path [Key "fullUrl"] e
          = Some (JStr (str_value repr_other rt ++ "/" ++ str_value repr_other rid)).

(** The endpoint's table knows the resource type of [d] and [d] has every
    field the table asks for. *)
Definition endpoint_complete (d : dict) : Prop :=
  exists t fields,
    get "resourceType" d = Some (JStr t)
    /\ FhirRead.required_of t FhirRead.resource_required_fields = Some fields
    /\ Forall (fun f => has f d = true) fields.

(** What the chain gives for one id, when it can be read as a record. *)
Definition resolved (rd : Reader) (procedure_id : Z) : option dict :=
  match getProcedure rd procedure_id with
  | Ok t => match BlockchainRead.procedure_dict t with
            | Ok d => Some d
            | Raise _ => None
            end
  | Raise _ => None
  end.

Definition resolved_all (rd : Reader) (ids : list Z) : list dict :=
  flat_map (fun i => match resolved rd i with
                     | Some d => [d]
                     | None => []
                     end) ids.

(** The practitioner of the procedure is a stored user. *)
Definition has_practitioner (d : db) (p : Procedure) : bool :=
  match first (fun u => col_eq_opt_int (user_id u) (practitioner_id p)) (users d) with
  | Some _ => true
  | None => false
  end.

(** No two stored patients share a hash; no two users a name or an
    address. *)
Definition unique_patients (d : db) : Prop := NoDup (map patient_hash (patients d)).
Definition unique_usernames (d : db) : Prop := NoDup (map username (users d)).
Definition unique_emails (d : db) : Prop := NoDup (map email (users d)).

(** The sum of the counts of a counting dict. *)
Definition total_count (counts : list (option string * Z)) : Z :=
  fold_right (fun kv acc => snd kv + acc) 0 counts.

End SpecMore.
Import SpecMore.

Module SampleMore.
Import World Session Chain.

Definition named_patient : Patient :=
  mk_Patient 2 (Some "ffeeddccbbaa9988") (Some "5e884898da28") None None (Some Sample.t0).

Definition followup : Procedure :=
  mk_Procedure 2 None (Some "a1b2c3d4e5f60718") (Some 7) (Some "drainage") (Some 30)
               None None None (Some Sample.t2) (Some Sample.t2).

Definition insurance : dict :=
  [ ("status", JStr "cancelled"); ("payor", JList [ JStr "CPAM" ]) ].

Definition chain_record (n : Z) : list json :=
  [ JInt n; JStr "a1b2c3d4e5f60718"; JStr "0xf39F"; JStr "stent"; JInt 45;
    JInt 1700000000; JStr ""; JBool true; JStr "" ].

(** A contract with records 1 and 3; reading record 2 reverts. *)
Definition reader : Reader :=
  mk_Reader
    (fun n => if (n =? 1) || (n =? 3) then Ok (chain_record n)
              else Raise (LibraryError "ContractLogicError" "execution reverted"))
    (fun _ => Ok [1; 2; 3])
    (fun _ => Ok [3])
    (fun a => Ok (a =? "0xf39F")%string)
    (Ok 3).

Definition ready_client : Blockchain.client :=
  Blockchain.mk_client (Some "http://127.0.0.1:8545")
    (Some (Blockchain.mk_contract_handle "0x5FbDB2315678" (ArtifactAbi (JList []))))
    (Some "0x5FbDB2315678").

Definition md5_stub (resources : list dict) : string :=
  "0cc175b9c0f1b6a831c399e269772661".

Definition repr_stub (v : json) : string := "...".

Definition admin : User :=
  mk_User 1 (Some "root") (Some "root@example.org") None (Some "admin") None
          (Some true) (Some Sample.t0) (Some Sample.t0).

Definition new_user : Auth.UserCreate :=
  Auth.mk_UserCreate "dr.lee" "lee@example.org" "practitioner" "0x7099" "s3cret".

End SampleMore.
(* ================================================================== *)
(** ** Properties of the document builder and validator *)
(* ================================================================== *)

Section Converter.

Lemma truthy_carries (o : option string) : truthy o = true <-> carries o.
Proof.
  unfold carries; destruct o as [h|]; simpl.
  - rewrite negb_true_iff, String.eqb_neq; split.
    + intros Hh; exists h; split; [reflexivity | exact Hh].
    + intros [h' [E Hh]]; injection E as ->; exact Hh.
  - split; [discriminate | intros [h [E _]]; discriminate].
Qed.

Lemma truthy_false_not_carries (o : option string) : truthy o = false <-> ~ carries o.
Proof.
  rewrite <- truthy_carries; destruct (truthy o); split; intro H;
    try reflexivity; try discriminate; try (intros E; discriminate).
  exfalso; apply H; reflexivity.
Qed.

Lemma lower_char_idempotent (c : ascii) : lower_char (lower_char c) = lower_char c.
Proof.
  destruct c as [[] [] [] [] [] [] [] []]; vm_compute; reflexivity.
Qed.

Lemma lower_idempotent (s : string) : lower (lower s) = lower s.
Proof.
  induction s as [|c r IH]; simpl; [reflexivity|].
  now rewrite lower_char_idempotent, IH.
Qed.

(** [create_fhir_claim] returns exactly when the four fields it
    dereferences are set. *)
Lemma create_fhir_claim_returns (p : Procedure) (pa : Patient) (pr : User) :
  well_formed p pa -> exists claim, create_fhir_claim p pa pr = Ok claim.
Proof.
  intros (Ht & Hh & Hc & Hu). unfold create_fhir_claim.
  destruct (procedure_type p); [|contradiction].
  destruct (patient_hash pa); [|contradiction].
  destruct (created_at p); [|contradiction].
  destruct (updated_at p); [|contradiction].
  simpl. eexists; reflexivity.
Qed.

Lemma create_fhir_claim_well_formed (p : Procedure) (pa : Patient) (pr : User) claim :
  create_fhir_claim p pa pr = Ok claim -> well_formed p pa.
Proof.
  unfold create_fhir_claim, well_formed.
  destruct (procedure_type p); [|discriminate].
  destruct (patient_hash pa); [|discriminate].
  destruct (created_at p); [|discriminate].
  destruct (updated_at p); [|discriminate].
  intros _; repeat split; discriminate.
Qed.

End Converter.

(** Splits on the nullable fields [create_fhir_claim] reads and on the
    truth value of the two hashes. *)
Ltac open_claim p pa :=
  unfold create_fhir_claim;
  destruct (procedure_type p) as [?ptype|] eqn:?Etype; [|try discriminate; try contradiction];
  destruct (patient_hash pa) as [?phash|] eqn:?Ehash; [|try discriminate; try contradiction];
  destruct (created_at p) as [?created|] eqn:?Ecreated; [|try discriminate; try contradiction];
  destruct (updated_at p) as [?updated|] eqn:?Eupdated; [|try discriminate; try contradiction];
  cbn [Py.bind isoformat_opt];
  destruct (blockchain_tx_hash p) as [?tx|] eqn:?Etx;
  [destruct (truthy (Some tx)) eqn:?Ttx|];
  (destruct (consent_hash p) as [?consent|] eqn:?Econsent;
   [destruct (truthy (Some consent)) eqn:?Tconsent|]).

(** C3. For every procedure, patient and practitioner whose fields read by
    the builder are set (procedure type, patient hash, creation and update
    timestamps), [create_fhir_claim] returns a claim, and
    [validate_fhir_claim] returns for it [valid = true] with an empty
    error list. *)
Theorem built_claim_validates (p : Procedure) (pa : Patient) (pr : User) :
  well_formed p pa ->
  exists claim,
    create_fhir_claim p pa pr = Ok claim
    /\ validate_fhir_claim claim = Ok (mk_validation true [] []).
Proof.
  intros (Ht & Hh & Hc & Hu).
  open_claim p pa; eexists; (split; [reflexivity|]); reflexivity.
Qed.

Lemma built_claim_validates_witness :
  well_formed Sample.stent Sample.patient
  /\ exists claim,
       create_fhir_claim Sample.stent Sample.patient Sample.practitioner = Ok claim
       /\ validate_fhir_claim claim = Ok (mk_validation true [] []).
Proof.
  assert (H : well_formed Sample.stent Sample.patient)
    by (repeat split; discriminate).
  split; [exact H | exact (built_claim_validates _ _ Sample.practitioner H)].
Defined.

(** The same split, on a hypothesis saying which claim was built. *)
Ltac invert_claim H p pa :=
  unfold create_fhir_claim in H;
  destruct (procedure_type p) as [?ptype|] eqn:?Etype; [|discriminate H];
  destruct (patient_hash pa) as [?phash|] eqn:?Ehash; [|discriminate H];
  destruct (created_at p) as [?created|] eqn:?Ecreated; [|discriminate H];
  destruct (updated_at p) as [?updated|] eqn:?Eupdated; [|discriminate H];
  cbn [Py.bind isoformat_opt] in H;
  destruct (blockchain_tx_hash p) as [?tx|] eqn:?Etx;
  [destruct (truthy (Some tx)) eqn:?Ttx|];
  (destruct (consent_hash p) as [?consent|] eqn:?Econsent;
   [destruct (truthy (Some consent)) eqn:?Tconsent|]);
  injection H as <-.

Ltac hash_facts :=
  repeat match goal with
  | H : truthy (Some _) = true |- _ => apply truthy_carries in H
  | H : truthy (Some _) = false |- _ => apply truthy_false_not_carries in H
  end.

(** C6. The catalog lookup only sees the lowercased procedure type: two
    strings with the same lowercasing get the same coded concept, and a
    string gets the concept of its own lowercasing.  When the lowercased
    string is not a key of the catalog, [get_snomed_code] returns the
    default triple (code 261190007, Percutaneous puncture, SNOMED system),
    and every claim [create_fhir_claim] builds for a procedure of that type
    carries that triple in its procedure entry and in its item. *)
Theorem unknown_type_gets_default (s : string) :
  (forall t, lower t = lower s -> get_snomed_code t = get_snomed_code s)
  /\ get_snomed_code (lower s) = get_snomed_code s
  /\ (catalog_get (lower s) SNOMED_PROCEDURE_CODES = None ->
      get_snomed_code s
        = mk_snomed "261190007" "Percutaneous puncture" "http://snomed.info/sct"
      /\ forall p pa pr claim,
           procedure_type p = Some s ->
           create_fhir_claim p pa pr = Ok claim ->
           at_path [Key "procedure"; Idx 0; Key "procedureCodeableConcept"; Key "coding"]
                   (JDict claim)
             = Some (JList [JDict [("system", JStr "http://snomed.info/sct");
                                   ("code", JStr "261190007");
                                   ("display", JStr "Percutaneous puncture")]])
           /\ at_path [Key "item"; Idx 0; Key "productOrService"; Key "coding"]
                      (JDict claim)
                = Some (JList [JDict [("system", JStr "http://snomed.info/sct");
                                      ("code", JStr "261190007");
                                      ("display", JStr "Percutaneous puncture")]])).
Proof.
  split; [|split].
  - intros t E. unfold get_snomed_code. now rewrite E.
  - unfold get_snomed_code. now rewrite lower_idempotent.
  - intros Hnone.
    assert (Hdef : get_snomed_code s = default_snomed)
      by (unfold get_snomed_code; now rewrite Hnone).
    split; [exact Hdef|].
    intros p pa pr claim Hs H.
    invert_claim H p pa; injection Hs as ->; rewrite Hdef; split; reflexivity.
Qed.

Lemma unknown_type_gets_default_witness :
  get_snomed_code "Laser"
    = mk_snomed "261190007" "Percutaneous puncture" "http://snomed.info/sct"
  /\ get_snomed_code "STENT" = get_snomed_code "stent".
Proof.
  split.
  - apply (proj2 (proj2 (unknown_type_gets_default "Laser"))). reflexivity.
  - apply (proj1 (unknown_type_gets_default "stent")). reflexivity.
Defined.

(** C7. In every claim [create_fhir_claim] builds, [meta.extension] exists
    if and only if the procedure record carries a transaction hash, and is
    then the blockchain-transaction extension whose [valueString] is that
    hash; [supportingInfo] exists if and only if the record carries a
    consent hash, and is then the consent entry whose [valueString] is that
    hash.  (A column carries a hash when it holds a non-empty string.) *)
Theorem provenance_and_consent_iff (p : Procedure) (pa : Patient) (pr : User)
    (claim : dict) :
  create_fhir_claim p pa pr = Ok claim ->
  ((exists e, at_path provenance_path (JDict claim) = Some e)
     <-> carries (blockchain_tx_hash p))
  /\ (forall tx, blockchain_tx_hash p = Some tx -> tx <> "" ->
        at_path provenance_path (JDict claim)
          = Some (JList [JDict
              [("url", JStr "http://radiology-dapp.com/blockchain-transaction");
               ("valueString", JStr tx)]]))
  /\ ((exists e, at_path supporting_path (JDict claim) = Some e)
        <-> carries (consent_hash p))
  /\ (forall c, consent_hash p = Some c -> c <> "" ->
        at_path [Key "supportingInfo"; Idx 0; Key "valueString"] (JDict claim)
          = Some (JStr c)
        /\ at_path [Key "supportingInfo"; Idx 0; Key "category"; Key "coding";
                    Idx 0; Key "code"] (JDict claim)
           = Some (JStr "consent")).
Proof.
  intros H.
  invert_claim H p pa; hash_facts;
    (split; [|split; [|split]]);
    try (split; [intros [e He]; first [discriminate He | assumption]
                | intros Hc; first [contradiction | eexists; reflexivity]]);
    try (intros h Eh Hne; first [discriminate Eh | injection Eh as <-];
         first [ reflexivity | split; reflexivity
               | exfalso; match goal with
                          | Hn : ~ carries (Some _) |- _ =>
                              apply Hn; eexists; split; [reflexivity | exact Hne]
                          end ]).
  all: try (split; [intros [e He]; discriminate He
                   | intros [h [Eh _]]; discriminate Eh]).
Qed.

Lemma provenance_and_consent_iff_witness :
  exists claim,
    create_fhir_claim Sample.anchored Sample.patient Sample.practitioner = Ok claim
    /\ at_path provenance_path (JDict claim)
       = Some (JList [JDict
           [("url", JStr "http://radiology-dapp.com/blockchain-transaction");
            ("valueString", JStr "0xabc")]]).
Proof.
  destruct (create_fhir_claim Sample.anchored Sample.patient Sample.practitioner)
    as [claim|e] eqn:E; [|discriminate E].
  exists claim; split; [reflexivity|].
  apply (proj1 (proj2 (provenance_and_consent_iff _ _ _ _ E))); [reflexivity|discriminate].
Defined.

(** C8. For a procedure record of type "stent" and duration 45 that
    carries no consent hash and no ledger transaction hash, every claim
    [create_fhir_claim] builds has the coding with code 384692006 and
    display "Insertion of stent" in its procedure entry, no
    [supportingInfo] section and no [extension] in [meta]. *)
Theorem stent_scenario (r : Procedure) (pa : Patient) (pr : User) (claim : dict) :
  procedure_type r = Some "stent" ->
  Database.duration r = Some 45 ->
  ~ carries (consent_hash r) ->
  ~ carries (blockchain_tx_hash r) ->
  create_fhir_claim r pa pr = Ok claim ->
  at_path [Key "procedure"; Idx 0; Key "procedureCodeableConcept"; Key "coding"; Idx 0]
          (JDict claim)
    = Some (JDict [("system", JStr "http://snomed.info/sct");
                   ("code", JStr "384692006");
                   ("display", JStr "Insertion of stent")])
  /\ has "supportingInfo" claim = false
  /\ at_path [Key "meta"; Key "extension"] (JDict claim) = None.
Proof.
  intros Ht _ Hc Hx H.
  invert_claim H r pa; hash_facts; try contradiction;
    injection Ht as ->; repeat split; reflexivity.
Qed.

Lemma stent_scenario_witness :
  exists claim,
    create_fhir_claim Sample.stent Sample.patient Sample.practitioner = Ok claim
    /\ at_path [Key "procedure"; Idx 0; Key "procedureCodeableConcept"; Key "coding"; Idx 0]
               (JDict claim)
       = Some (JDict [("system", JStr "http://snomed.info/sct");
                      ("code", JStr "384692006");
                      ("display", JStr "Insertion of stent")])
    /\ has "supportingInfo" claim = false
    /\ at_path [Key "meta"; Key "extension"] (JDict claim) = None.
Proof.
  destruct (create_fhir_claim Sample.stent Sample.patient Sample.practitioner)
    as [claim|e] eqn:E; [|discriminate E].
  exists claim; split; [reflexivity|].
  apply (stent_scenario Sample.stent Sample.patient Sample.practitioner claim);
    [reflexivity | reflexivity | | | exact E];
    intros [h [Eh _]]; discriminate Eh.
Defined.

Section Validator.

Lemma check_procedures_all_ok (entries : list json) :
  Forall entry_ok entries ->
  forall i errs, check_procedures i entries errs = Ok errs.
Proof.
  induction 1 as [|e es [Hs Hc] _ IH]; intros i errs; simpl.
  - reflexivity.
  - rewrite Hs; simpl. rewrite Hc; simpl. apply IH.
Qed.

Lemma in_strs_In (s : string) (xs : list string) :
  In s xs -> in_strs (Some (JStr s)) xs = true.
Proof.
  intros Hin. unfold in_strs. apply existsb_exists.
  exists s; split; [exact Hin | simpl; apply String.eqb_refl].
Qed.

Lemma keep_empty {A} (b : bool) (l : list A) (m : A) :
  (if b then l else append l m) = [] -> b = true /\ l = [].
Proof.
  destruct b; [now split|]. unfold append. intros H.
  now apply app_eq_nil in H as [_ H].
Qed.

Lemma check_procedures_empty (entries : list json) :
  forall i errs errs',
    check_procedures i entries errs = Ok errs' -> errs' = [] ->
    errs = [] /\ Forall entry_ok entries.
Proof.
  induction entries as [|e es IH]; simpl; intros i errs errs' H Hnil.
  - injection H as <-. now split.
  - destruct (contains "sequence" e) as [b1|] eqn:E1; [|discriminate H].
    cbn [Py.bind] in H.
    destruct (contains "procedureCodeableConcept" e) as [b2|] eqn:E2; [|discriminate H].
    cbn [Py.bind] in H.
    destruct (IH _ _ _ H Hnil) as [H1 Hall].
    apply keep_empty in H1 as [-> H1]. apply keep_empty in H1 as [-> H1].
    split; [exact H1|]. constructor; [now split | exact Hall].
Qed.

Lemma required_fields_empty (claim : dict) (fields : list string) :
  forall acc,
    fold_left (fun errors field =>
                 if has field claim then errors
                 else append errors ("Champ requis manquant: " ++ field))
              fields acc = [] ->
    acc = [] /\ Forall (fun field => has field claim = true) fields.
Proof.
  induction fields as [|f fs IH]; simpl; intros acc H.
  - now split.
  - destruct (IH _ H) as [Hacc Hall].
    apply keep_empty in Hacc as [Hf Hacc].
    split; [exact Hacc | now constructor].
Qed.

(** The converse of the validator's acceptance: a document it accepts
    has the six required keys, the resource type and a listed status, and
    every entry of a present [procedure] section passes both checks. *)
Lemma accepted_claim_is_complete (claim : dict) (warnings : list string) :
  validate_fhir_claim claim = Ok (mk_validation true [] warnings) ->
  Forall (fun field => has field claim = true) required_fields
  /\ eq_str (get "resourceType" claim) "Claim" = true
  /\ in_strs (get "status" claim) valid_statuses = true
  /\ procedure_section_ok claim.
Proof.
  unfold validate_fhir_claim, procedure_section_ok.
  set (e1 := fold_left _ required_fields []).
  set (e2 := if eq_str _ _ then e1 else _).
  set (e3 := if in_strs _ _ then e2 else _).
  intros H.
  assert (Hnil : e3 = [] /\ match get "procedure" claim with
                            | Some section => exists entries,
                                iter section = Ok entries /\ Forall entry_ok entries
                            | None => True
                            end).
  { destruct (get "procedure" claim) as [section|].
    - destruct (iter section) as [entries|]; [|discriminate H]. cbn [Py.bind] in H.
      destruct (check_procedures 0 entries e3) as [errs'|] eqn:Hchk; [|discriminate H].
      cbn [Py.bind] in H. injection H as _ ->.
      destruct (check_procedures_empty _ _ _ _ Hchk eq_refl) as [He Hall].
      split; [exact He | exists entries; now split].
    - cbn [Py.bind] in H. injection H as _ ->. now split. }
  destruct Hnil as [Hnil Hok].
  apply keep_empty in Hnil as [Hstatus Hnil].
  apply keep_empty in Hnil as [Htype Hnil].
  apply required_fields_empty in Hnil as [_ Hreq].
  repeat split; assumption.
Qed.

End Validator.

(** C10. [validate_fhir_claim] returns [valid = true], with no error, for
    every document whose [resourceType] is "Claim", whose [status] is one
    of "active", "cancelled", "draft" and "entered-in-error", and which has
    the keys [id], [type], [patient] and [provider], provided its
    [procedure] section is absent or every entry in it has a sequence and
    a coded concept.  Nothing is asked of [insurance], [item] or [meta]. *)
Theorem minimal_claim_validates (claim : dict) (status : string) :
  get "resourceType" claim = Some (JStr "Claim") ->
  has "id" claim = true ->
  get "status" claim = Some (JStr status) ->
  In status valid_statuses ->
  has "type" claim = true ->
  has "patient" claim = true ->
  has "provider" claim = true ->
  procedure_section_ok claim ->
  validate_fhir_claim claim = Ok (mk_validation true [] []).
Proof.
  intros Hrt Hid Hst Hin Hty Hpa Hpr Hsec.
  unfold validate_fhir_claim, required_fields. simpl fold_left.
  assert (Hrt' : has "resourceType" claim = true) by (unfold has; now rewrite Hrt).
  assert (Hst' : has "status" claim = true) by (unfold has; now rewrite Hst).
  rewrite Hrt', Hid, Hst', Hty, Hpa, Hpr.
  rewrite Hrt. cbn [eq_str]. rewrite String.eqb_refl.
  rewrite Hst, (in_strs_In _ _ Hin).
  unfold procedure_section_ok in Hsec.
  destruct (get "procedure" claim) as [section|].
  - destruct Hsec as (entries & Hit & Hall).
    rewrite Hit. cbn [Py.bind].
    rewrite (check_procedures_all_ok _ Hall). reflexivity.
  - reflexivity.
Qed.

Lemma minimal_claim_validates_witness :
  validate_fhir_claim
    [ ("resourceType", JStr "Claim"); ("id", JStr "claim-1"); ("status", JStr "draft");
      ("type", JNull); ("patient", JNull); ("provider", JNull) ]
  = Ok (mk_validation true [] []).
Proof.
  apply (minimal_claim_validates _ "draft");
    first [reflexivity | exact I | simpl; auto].
Defined.

(* ================================================================== *)
(** ** Properties of the ledger client *)
(* ================================================================== *)

Section Ledger.
Import World Blockchain.

Variable w : World.t.

(** The [try] block turns every outcome of the submission into a value. *)
Lemma record_when_initialised (ph pt : string) (d : Z) (ch md key : string)
    (c : client) (h : contract_handle) :
  contract c = Some h ->
  record_procedure_on_blockchain w ph pt d ch md key c
  = (match submit w c (mk_call ph pt d ch md) key with
     | Ok r => Ok r
     | Raise e => Ok (Failure (str_exn e))
     end, c).
Proof.
  intros Hc. unfold record_procedure_on_blockchain, St.bind, St.ret.
  rewrite Hc. destruct (submit w c _ key); reflexivity.
Qed.

(** A receipt comes from the node: the hash is the one the node gave for
    the raw transaction, block number and gas are those of its receipt. *)
Lemma submit_success (c : client) (args : call) (key : string) (r : blockchain_result) :
  submit w c args key = Ok r ->
  exists h raw rcpt,
    r = Success h (blockNumber rcpt) (gasUsed rcpt)
    /\ send_raw_transaction (node w) raw = Ok h
    /\ wait_for_transaction_receipt (node w) h = Ok rcpt.
Proof.
  unfold submit, first_account.
  destruct (contract c); [|discriminate]. cbn [Py.bind].
  destruct (functions_recordProcedure _ _ _); [|discriminate]. cbn [Py.bind].
  destruct (web3 c); [|discriminate].
  destruct (eth_accounts (node w)) as [[|acct accts]|]; try discriminate. cbn [Py.bind].
  destruct (estimate_gas _ _ _); [|discriminate]. cbn [Py.bind].
  destruct (eth_gas_price _); [|discriminate]. cbn [Py.bind].
  destruct (get_transaction_count _ _); [|discriminate]. cbn [Py.bind].
  destruct (build_transaction _ _ _); [|discriminate]. cbn [Py.bind].
  destruct (sign_transaction _ _ _ _) as [raw|]; [|discriminate]. cbn [Py.bind].
  destruct (send_raw_transaction _ raw) as [h'|] eqn:Es; [|discriminate]. cbn [Py.bind].
  destruct (wait_for_transaction_receipt _ h') as [rcpt|] eqn:Ew; [|discriminate].
  cbn [Py.bind]. intros E; injection E as <-.
  exists h', raw, rcpt; repeat split; assumption.
Qed.

(** What [init_web3] leaves when it returns: a contract handle. *)
Lemma init_web3_ok (c c' : client) :
  init_web3 w c = (Ok tt, c') -> exists h, contract c' = Some h.
Proof.
  unfold init_web3, St.bind, St.modify, St.ret, St.raise, St.lift.
  destruct (truthy (CONTRACT_ADDRESS w)); [|discriminate].
  destruct (is_connected _ _); [|discriminate].
  destruct (load_abi (node w)) as [loaded|[]]; try discriminate;
    destruct (eth_contract _ _ _); try discriminate;
    intros E; injection E as <-; eexists; reflexivity.
Qed.

(** Once past the lazy initialisation, the call returns what the [try]
    block makes of the submission, on the client state the initialisation
    left. *)
Lemma record_past_init (ph pt : string) (d : Z) (ch md key : string) (c : client) :
  contract c <> None \/ fst (init_web3 w c) = Ok tt ->
  exists c',
    record_procedure_on_blockchain w ph pt d ch md key c
    = (match submit w c' (mk_call ph pt d ch md) key with
       | Ok r => Ok r
       | Raise e => Ok (Failure (str_exn e))
       end, c').
Proof.
  intros H. destruct (contract c) as [h0|] eqn:E.
  - exists c. exact (record_when_initialised _ _ _ _ _ _ _ _ E).
  - destruct H as [H | H]; [contradiction|].
    destruct (init_web3 w c) as [[[]|e] ci] eqn:Ei; [|discriminate H].
    destruct (init_web3_ok _ _ Ei) as [hi Hci].
    exists ci. rewrite <- (record_when_initialised ph pt d ch md key ci hi Hci).
    unfold record_procedure_on_blockchain, St.bind, St.ret.
    now rewrite E, Ei, Hci.
Qed.

End Ledger.

(** C4 as the code has it.  [record_procedure_on_blockchain] raises only
    when the contract handle is absent at the call and [init_web3] raises,
    and then it raises that same exception.  In every other case (the
    handle is there, or [init_web3] returns) it returns a value: when the
    submission goes through, a success result with the transaction hash
    the node gave and the block number and gas used of the node's receipt;
    when any step of the submission raises, a failure result whose cause
    is [str] of that exception. *)
Theorem submit_raises_only_from_init (w : World.t) (ph pt : string) (d : Z)
    (ch md key : string) (c : Blockchain.client) :
  let run := Blockchain.record_procedure_on_blockchain w ph pt d ch md key c in
  let attempt := Blockchain.submit w (snd run) (World.mk_call ph pt d ch md) key in
  (Blockchain.contract c <> None \/ fst (Blockchain.init_web3 w c) = Ok tt ->
     (exists v, fst run = Ok v)
     /\ (forall e, attempt = Raise e ->
           fst run = Ok (Blockchain.Failure (str_exn e)))
     /\ (forall r, attempt = Ok r ->
           fst run = Ok r
           /\ exists h raw rcpt,
                r = Blockchain.Success h (World.blockNumber rcpt) (World.gasUsed rcpt)
                /\ World.send_raw_transaction (World.node w) raw = Ok h
                /\ World.wait_for_transaction_receipt (World.node w) h = Ok rcpt))
  /\ (forall e, Blockchain.contract c = None ->
        fst (Blockchain.init_web3 w c) = Raise e -> fst run = Raise e).
Proof.
  cbv zeta. split.
  - intros H. destruct (record_past_init w ph pt d ch md key c H) as [c' ->].
    cbn [fst snd].
    destruct (Blockchain.submit w c' _ key) as [r|e] eqn:Es.
    + split; [eexists; reflexivity|]. split; [discriminate|].
      intros r' [= <-]. split; [reflexivity|].
      exact (submit_success w _ _ _ _ Es).
    + split; [eexists; reflexivity|]. split; [|discriminate].
      intros e' [= <-]. reflexivity.
  - intros e Hc Hi.
    unfold Blockchain.record_procedure_on_blockchain, St.bind. rewrite Hc.
    destruct (Blockchain.init_web3 w c) as [[[]|e'] ci]; simpl in Hi |- *;
      [discriminate Hi | injection Hi as ->; reflexivity].
Qed.

Lemma submit_raises_only_from_init_witness :
  exists v,
    fst (Blockchain.record_procedure_on_blockchain Sample.world_up
           "a1b2c3d4e5f60718" "stent" 45 "" "" "0xac0974be" Blockchain.no_client)
    = Ok v.
Proof.
  exact (proj1 (proj1 (submit_raises_only_from_init Sample.world_up
                         "a1b2c3d4e5f60718" "stent" 45 "" "" "0xac0974be"
                         Blockchain.no_client)
                  (or_intror eq_refl))).
Defined.

(** C4 as stated fails: with no contract address in the environment and no
    contract handle yet, the call raises the [ValueError] of [init_web3]
    instead of returning a failure value. *)
Lemma submit_raises_without_address :
  fst (Blockchain.record_procedure_on_blockchain Sample.world_no_address
         "a1b2c3d4e5f60718" "stent" 45 "" "" "0xac0974be" Blockchain.no_client)
  = Raise (ValueError ("CONTRACT_ADDRESS non d" ++ e_acute
                        ++ "finie dans les variables d'environnement")).
Proof. reflexivity. Qed.

(* ================================================================== *)
(** ** Properties of the create-procedure handler *)
(* ================================================================== *)

Section CreateProcedure.
Import World Session Procedures.

Variable w : World.t.

Lemma str_in_In (x : string) (xs : list string) : str_in x xs = true <-> In x xs.
Proof.
  unfold str_in. rewrite existsb_exists. split.
  - intros (y & Hy & E). apply String.eqb_eq in E. now subst.
  - intros H. exists x. split; [exact H | apply String.eqb_refl].
Qed.

Lemma col_eq_str_eq (col : option string) (v : string) :
  col_eq_str col v = true <-> col = Some v.
Proof.
  destruct col as [s|]; simpl.
  - rewrite String.eqb_eq. split; [now intros -> | now intros [= ->]].
  - split; discriminate.
Qed.

(** Past the two checks and the insert, the outcome is what the [try]
    block leaves. *)
Lemma create_procedure_accepted (procedure : Schemas.ProcedureCreate)
    (user : Schemas.User) (s : state) (pa : Patient) :
  str_in (Schemas.procedure_type procedure) Schemas.PROCEDURE_TYPES = true ->
  first (fun p => col_eq_str (patient_hash p) (Schemas.patient_hash procedure))
        (patients (st_db s)) = Some pa ->
  commit_insert w = Ok tt ->
  create_procedure w procedure user s
  = (Ok (snd (snd (St.try_except (anchor w procedure) (fun _ => St.ret tt)
                     (inserted w procedure user s, new_row w procedure user s)))),
     fst (snd (St.try_except (anchor w procedure) (fun _ => St.ret tt)
                 (inserted w procedure user s, new_row w procedure user s)))).
Proof.
  intros Ht Hp Hc.
  unfold create_procedure, St.bind, St.gets, St.ret, St.raise, add_commit.
  rewrite Ht, Hp, Hc. fold (new_row w procedure user s). fold (inserted w procedure user s).
  destruct (St.try_except _ _ _) as [res [s' r']]. reflexivity.
Qed.

(** The three ways the [try] block can leave the object and the store:
    untouched; stamped in memory only (the second commit raised); stamped
    and stored. *)
Lemma anchor_outcome (procedure : Schemas.ProcedureCreate) (s : state) (r : Procedure) :
  let out := snd (St.try_except (anchor w procedure) (fun _ => St.ret tt) (s, r)) in
  (snd out = r /\ st_db (fst out) = st_db s)
  \/ (exists tx block_number gas_used key,
        PRACTITIONER_PRIVATE_KEY w = Some key /\ key <> ""
        /\ fst (Blockchain.record_procedure_on_blockchain w
                  (Schemas.patient_hash procedure) (Schemas.procedure_type procedure)
                  (Schemas.duration procedure) (Schemas.consent_hash procedure)
                  (or_empty (Schemas.metadata procedure)) key (st_client s))
           = Ok (Blockchain.Success tx block_number gas_used)
        /\ ((snd out = stamp r tx /\ st_db (fst out) = st_db s)
            \/ (snd out = touched w (stamp r tx)
                /\ st_db (fst out) = store_procedure (touched w (stamp r tx)) (st_db s)))).
Proof.
  cbv zeta. unfold anchor.
  destruct (PRACTITIONER_PRIVATE_KEY w) as [key|] eqn:Ek; simpl truthy.
  2: { left. split; reflexivity. }
  destruct (negb (key =? "")%string) eqn:Ene.
  2: { left. split; reflexivity. }
  apply negb_true_iff, String.eqb_neq in Ene.
  unfold on_client.
  unfold St.try_except, St.bind, St.zoom, St.modify, St.lift, St.ret.
  cbn [fst snd or_empty st_client st_db].
  match goal with
  | |- context [Blockchain.record_procedure_on_blockchain w ?a ?b ?c ?d ?e ?k ?cl] =>
      destruct (Blockchain.record_procedure_on_blockchain w a b c d e k cl)
        as [[[tx bn gu|cause]|e'] c'] eqn:Er; cbn [fst snd st_db]
  end.
  - right. exists tx, bn, gu, key. split; [reflexivity|]. split; [exact Ene|].
    split; [rewrite Er; reflexivity|].
    destruct (commit_update w) as [[]|e]; cbn [fst snd st_db with_db].
    + right. split; reflexivity.
    + left. split; reflexivity.
  - left. split; reflexivity.
  - left. split; reflexivity.
Qed.

End CreateProcedure.

(** C9. A create-procedure request whose procedure type is not in
    [PROCEDURE_TYPES], or whose patient hash is the hash of no stored
    patient, ends in an HTTP error (400 for the type, else 404 for the
    patient) and leaves the whole state as it was: no row is added and none
    is changed. *)
Theorem rejected_request_writes_nothing (w : World.t)
    (procedure : Schemas.ProcedureCreate) (user : Schemas.User) (s : Session.state) :
  ~ In (Schemas.procedure_type procedure) Schemas.PROCEDURE_TYPES
  \/ (forall p, In p (patients (Session.st_db s)) ->
        patient_hash p <> Some (Schemas.patient_hash procedure)) ->
  exists status detail,
    Procedures.create_procedure w procedure user s
      = (Raise (HTTPException status detail), s)
    /\ (status = 400 \/ status = 404)
    /\ (status = 400 <->
        ~ In (Schemas.procedure_type procedure) Schemas.PROCEDURE_TYPES).
Proof.
  intros H.
  unfold Procedures.create_procedure, St.bind, St.gets, St.ret, St.raise.
  destruct (str_in (Schemas.procedure_type procedure) Schemas.PROCEDURE_TYPES) eqn:Ht.
  - apply str_in_In in Ht.
    destruct H as [H | H]; [contradiction|].
    destruct (Session.first _ (patients (Session.st_db s))) as [pa|] eqn:Ef.
    + apply find_some in Ef. destruct Ef as [Hin Heq].
      apply col_eq_str_eq in Heq. exfalso. exact (H pa Hin Heq).
    + eexists 404, _. split; [reflexivity|]. split; [now right|].
      split; [discriminate | intros Hn; contradiction].
  - assert (Hn : ~ In (Schemas.procedure_type procedure) Schemas.PROCEDURE_TYPES).
    { intros Hin. apply str_in_In in Hin. congruence. }
    eexists 400, _. split; [reflexivity|]. split; [now left|].
    split; [intros _; exact Hn | reflexivity].
Qed.

Lemma rejected_request_writes_nothing_witness :
  exists status detail,
    Procedures.create_procedure Sample.world_up
      (Schemas.mk_ProcedureCreate "a1b2c3d4e5f60718" "Stent" 45 "" None)
      Sample.user Sample.s0
    = (Raise (HTTPException status detail), Sample.s0).
Proof.
  destruct (rejected_request_writes_nothing Sample.world_up
              (Schemas.mk_ProcedureCreate "a1b2c3d4e5f60718" "Stent" 45 "" None)
              Sample.user Sample.s0) as (status & detail & E & _).
  - left. simpl. intros H.
    repeat (destruct H as [H | H]; [discriminate H|]). exact H.
  - exists status, detail. exact E.
Defined.

(** C2. For a create-procedure request with a supported procedure type and
    a stored patient, when the insert commits and the submission to the
    ledger does not end in a receipt (it returns a failure value, or
    raises, as when the ledger cannot be reached), [create_procedure]
    returns, without raising, the row it inserted: that row is the last of
    the procedures table, and its [blockchain_id] and [blockchain_tx_hash]
    are absent. *)
Theorem ledger_failure_keeps_local_record (w : World.t)
    (procedure : Schemas.ProcedureCreate) (user : Schemas.User) (s : Session.state) :
  In (Schemas.procedure_type procedure) Schemas.PROCEDURE_TYPES ->
  (exists p, In p (patients (Session.st_db s))
             /\ patient_hash p = Some (Schemas.patient_hash procedure)) ->
  World.commit_insert w = Ok tt ->
  submission_fails w procedure (Session.st_client s) ->
  exists r s',
    Procedures.create_procedure w procedure user s = (Ok r, s')
    /\ blockchain_id r = None /\ blockchain_tx_hash r = None
    /\ procedures (Session.st_db s') = (procedures (Session.st_db s) ++ [r])%list
    /\ proc_patient_hash r = Some (Schemas.patient_hash procedure)
    /\ procedure_type r = Some (Schemas.procedure_type procedure)
    /\ Database.duration r = Some (Schemas.duration procedure)
    /\ practitioner_id r = Some (Schemas.id user).
Proof.
  intros Ht (p & Hin & Hp) Hc Hf.
  apply str_in_In in Ht.
  destruct (Session.first
              (fun p => Session.col_eq_str (patient_hash p) (Schemas.patient_hash procedure))
              (patients (Session.st_db s))) as [pa|] eqn:Ef.
  2: { pose proof (find_none _ _ Ef p Hin) as Hn. cbv beta in Hn.
       apply col_eq_str_eq in Hp. congruence. }
  rewrite (create_procedure_accepted w procedure user s pa Ht Ef Hc).
  eexists _, _. split; [reflexivity|].
  destruct (anchor_outcome w procedure (inserted w procedure user s)
              (new_row w procedure user s))
    as [[Hr Hs] | (tx & bn & gu & key & Hk & Hne & Hrec & _)].
  - rewrite Hr, Hs. repeat split; reflexivity.
  - exfalso. exact (Hf key tx bn gu Hk Hne Hrec).
Qed.

Lemma ledger_failure_keeps_local_record_witness :
  exists r s',
    Procedures.create_procedure Sample.world_down Sample.request Sample.user Sample.s0
      = (Ok r, s')
    /\ blockchain_id r = None /\ blockchain_tx_hash r = None.
Proof.
  destruct (ledger_failure_keeps_local_record Sample.world_down Sample.request
              Sample.user Sample.s0) as (r & s' & E & Hid & Htx & _).
  - simpl. tauto.
  - exists Sample.patient. split; [left; reflexivity | reflexivity].
  - reflexivity.
  - intros key tx bn gu Hk _. injection Hk as <-. discriminate.
  - exists r, s'. repeat split; assumption.
Defined.

Section Invariant.
Import World Session Procedures.

Lemma create_procedure_cases (w : World.t) (procedure : Schemas.ProcedureCreate)
    (user : Schemas.User) (s : state) :
  (exists e, create_procedure w procedure user s = (Raise e, s))
  \/ create_procedure w procedure user s
     = (Ok (snd (snd (St.try_except (anchor w procedure) (fun _ => St.ret tt)
                        (inserted w procedure user s, new_row w procedure user s)))),
        fst (snd (St.try_except (anchor w procedure) (fun _ => St.ret tt)
                    (inserted w procedure user s, new_row w procedure user s)))).
Proof.
  destruct (str_in (Schemas.procedure_type procedure) Schemas.PROCEDURE_TYPES) eqn:Ht.
  - destruct (first (fun p => col_eq_str (patient_hash p) (Schemas.patient_hash procedure))
                    (patients (st_db s))) as [pa|] eqn:Ef.
    + destruct (commit_insert w) as [[]|e] eqn:Ec.
      * right. exact (create_procedure_accepted w procedure user s pa Ht Ef Ec).
      * left. exists e.
        unfold create_procedure, St.bind, St.gets, St.ret, St.raise, add_commit.
        now rewrite Ht, Ef, Ec.
    + left. eexists.
      unfold create_procedure, St.bind, St.gets, St.ret, St.raise.
      rewrite Ht, Ef. reflexivity.
  - left. eexists.
    unfold create_procedure, St.bind, St.gets, St.ret, St.raise.
    rewrite Ht. reflexivity.
Qed.

Lemma ledger_id_ok_stamp (r : Procedure) (tx : string) : ledger_id_ok (stamp r tx).
Proof. intros b E. simpl in E. now injection E as <-. Qed.

Lemma ledger_id_ok_touched (w : World.t) (r : Procedure) :
  ledger_id_ok r -> ledger_id_ok (touched w r).
Proof. intros H b E. exact (H b E). Qed.

Lemma store_procedure_keeps (r : Procedure) (d : db) :
  ledger_id_ok r ->
  Forall ledger_id_ok (procedures d) ->
  Forall ledger_id_ok (procedures (store_procedure r d)).
Proof.
  intros Hr Hall. unfold store_procedure. cbn [procedures set_procedures].
  induction Hall as [|x l Hx _ IH]; simpl; constructor.
  - destruct (id x =? id r); assumption.
  - exact IH.
Qed.

(** What [create_procedure] does to the invariant and to its result. *)
Lemma create_procedure_keeps (w : World.t) (procedure : Schemas.ProcedureCreate)
    (user : Schemas.User) (s s' : state) (res : result Procedure) :
  Forall ledger_id_ok (procedures (st_db s)) ->
  create_procedure w procedure user s = (res, s') ->
  Forall ledger_id_ok (procedures (st_db s'))
  /\ forall r, res = Ok r -> ledger_id_ok r.
Proof.
  intros Hinv E.
  destruct (create_procedure_cases w procedure user s) as [[e E'] | E'];
    rewrite E' in E; injection E as <- <-.
  - split; [exact Hinv | discriminate].
  - assert (Hnew : ledger_id_ok (new_row w procedure user s))
      by (intros b Hb; discriminate Hb).
    assert (Hins : Forall ledger_id_ok (procedures (st_db (inserted w procedure user s)))).
    { unfold inserted. cbn [st_db with_db set_procedures procedures].
      apply Forall_app. split; [exact Hinv | now constructor]. }
    destruct (anchor_outcome w procedure (inserted w procedure user s)
                (new_row w procedure user s))
      as [[Hr Hs] | (tx & bn & gu & key & _ & _ & _ & [[Hr Hs] | [Hr Hs]])];
      rewrite Hr, Hs.
    + split; [exact Hins | intros r [= <-]; exact Hnew].
    + split; [exact Hins | intros r [= <-]; apply ledger_id_ok_stamp].
    + split.
      * apply store_procedure_keeps; [|exact Hins].
        apply ledger_id_ok_touched, ledger_id_ok_stamp.
      * intros r [= <-]. apply ledger_id_ok_touched, ledger_id_ok_stamp.
Qed.

Lemma create_patient_procedures (w : World.t) (patient : Schemas.PatientCreate)
    (user : Schemas.User) (s s' : state) (res : result Patient) :
  create_patient w patient user s = (res, s') ->
  procedures (st_db s') = procedures (st_db s).
Proof.
  unfold create_patient, St.bind, St.gets, St.raise, add_commit.
  destruct (first _ _); [intros [= _ <-]; reflexivity|].
  destruct (commit_insert w); intros [= _ <-]; reflexivity.
Qed.

Lemma generate_fhir_claim_procedures (w : World.t) (procedure_id : Z)
    (user : Schemas.User) (s s' : state) (res : result dict) :
  Fhir.generate_fhir_claim w procedure_id user s = (res, s') ->
  procedures (st_db s') = procedures (st_db s).
Proof.
  unfold Fhir.generate_fhir_claim, St.bind, St.gets, St.raise, St.lift, St.ret, add_commit.
  destruct (first _ (procedures _)) as [p|]; [|intros [= _ <-]; reflexivity].
  destruct (first _ (patients _)) as [pa|]; [|intros [= _ <-]; reflexivity].
  destruct (first _ (users _)) as [pr|]; [|intros [= _ <-]; reflexivity].
  destruct (create_fhir_claim p pa pr); [|intros [= _ <-]; reflexivity].
  destruct (commit_insert w); intros [= _ <-]; reflexivity.
Qed.

Lemma upload_consent_keeps (w : World.t) (procedure_id : Z) (digest : string)
    (user : Schemas.User) (s s' : state) (res : result (string * string)) :
  Forall ledger_id_ok (procedures (st_db s)) ->
  upload_consent w procedure_id digest user s = (res, s') ->
  Forall ledger_id_ok (procedures (st_db s')).
Proof.
  intros Hinv.
  unfold upload_consent, St.bind, St.gets, St.raise, St.lift, St.ret, St.modify, add_commit.
  destruct (first _ (procedures _)) as [p|] eqn:Ef; [|intros [= _ <-]; exact Hinv].
  apply find_some in Ef. destruct Ef as [Hin _].
  assert (Hp : ledger_id_ok p) by (rewrite Forall_forall in Hinv; exact (Hinv p Hin)).
  destruct (ne_opt_int _ _); [intros [= _ <-]; exact Hinv|].
  destruct (write_file w _); [|intros [= _ <-]; exact Hinv].
  destruct (commit_insert w); [|intros [= _ <-]; exact Hinv].
  destruct (commit_update w); intros [= _ <-].
  - cbn [st_db with_db]. apply store_procedure_keeps.
    + intros b Hb. exact (Hp b Hb).
    + exact Hinv.
  - exact Hinv.
Qed.

Lemma reachable_ledger_ids (s : state) :
  reachable s -> Forall ledger_id_ok (procedures (st_db s)).
Proof.
  induction 1 as [s Hnil
                 | w patient user s r s' _ IH E
                 | w procedure user s r s' _ IH E
                 | w pid digest user s r s' _ IH E
                 | w pid user s r s' _ IH E].
  - rewrite Hnil. constructor.
  - now rewrite (create_patient_procedures _ _ _ _ _ _ E).
  - exact (proj1 (create_procedure_keeps _ _ _ _ _ _ IH E)).
  - exact (upload_consent_keeps _ _ _ _ _ _ _ IH E).
  - now rewrite (generate_fhir_claim_procedures _ _ _ _ _ _ E).
Qed.

End Invariant.

(** C5. In every state the handlers lead to from a store without
    procedures, each stored procedure whose [blockchain_id] is set has it
    equal to its own [id]; the record [create_procedure] returns from such
    a state has the same property, and so has every stored procedure of
    the state it leaves. *)
Theorem ledger_id_is_local_id (s : Session.state) :
  reachable s ->
  Forall ledger_id_ok (procedures (Session.st_db s))
  /\ forall w procedure user r s',
       Procedures.create_procedure w procedure user s = (Ok r, s') ->
       ledger_id_ok r /\ Forall ledger_id_ok (procedures (Session.st_db s')).
Proof.
  intros Hreach. pose proof (reachable_ledger_ids s Hreach) as Hinv.
  split; [exact Hinv|].
  intros w procedure user r s' E.
  destruct (create_procedure_keeps w procedure user s s' (Ok r) Hinv E) as [Hs' Hr].
  split; [exact (Hr r eq_refl) | exact Hs'].
Qed.

Lemma ledger_id_is_local_id_witness :
  exists r s',
    Procedures.create_procedure Sample.world_up Sample.request Sample.user Sample.s0
      = (Ok r, s')
    /\ blockchain_id r = Some 1 /\ ledger_id_ok r.
Proof.
  assert (Hreach : reachable Sample.s0) by (apply reach_init; reflexivity).
  eexists _, _. split; [reflexivity|]. split; [reflexivity|].
  exact (proj1 (proj2 (ledger_id_is_local_id Sample.s0 Hreach)
                  Sample.world_up Sample.request Sample.user _ _ eq_refl)).
Defined.

(* ================================================================== *)
(** ** Properties of the stored documents *)
(* ================================================================== *)

Section Registry.
Import World Session.

Lemma next_id_above {A} (key : A -> Z) (rows : list A) (r : A) :
  In r rows -> key r < next_id key rows.
Proof.
  unfold next_id. induction rows as [|x l IH]; simpl; [contradiction|].
  intros [-> | Hin]; [lia | specialize (IH Hin); lia].
Qed.

Lemma documents_under_app (t i : string) (d : db) (rows : list FHIRResource) :
  Fhir.documents_under t i (set_fhir_resources (fhir_resources d ++ rows) d)
  = (Fhir.documents_under t i d
     ++ filter (fun r => col_eq_str (resource_type r) t && col_eq_str (resource_id r) i)
               rows)%list.
Proof. unfold Fhir.documents_under. cbn [fhir_resources set_fhir_resources]. apply filter_app. Qed.

End Registry.

(** C1 as the code has it.  Storing a generated claim appends: every call
    of [generate_fhir_claim] that returns adds exactly one row to the
    stored documents, last and with a key above every stored one, under
    the key ("Claim", "claim-<procedure id>") and holding the claim just
    built; the rows stored before stay as they were, so the number of
    documents under that key grows by one with each call and the latest
    payload is in the last of them. *)
Theorem generate_fhir_claim_appends (w : World.t) (procedure_id : Z)
    (user : Schemas.User) (s s' : Session.state) (claim : dict) :
  Fhir.generate_fhir_claim w procedure_id user s = (Ok claim, s') ->
  exists row,
    fhir_resources (Session.st_db s') = (fhir_resources (Session.st_db s) ++ [row])%list
    /\ resource_type row = Some "Claim"
    /\ resource_id row = Some ("claim-" ++ str_int procedure_id)
    /\ fhir_data row = Some claim
    /\ (forall old, In old (fhir_resources (Session.st_db s)) -> fhir_id old < fhir_id row)
    /\ Fhir.documents_under "Claim" ("claim-" ++ str_int procedure_id) (Session.st_db s')
       = (Fhir.documents_under "Claim" ("claim-" ++ str_int procedure_id) (Session.st_db s)
          ++ [row])%list.
Proof.
  unfold Fhir.generate_fhir_claim, St.bind, St.gets, St.raise, St.lift, St.ret,
    Session.add_commit.
  destruct (Session.first _ (procedures _)) as [p|]; [|discriminate].
  destruct (Session.first _ (patients _)) as [pa|]; [|discriminate].
  destruct (Session.first _ (users _)) as [pr|]; [|discriminate].
  destruct (create_fhir_claim p pa pr) as [c|]; [|discriminate].
  destruct (World.commit_insert w); [|discriminate].
  intros [= <- <-]. eexists. cbn [Session.st_db Session.with_db].
  split; [reflexivity|]. split; [reflexivity|]. split; [reflexivity|].
  split; [reflexivity|]. split.
  - intros old Hin. cbn [fhir_id]. now apply next_id_above.
  - rewrite documents_under_app. f_equal.
    cbn [filter resource_type resource_id Session.col_eq_str].
    now rewrite !String.eqb_refl.
Qed.

Lemma generate_fhir_claim_appends_witness :
  exists claim row,
    fst (Fhir.generate_fhir_claim Sample.world_up 1 Sample.user Sample.s1) = Ok claim
    /\ fhir_resources
         (Session.st_db (snd (Fhir.generate_fhir_claim Sample.world_up 1 Sample.user Sample.s1)))
       = [row]
    /\ fhir_data row = Some claim.
Proof.
  destruct (Fhir.generate_fhir_claim Sample.world_up 1 Sample.user Sample.s1)
    as [[claim|e] s'] eqn:E; [|discriminate E].
  destruct (generate_fhir_claim_appends _ _ _ _ _ _ E) as (row & Hrows & _ & _ & Hdata & _).
  exists claim, row. split; [reflexivity|]. split; [exact Hrows | exact Hdata].
Defined.

(** C1 as stated fails: a claim is generated for procedure 1, a consent is
    uploaded for it, and the claim is generated again.  The two payloads
    differ, and both are stored under the key ("Claim", "claim-1"), the
    earlier one first. *)
Lemma regenerated_claim_is_stored_twice :
  exists c1 sa sb c2 sc,
    Fhir.generate_fhir_claim Sample.world_up 1 Sample.user Sample.s1 = (Ok c1, sa)
    /\ snd (Procedures.upload_consent Sample.world_up 1 Sample.digest Sample.user sa) = sb
    /\ Fhir.generate_fhir_claim Sample.world_up 1 Sample.user sb = (Ok c2, sc)
    /\ has "supportingInfo" c1 = false
    /\ has "supportingInfo" c2 = true
    /\ map fhir_data (Fhir.documents_under "Claim" "claim-1" (Session.st_db sc))
       = [Some c1; Some c2]
    /\ List.length (Fhir.documents_under "Claim" "claim-1" (Session.st_db sc)) <> 1%nat.
Proof.
  eexists _, _, _, _, _.
  split; [reflexivity|]. split; [reflexivity|]. split; [vm_compute; reflexivity|].
  split; [reflexivity|]. split; [reflexivity|]. split; [vm_compute; reflexivity|].
  vm_compute. discriminate.
Qed.

(** Without a signing credential no submission is attempted, and the
    record comes back as it was inserted, with no ledger field set. *)
Lemma no_credential_no_ledger_fields (w : World.t)
    (procedure : Schemas.ProcedureCreate) (user : Schemas.User)
    (s s' : Session.state) (r : Procedure) :
  ~ carries (World.PRACTITIONER_PRIVATE_KEY w) ->
  Procedures.create_procedure w procedure user s = (Ok r, s') ->
  blockchain_id r = None /\ blockchain_tx_hash r = None.
Proof.
  intros Hk E.
  destruct (create_procedure_cases w procedure user s) as [[e E'] | E'];
    rewrite E' in E; [discriminate E|]. injection E as <- _.
  destruct (anchor_outcome w procedure (inserted w procedure user s)
              (new_row w procedure user s))
    as [[Hr _] | (tx & bn & gu & key & Hkey & Hne & _)].
  - rewrite Hr. split; reflexivity.
  - exfalso. apply Hk. exists key. split; assumption.
Qed.

(* ================================================================== *)
(** ** Checks on concrete inputs *)
(* ================================================================== *)

Example isoformat_whole_second :
  isoformat (mk_datetime 2024 3 7 9 5 0 0) = "2024-03-07T09:05:00".
Proof. reflexivity. Qed.

Example isoformat_microseconds :
  isoformat (mk_datetime 2024 12 31 23 59 59 1500) = "2024-12-31T23:59:59.001500".
Proof. reflexivity. Qed.

Example lower_ascii : lower "StEnT" = "stent".
Proof. reflexivity. Qed.

Example lower_latin1 :
  lower ("RADIOFR" ++ String "201"%char "QUENCE") = "radiofr" ++ e_acute ++ "quence".
Proof. reflexivity. Qed.

Example get_snomed_code_upper :
  get_snomed_code "ANGIOPLASTIE"
  = mk_snomed "372024009" "Angioplasty" "http://snomed.info/sct".
Proof. reflexivity. Qed.

Example validate_reports_missing_sequence :
  validate_fhir_claim
    [ ("resourceType", JStr "Claim"); ("id", JStr "claim-1"); ("status", JStr "active");
      ("type", JNull); ("patient", JNull); ("provider", JNull);
      ("procedure", JList [ JDict [("procedureCodeableConcept", JNull)] ]) ]
  = Ok (mk_validation false
          ["Sequence manquante pour la proc" ++ e_acute ++ "dure 0"] []).
Proof. reflexivity. Qed.

Example validate_raises_on_number_section :
  validate_fhir_claim
    [ ("resourceType", JStr "Claim"); ("id", JStr "claim-1"); ("status", JStr "active");
      ("type", JNull); ("patient", JNull); ("provider", JNull);
      ("procedure", JInt 3) ]
  = Raise (TypeError "'int' object is not iterable").
Proof. reflexivity. Qed.

Example record_procedure_receipt :
  fst (Blockchain.record_procedure_on_blockchain Sample.world_up
         "a1b2c3d4e5f60718" "stent" 45 "" "" "0xac0974be" Blockchain.no_client)
  = Ok (Blockchain.Success "0xabc" 42 81234).
Proof. reflexivity. Qed.

Example record_procedure_unreachable :
  fst (Blockchain.record_procedure_on_blockchain Sample.world_down
         "a1b2c3d4e5f60718" "stent" 45 "" "" "0xac0974be" Blockchain.no_client)
  = Raise (ConnectionError ("Impossible de se connecter au r" ++ e_acute
                            ++ "seau blockchain")).
Proof. reflexivity. Qed.

Example record_procedure_node_error :
  fst (Blockchain.record_procedure_on_blockchain Sample.world_down
         "a1b2c3d4e5f60718" "stent" 45 "" "" "0xac0974be"
         (Blockchain.mk_client (Some "http://127.0.0.1:8545")
            (Some (Blockchain.mk_contract_handle "0x5FbDB2315678" World.FallbackAbi))
            (Some "0x5FbDB2315678")))
  = Ok (Blockchain.Failure "Connection refused").
Proof. reflexivity. Qed.

Example create_procedure_anchored :
  fst (Procedures.create_procedure Sample.world_up Sample.request Sample.user Sample.s0)
  = Ok (mk_Procedure 1 (Some 1) (Some "a1b2c3d4e5f60718") (Some 7) (Some "stent")
          (Some 45) (Some "") None (Some "0xabc") (Some Sample.t0) (Some Sample.t2)).
Proof. reflexivity. Qed.

Example create_procedure_without_credential :
  fst (Procedures.create_procedure Sample.world_no_key Sample.request Sample.user Sample.s0)
  = Ok (mk_Procedure 1 None (Some "a1b2c3d4e5f60718") (Some 7) (Some "stent")
          (Some 45) (Some "") None None (Some Sample.t0) (Some Sample.t1)).
Proof. reflexivity. Qed.

Example create_procedure_ledger_down :
  Procedures.create_procedure Sample.world_down Sample.request Sample.user Sample.s0
  = (Ok (mk_Procedure 1 None (Some "a1b2c3d4e5f60718") (Some 7) (Some "stent")
           (Some 45) (Some "") None None (Some Sample.t0) (Some Sample.t1)),
     Session.mk_state
       (mk_db [Sample.practitioner] [Sample.patient]
              [mk_Procedure 1 None (Some "a1b2c3d4e5f60718") (Some 7) (Some "stent")
                 (Some 45) (Some "") None None (Some Sample.t0) (Some Sample.t1)] [] [])
       (Blockchain.mk_client (Some "http://127.0.0.1:8545") None (Some "0x5FbDB2315678"))).
Proof. reflexivity. Qed.

(* ================================================================== *)
(** ** Further properties: the other documents *)
(* ================================================================== *)

Section Dicts.

Lemma get_set_same (k : string) (v : json) (d : dict) : get k (set k v d) = Some v.
Proof.
  induction d as [|[k' v'] r IH]; simpl.
  - now rewrite String.eqb_refl.
  - destruct (k' =? k)%string eqn:E; simpl; rewrite E; [reflexivity | exact IH].
Qed.

Lemma get_set_other (k k' : string) (v : json) (d : dict) :
  k <> k' -> get k (set k' v d) = get k d.
Proof.
  intros Hne. induction d as [|[k0 v0] r IH]; simpl.
  - destruct (k' =? k)%string eqn:E; [apply String.eqb_eq in E; congruence | reflexivity].
  - destruct (k0 =? k')%string eqn:E0; simpl.
    + apply String.eqb_eq in E0. subst k0.
      destruct (k' =? k)%string eqn:E; [apply String.eqb_eq in E; congruence | reflexivity].
    + destruct (k0 =? k)%string; [reflexivity | exact IH].
Qed.

Lemma get_none_not_key (k : string) (d : dict) :
  ~ In k (map fst d) -> get k d = None.
Proof.
  induction d as [|[k' v'] r IH]; simpl; [reflexivity|].
  intros Hn. destruct (k' =? k)%string eqn:E.
  - apply String.eqb_eq in E. exfalso. apply Hn. now left.
  - apply IH. intros Hin. apply Hn. now right.
Qed.

Lemma get_dict_update (u : dict) :
  distinct_keys u ->
  forall (d : dict) (k : string),
    get k (dict_update u d)
    = match get k u with
      | Some v => Some v
      | None => get k d
      end.
Proof.
  unfold distinct_keys, dict_update.
  induction u as [|[k1 v1] u' IH]; intros Hnd d k; simpl; [reflexivity|].
  inversion Hnd as [|? ? Hnotin Hnd']; subst.
  rewrite (IH Hnd'). destruct (k1 =? k)%string eqn:E.
  - apply String.eqb_eq in E. subst k.
    rewrite (get_none_not_key _ _ Hnotin). apply get_set_same.
  - apply String.eqb_neq in E.
    destruct (get k u'); [reflexivity|].
    apply get_set_other. congruence.
Qed.

End Dicts.

(** X1. [create_fhir_patient] returns exactly when the creation timestamp
    is set and, if a first-name hash is recorded, the patient hash is set
    too.  The document it returns is a Patient whose id and identifier are
    the patient hash; it has a [name] section if and only if a first-name
    hash is recorded, and the name shown is "Patient", the first eight
    characters of the patient hash and an ellipsis. *)
Theorem patient_document_shape (patient : Patient) :
  ((exists doc, create_fhir_patient patient = Ok doc)
     <-> patient_created_at patient <> None
         /\ (carries (first_name_hash patient) -> patient_hash patient <> None))
  /\ forall doc, create_fhir_patient patient = Ok doc ->
       get "resourceType" doc = Some (JStr "Patient")
       /\ get "id" doc = Some (of_opt_str (patient_hash patient))
       /\ at_path [Key "identifier"; Idx 0; Key "value"] (JDict doc)
          = Some (of_opt_str (patient_hash patient))
       /\ (has "name" doc = true <-> carries (first_name_hash patient))
       /\ (carries (first_name_hash patient) ->
           exists h, patient_hash patient = Some h
                     /\ at_path [Key "name"; Idx 0; Key "text"] (JDict doc)
                        = Some (JStr ("Patient " ++ prefix 8 h ++ "..."))).
Proof.
  unfold create_fhir_patient.
  destruct (patient_created_at patient) as [t|]; cbn [isoformat_opt Py.bind].
  2: { split.
       - split; [intros [doc E]; discriminate E | intros [H _]; contradiction].
       - intros doc E; discriminate E. }
  destruct (truthy (first_name_hash patient)) eqn:Tn.
  - apply truthy_carries in Tn.
    destruct (patient_hash patient) as [h|]; cbn [Py.bind].
    + split.
      * split; [intros _; split; [discriminate | intros _; discriminate]
               | intros _; eexists; reflexivity].
      * intros doc [= <-]. repeat split; try reflexivity; try (intros _; exact Tn).
        intros _. exists h. split; reflexivity.
    + split.
      * split; [intros [doc E]; discriminate E | intros [_ H]; exfalso; now apply H].
      * intros doc E; discriminate E.
  - apply truthy_false_not_carries in Tn. split.
    + split; [intros _; split; [discriminate | intros Hc; contradiction]
             | intros _; eexists; reflexivity].
    + intros doc [= <-]. repeat split; try reflexivity;
        try (intros H; first [discriminate H | contradiction]).
Qed.

Lemma patient_document_shape_witness :
  exists doc,
    create_fhir_patient SampleMore.named_patient = Ok doc
    /\ at_path [Key "name"; Idx 0; Key "text"] (JDict doc) = Some (JStr "Patient ffeeddcc...").
Proof.
  destruct (create_fhir_patient SampleMore.named_patient) as [doc|e] eqn:E;
    [|discriminate E].
  exists doc. split; [reflexivity|].
  destruct (proj2 (proj2 (proj2 (proj2
             (proj2 (patient_document_shape SampleMore.named_patient) doc E)))))
    as (h & Hh & Hname).
  - exists "5e884898da28". split; [reflexivity | discriminate].
  - injection Hh as <-. exact Hname.
Defined.

(** X2. [create_fhir_practitioner] returns exactly when both timestamps
    of the user are set.  The document is a Practitioner whose id is the
    user's key in decimal and whose qualification identifier is the user's
    role; it has an [extension] if and only if a wallet address is
    recorded, and the extension then carries that address. *)
Theorem practitioner_document_shape (practitioner : User) :
  ((exists doc, create_fhir_practitioner practitioner = Ok doc)
     <-> user_created_at practitioner <> None /\ user_updated_at practitioner <> None)
  /\ forall doc, create_fhir_practitioner practitioner = Ok doc ->
       get "resourceType" doc = Some (JStr "Practitioner")
       /\ get "id" doc = Some (JStr (str_int (user_id practitioner)))
       /\ at_path [Key "qualification"; Idx 0; Key "identifier"; Idx 0; Key "value"]
                  (JDict doc)
          = Some (of_opt_str (role practitioner))
       /\ (has "extension" doc = true <-> carries (wallet_address practitioner))
       /\ (forall wallet, wallet_address practitioner = Some wallet -> wallet <> "" ->
           at_path [Key "extension"; Idx 0; Key "valueString"] (JDict doc)
           = Some (JStr wallet)).
Proof.
  unfold create_fhir_practitioner.
  destruct (user_created_at practitioner) as [t1|]; cbn [isoformat_opt Py.bind].
  2: { split.
       - split; [intros [doc E]; discriminate E | intros [H _]; contradiction].
       - intros doc E; discriminate E. }
  destruct (user_updated_at practitioner) as [t2|]; cbn [isoformat_opt Py.bind].
  2: { split.
       - split; [intros [doc E]; discriminate E | intros [_ H]; contradiction].
       - intros doc E; discriminate E. }
  split.
  - split; [intros _; split; discriminate|].
    intros _. destruct (wallet_address practitioner) as [wa|];
      [destruct (truthy (Some wa))|]; eexists; reflexivity.
  - intros doc.
    destruct (wallet_address practitioner) as [wa|] eqn:Ew;
      [destruct (truthy (Some wa)) eqn:Tw|]; intros [= <-].
    + apply truthy_carries in Tw. repeat split; try reflexivity.
      * intros _. exact Tw.
      * intros wallet [= <-] _. reflexivity.
    + apply truthy_false_not_carries in Tw. repeat split; try reflexivity.
      * intros H; discriminate H.
      * intros H; contradiction.
      * intros wallet [= <-] Hne. exfalso. apply Tw. exists wa. now split.
    + repeat split; try reflexivity.
      * intros H; discriminate H.
      * intros [h [Eh _]]; discriminate Eh.
      * intros wallet Hw; discriminate Hw.
Qed.

Lemma practitioner_document_shape_witness :
  exists doc,
    create_fhir_practitioner Sample.practitioner = Ok doc
    /\ get "id" doc = Some (JStr "7") /\ has "extension" doc = false.
Proof.
  destruct (create_fhir_practitioner Sample.practitioner) as [doc|e] eqn:E;
    [|discriminate E].
  exists doc. split; [reflexivity|].
  destruct (proj2 (practitioner_document_shape Sample.practitioner) doc E)
    as (_ & Hid & _ & Hext & _).
  split; [exact Hid|].
  destruct (has "extension" doc); [|reflexivity].
  destruct (proj1 Hext eq_refl) as [h [Eh _]]. discriminate Eh.
Defined.

(** X3. [create_fhir_coverage] merges the caller's insurance fields over
    the coverage shell: for insurance info with distinct keys, each key of
    it reads in the result as the caller gave it, also when it replaces a
    field of the shell such as [status] or [resourceType]; every other key
    reads as in the shell built without insurance info. *)
Theorem coverage_merges_verbatim (t1 t2 : datetime) (patient_hash_ : string)
    (info : dict) (k : string) :
  distinct_keys info ->
  get k (create_fhir_coverage t1 t2 patient_hash_ (Some info))
  = match get k info with
    | Some v => Some v
    | None => get k (create_fhir_coverage t1 t2 patient_hash_ None)
    end.
Proof.
  intros Hnd. unfold create_fhir_coverage.
  destruct info as [|kv info']; [reflexivity|].
  cbn [truth_value]. apply (get_dict_update _ Hnd).
Qed.

Lemma coverage_merges_verbatim_witness :
  get "status" (create_fhir_coverage Sample.t0 Sample.t1 "a1b2c3d4e5f60718"
                  (Some SampleMore.insurance))
  = Some (JStr "cancelled").
Proof.
  rewrite (coverage_merges_verbatim Sample.t0 Sample.t1 "a1b2c3d4e5f60718"
             SampleMore.insurance "status").
  - reflexivity.
  - unfold distinct_keys. simpl. repeat constructor; simpl; intuition discriminate.
Defined.

Section BundleLoop.
Variable repr_other : json -> string.

Lemma has_get (k : string) (d : dict) : has k d = true <-> exists v, get k d = Some v.
Proof.
  unfold has. destruct (get k d) as [v|]; split; try discriminate.
  - intros _. now exists v.
  - reflexivity.
  - intros [v E]. discriminate E.
Qed.

Lemma bundle_entries_ok (resources : list dict) :
  forall entry out,
    bundle_entries repr_other resources entry = Ok out ->
    exists added, out = (entry ++ added)%list
                  /\ Forall2 (wraps repr_other) resources added.
Proof.
  induction resources as [|r rs IH]; simpl; intros entry out H.
  - injection H as <-. exists []. split; [now rewrite app_nil_r | constructor].
  - unfold item in H.
    destruct (get "resourceType" r) as [rt|] eqn:Ert; [|discriminate H].
    destruct (get "id" r) as [rid|] eqn:Eid; [|discriminate H].
    cbn [Py.bind] in H.
    destruct (IH _ _ H) as (added & -> & Hall).
    eexists (_ :: added). split.
    + unfold append. rewrite <- app_assoc. reflexivity.
    + constructor; [|exact Hall].
      split; [reflexivity|]. exists rt, rid. repeat split; assumption.
Qed.

Lemma bundle_entries_returns (resources : list dict) :
  Forall addressable resources ->
  forall entry, exists out, bundle_entries repr_other resources entry = Ok out.
Proof.
  induction 1 as [|r rs [Hrt Hid] _ IH]; intros entry; simpl.
  - eexists; reflexivity.
  - apply has_get in Hrt as [rt Ert]. apply has_get in Hid as [rid Eid].
    unfold item. rewrite Ert, Eid. cbn [Py.bind]. apply IH.
Qed.

Lemma bundle_entries_addressable (resources : list dict) :
  forall entry out,
    bundle_entries repr_other resources entry = Ok out -> Forall addressable resources.
Proof.
  induction resources as [|r rs IH]; simpl; intros entry out H; [constructor|].
  unfold item in H.
  destruct (get "resourceType" r) as [rt|] eqn:Ert; [|discriminate H].
  destruct (get "id" r) as [rid|] eqn:Eid; [|discriminate H].
  cbn [Py.bind] in H. constructor; [|exact (IH _ _ H)].
  split; apply has_get; eexists; eassumption.
Qed.

End BundleLoop.

(** X4. [create_fhir_bundle] returns exactly when every resource has a
    [resourceType] and an [id] (otherwise the [KeyError] of the first
    resource lacking one escapes).  The bundle it returns has the given
    type, [total] equal to the number of resources, and one entry per
    resource, in order: the entry holds the resource unchanged and its
    [fullUrl] is the resource type, a slash, and the id. *)
Theorem bundle_wraps_every_resource (md5_of_str : list dict -> string)
    (repr_other : json -> string) (utcnow : datetime) (resources : list dict)
    (bundle_type : string) :
  ((exists bundle,
      create_fhir_bundle md5_of_str repr_other utcnow resources bundle_type = Ok bundle)
     <-> Forall addressable resources)
  /\ forall bundle,
       create_fhir_bundle md5_of_str repr_other utcnow resources bundle_type = Ok bundle ->
       get "resourceType" bundle = Some (JStr "Bundle")
       /\ get "type" bundle = Some (JStr bundle_type)
       /\ get "total" bundle = Some (JInt (Z.of_nat (List.length resources)))
       /\ exists entries,
            get "entry" bundle = Some (JList entries)
            /\ Forall2 (wraps repr_other) resources entries.
Proof.
  unfold create_fhir_bundle. split.
  - split.
    + intros [bundle H].
      destruct (bundle_entries repr_other resources []) as [out|] eqn:E; [|discriminate H].
      exact (bundle_entries_addressable _ _ _ _ E).
    + intros Hall. destruct (bundle_entries_returns repr_other _ Hall []) as [out E].
      rewrite E. eexists; reflexivity.
  - intros bundle H.
    destruct (bundle_entries repr_other resources []) as [out|] eqn:E; [|discriminate H].
    cbn [Py.bind] in H. injection H as <-.
    destruct (bundle_entries_ok _ _ _ _ E) as (added & -> & Hall).
    repeat split; try reflexivity. exists added. split; [reflexivity | exact Hall].
Qed.

Lemma bundle_wraps_every_resource_witness :
  exists bundle,
    create_fhir_bundle SampleMore.md5_stub SampleMore.repr_stub Sample.t0
      [ [("resourceType", JStr "Patient"); ("id", JStr "a1b2")];
        [("resourceType", JStr "Claim"); ("id", JInt 7)] ] "searchset" = Ok bundle
    /\ get "total" bundle = Some (JInt 2).
Proof.
  destruct (proj2 (proj1 (bundle_wraps_every_resource SampleMore.md5_stub
              SampleMore.repr_stub Sample.t0
              [ [("resourceType", JStr "Patient"); ("id", JStr "a1b2")];
                [("resourceType", JStr "Claim"); ("id", JInt 7)] ] "searchset")))
    as [bundle E].
  - repeat constructor.
  - exists bundle. split; [exact E|].
    exact (proj1 (proj2 (proj2 (proj2 (bundle_wraps_every_resource _ _ _ _ _) bundle E)))).
Defined.

Section EndpointValidation.
Variable repr_other : json -> string.

Lemma missing_fields_empty (d : dict) (fields : list string) :
  forall acc,
    fold_left (fun missing field => if has field d then missing else append missing field)
              fields acc = []
    <-> acc = [] /\ Forall (fun f => has f d = true) fields.
Proof.
  induction fields as [|f fs IH]; simpl; intros acc.
  - split; [intros ->; now split | now intros [-> _]].
  - rewrite IH. split.
    + intros [Hacc Hall]. apply keep_empty in Hacc as [Hf Hacc].
      split; [exact Hacc | now constructor].
    + intros [-> Hall]. inversion Hall as [|? ? Hf Hfs]; subst.
      rewrite Hf. now split.
Qed.

Lemma endpoint_accepts (d : dict) :
  endpoint_complete d ->
  exists t,
    get "resourceType" d = Some (JStr t)
    /\ FhirRead.validate_fhir_resource repr_other d
       = Ok [ ("valid", JBool true); ("resource_type", JStr t);
              ("message", JStr "Ressource FHIR valide") ].
Proof.
  intros (t & fields & Hrt & Hreq & Hall). exists t. split; [exact Hrt|].
  unfold FhirRead.validate_fhir_resource. rewrite Hrt.
  assert (Ht : (t =? "")%string = false).
  { destruct t; [discriminate Hreq | reflexivity]. }
  cbn [truth_value]. rewrite Ht. cbn [negb]. rewrite Hreq.
  destruct (fold_left _ fields []) eqn:Em.
  - reflexivity.
  - exfalso. assert (Hm : fold_left (fun missing field =>
                             if has field d then missing else append missing field)
                            fields [] = []).
    { apply missing_fields_empty. now split. }
    rewrite Hm in Em. discriminate Em.
Qed.

Lemma validation_true_clean (claim : dict) (v : validation) :
  validate_fhir_claim claim = Ok v -> valid v = true -> v = mk_validation true [] [].
Proof.
  unfold validate_fhir_claim.
  match goal with
  | |- context [Py.bind ?m _] => destruct m as [errs|]; [|discriminate]
  end.
  cbn [Py.bind]. intros [= <-]. cbn [valid].
  destruct errs; [reflexivity | discriminate].
Qed.

End EndpointValidation.

(** X5. The validation endpoint accepts a document exactly when its
    [resourceType] is one of "Claim", "Patient" and "Practitioner" and the
    document has every field the endpoint's table lists for that type.
    Every refusal is an HTTP 400, except for a [resourceType] that is a
    non-empty list or dict, on which the table lookup raises a
    [TypeError]. *)
Theorem endpoint_accepts_iff_complete (repr_other : json -> string) (d : dict) :
  ((exists out, FhirRead.validate_fhir_resource repr_other d = Ok out)
     <-> endpoint_complete d)
  /\ forall e, FhirRead.validate_fhir_resource repr_other d = Raise e ->
       (exists detail, e = HTTPException 400 detail)
       \/ (exists msg v, e = TypeError msg /\ get "resourceType" d = Some v
                         /\ truth_value v = true
                         /\ ((exists l, v = JList l) \/ (exists m, v = JDict m))).
Proof.
  split.
  - split; [|intros H; destruct (endpoint_accepts repr_other d H) as (t & _ & E);
             eexists; exact E].
    unfold FhirRead.validate_fhir_resource, endpoint_complete.
    intros [out H].
    destruct (get "resourceType" d) as [v|]; [|discriminate H].
    destruct (negb (truth_value v)); [discriminate H|].
    destruct v as [| b | n | bits | t | l | m]; try discriminate H.
    destruct (FhirRead.required_of t _) as [fields|] eqn:Er; [|discriminate H].
    destruct (fold_left _ fields []) eqn:Em; [|discriminate H].
    exists t, fields. repeat split; try assumption.
    now apply (missing_fields_empty d fields []) in Em as [_ Hall].
  - intros e. unfold FhirRead.validate_fhir_resource.
    destruct (get "resourceType" d) as [v|];
      [|intros [= <-]; left; eexists; reflexivity].
    destruct (negb (truth_value v)) eqn:Tv;
      [intros [= <-]; left; eexists; reflexivity|].
    apply negb_false_iff in Tv.
    destruct v as [| b | n | bits | t | l | m];
      try (intros [= <-]; left; eexists; reflexivity).
    + destruct (FhirRead.required_of t _) as [fields|];
        [|intros [= <-]; left; eexists; reflexivity].
      destruct (fold_left _ fields []); [discriminate|].
      intros [= <-]; left; eexists; reflexivity.
    + intros [= <-]. right. exists "unhashable type: 'list'", (JList l).
      repeat split; try assumption. left. now exists l.
    + intros [= <-]. right. exists "unhashable type: 'dict'", (JDict m).
      repeat split; try assumption. right. now exists m.
Qed.

Lemma endpoint_accepts_iff_complete_witness :
  exists out,
    FhirRead.validate_fhir_resource SampleMore.repr_stub
      [ ("resourceType", JStr "Patient"); ("id", JNull) ] = Ok out.
Proof.
  apply (proj2 (proj1 (endpoint_accepts_iff_complete SampleMore.repr_stub
                         [ ("resourceType", JStr "Patient"); ("id", JNull) ]))).
  exists "Patient", ["resourceType"; "id"].
  split; [reflexivity|]. split; [reflexivity|]. repeat constructor.
Defined.

(** X6. Every document the three builders return passes the validation
    endpoint: the claim of [create_fhir_claim], the patient of
    [create_fhir_patient] and the practitioner of
    [create_fhir_practitioner]. *)
Theorem built_documents_pass_endpoint (repr_other : json -> string)
    (procedure : Procedure) (patient : Patient) (practitioner : User) :
  (forall claim, create_fhir_claim procedure patient practitioner = Ok claim ->
     exists out, FhirRead.validate_fhir_resource repr_other claim = Ok out)
  /\ (forall doc, create_fhir_patient patient = Ok doc ->
        exists out, FhirRead.validate_fhir_resource repr_other doc = Ok out)
  /\ (forall doc, create_fhir_practitioner practitioner = Ok doc ->
        exists out, FhirRead.validate_fhir_resource repr_other doc = Ok out).
Proof.
  split; [|split].
  - intros claim H. invert_claim H procedure patient; eexists; reflexivity.
  - intros doc. unfold create_fhir_patient.
    destruct (patient_created_at patient); [|discriminate]. cbn [isoformat_opt Py.bind].
    destruct (truthy (first_name_hash patient)).
    + destruct (patient_hash patient); [|discriminate]. cbn [Py.bind].
      intros [= <-]. eexists; reflexivity.
    + intros [= <-]. eexists; reflexivity.
  - intros doc. unfold create_fhir_practitioner.
    destruct (user_created_at practitioner); [|discriminate].
    destruct (user_updated_at practitioner); [|discriminate].
    cbn [isoformat_opt Py.bind].
    destruct (wallet_address practitioner) as [wa|];
      [destruct (truthy (Some wa))|]; intros [= <-]; eexists; reflexivity.
Qed.

Lemma built_documents_pass_endpoint_witness :
  exists doc out,
    create_fhir_patient Sample.patient = Ok doc
    /\ FhirRead.validate_fhir_resource SampleMore.repr_stub doc = Ok out.
Proof.
  destruct (create_fhir_patient Sample.patient) as [doc|e] eqn:E; [|discriminate E].
  destruct (proj1 (proj2 (built_documents_pass_endpoint SampleMore.repr_stub
              Sample.stent Sample.patient Sample.practitioner)) doc E) as [out Hout].
  exists doc, out. split; [reflexivity | exact Hout].
Defined.

(** X7. The claim validator is at least as strict as the validation
    endpoint: a document for which [validate_fhir_claim] returns
    [valid = true] is accepted by [validate_fhir_resource], as a Claim. *)
Theorem valid_claim_passes_endpoint (repr_other : json -> string) (claim : dict)
    (v : validation) :
  validate_fhir_claim claim = Ok v ->
  valid v = true ->
  FhirRead.validate_fhir_resource repr_other claim
  = Ok [ ("valid", JBool true); ("resource_type", JStr "Claim");
         ("message", JStr "Ressource FHIR valide") ].
Proof.
  intros Hv Ht.
  rewrite (validation_true_clean claim v Hv Ht) in Hv.
  destruct (accepted_claim_is_complete claim [] Hv) as (Hreq & Hrt & _ & _).
  assert (Hget : get "resourceType" claim = Some (JStr "Claim")).
  { unfold eq_str in Hrt. destruct (get "resourceType" claim) as [[| | | | t | |]|];
      try discriminate Hrt. apply String.eqb_eq in Hrt. now subst. }
  destruct (endpoint_accepts repr_other claim) as (t & Ht' & E).
  - exists "Claim", required_fields. repeat split; [exact Hget | exact Hreq].
  - rewrite Hget in Ht'. injection Ht' as <-. exact E.
Qed.

Lemma valid_claim_passes_endpoint_witness :
  FhirRead.validate_fhir_resource SampleMore.repr_stub
    [ ("resourceType", JStr "Claim"); ("id", JStr "claim-1"); ("status", JStr "draft");
      ("type", JNull); ("patient", JNull); ("provider", JNull) ]
  = Ok [ ("valid", JBool true); ("resource_type", JStr "Claim");
         ("message", JStr "Ressource FHIR valide") ].
Proof.
  apply (valid_claim_passes_endpoint SampleMore.repr_stub _ (mk_validation true [] []));
    reflexivity.
Defined.

(* ================================================================== *)
(** ** Further properties: the ledger client *)
(* ================================================================== *)

Section InitKeepsHandle.

(** A failed initialisation leaves the contract handle as it was. *)
Lemma init_web3_raise_keeps_handle (w : World.t) (c c' : Blockchain.client) (e : exn) :
  Blockchain.init_web3 w c = (Raise e, c') ->
  Blockchain.contract c' = Blockchain.contract c.
Proof.
  unfold Blockchain.init_web3, St.bind, St.modify, St.ret, St.raise, St.lift.
  destruct (truthy (World.CONTRACT_ADDRESS w)); [|intros [= _ <-]; reflexivity].
  destruct (World.is_connected _ _); [|intros [= _ <-]; reflexivity].
  destruct (World.load_abi (World.node w)) as [abi|[]];
    try (intros [= _ <-]; reflexivity);
    destruct (World.eth_contract _ _ _); first [discriminate | intros [= _ <-]; reflexivity].
Qed.

End InitKeepsHandle.

(** X8. [init_web3] returns exactly when a non-empty contract address is
    configured, the endpoint answers, the contract interface is available
    (the artifact's, or the built-in one when the artifact file does not
    exist) and the contract object can be built.  It then leaves the
    endpoint, that handle and the address in the module globals.  When it
    raises, the contract handle is as it was before the call. *)
Theorem init_web3_outcome (w : World.t) (c : Blockchain.client) :
  let url := World.getenv_default (World.BLOCKCHAIN_URL w) "http://127.0.0.1:8545" in
  (forall c',
      Blockchain.init_web3 w c = (Ok tt, c')
      <-> exists address abi,
            World.CONTRACT_ADDRESS w = Some address /\ address <> ""
            /\ World.is_connected (World.node w) url = true
            /\ (World.load_abi (World.node w) = Ok abi
                \/ (abi = World.FallbackAbi
                    /\ exists m, World.load_abi (World.node w)
                                 = Raise (FileNotFoundError m)))
            /\ World.eth_contract (World.node w) address abi = Ok tt
            /\ c' = Blockchain.mk_client (Some url)
                      (Some (Blockchain.mk_contract_handle address abi)) (Some address))
  /\ (forall e c', Blockchain.init_web3 w c = (Raise e, c') ->
        Blockchain.contract c' = Blockchain.contract c).
Proof.
  cbv zeta.
  unfold Blockchain.init_web3, St.bind, St.modify, St.ret, St.raise, St.lift.
  destruct (World.CONTRACT_ADDRESS w) as [address|] eqn:Ea; cbn [truthy].
  2: { split.
       - intros c'; split; [discriminate | intros (a & ? & Ha & _); discriminate Ha].
       - intros e c' [= _ <-]. reflexivity. }
  destruct (address =? "")%string eqn:Ee; cbn [negb].
  { apply String.eqb_eq in Ee. split.
    - intros c'; split; [discriminate|].
      intros (a & ? & [= <-] & Hne & _). contradiction.
    - intros e c' [= _ <-]. reflexivity. }
  apply String.eqb_neq in Ee. cbn [World.getenv_default].
  destruct (World.is_connected _ _) eqn:Ec.
  2: { split.
       - intros c'; split; [discriminate|].
         intros (a & ? & _ & _ & Hc & _). discriminate Hc.
       - intros e c' [= _ <-]. reflexivity. }
  cbn [Blockchain.web3 Blockchain.contract Blockchain.contract_address].
  destruct (World.load_abi (World.node w)) as [abi|el] eqn:El.
  - destruct (World.eth_contract _ address abi) as [[]|ee] eqn:Ek.
    + split.
      * intros c'; split.
        -- intros [= <-]. exists address, abi. repeat split; auto.
        -- intros (a & b & [= <-] & _ & _ & [[= <-] | [_ [m Hm]]] & _ & ->);
             [reflexivity | discriminate Hm].
      * intros e c' H; discriminate H.
    + split.
      * intros c'; split; [discriminate|].
        intros (a & b & [= <-] & _ & _ & [[= <-] | [_ [m Hm]]] & Hk & _);
          [rewrite Ek in Hk; discriminate Hk | discriminate Hm].
      * intros e c' [= _ <-]. reflexivity.
  - destruct el as [ | | | | | | m | ];
      try (split;
           [ intros c'; split; [discriminate|];
             intros (a & b & _ & _ & _ & [Hl | [_ [m' Hm]]] & _);
             [discriminate Hl | discriminate Hm]
           | intros e c' [= _ <-]; reflexivity ]).
    destruct (World.eth_contract _ address World.FallbackAbi) as [[]|ee] eqn:Ek.
    + split.
      * intros c'; split.
        -- intros [= <-]. exists address, World.FallbackAbi.
           repeat split; auto. right. split; [reflexivity | now exists m].
        -- intros (a & b & [= <-] & _ & _ & [Hl | [-> _]] & _ & ->);
             [discriminate Hl | reflexivity].
      * intros e c' H; discriminate H.
    + split.
      * intros c'; split; [discriminate|].
        intros (a & b & [= <-] & _ & _ & [Hl | [-> _]] & Hk & _);
          [discriminate Hl | rewrite Ek in Hk; discriminate Hk].
      * intros e c' [= _ <-]. reflexivity.
Qed.

Lemma init_web3_outcome_witness :
  exists c', Blockchain.init_web3 Sample.world_up Blockchain.no_client = (Ok tt, c')
             /\ Blockchain.contract c' <> None.
Proof.
  eexists. split.
  - apply (proj1 (init_web3_outcome Sample.world_up Blockchain.no_client) _).
    exists "0x5FbDB2315678", (World.ArtifactAbi (JList [])).
    repeat split; try reflexivity; [discriminate | left; reflexivity].
  - discriminate.
Defined.

(** X9. The ledger part of startup never raises.  When [init_web3]
    succeeded at startup, every later submission (whatever the
    environment then is) returns a value and leaves the client as it is;
    when it failed, the contract handle is as before startup, so that the
    next ledger call initialises again. *)
Theorem startup_then_submit (w : World.t) (c : Blockchain.client) :
  let started := Main.lifespan_startup w c in
  fst started = Ok tt
  /\ (fst (Blockchain.init_web3 w c) = Ok tt ->
      forall w' ph pt d ch md key,
      exists v, Blockchain.record_procedure_on_blockchain w' ph pt d ch md key (snd started)
                = (Ok v, snd started))
  /\ (forall e, fst (Blockchain.init_web3 w c) = Raise e ->
      Blockchain.contract (snd started) = Blockchain.contract c).
Proof.
  cbv zeta. unfold Main.lifespan_startup, St.try_except, St.ret.
  destruct (Blockchain.init_web3 w c) as [[[]|e] c'] eqn:Ei; cbn [fst snd].
  - split; [reflexivity|]. split; [|intros e H; discriminate H].
    intros _ w' ph pt d ch md key.
    destruct (init_web3_ok w _ _ Ei) as [h Hh].
    rewrite (record_when_initialised w' ph pt d ch md key c' h Hh).
    destruct (Blockchain.submit w' c' _ key); eexists; reflexivity.
  - split; [reflexivity|]. split; [intros H; discriminate H|].
    intros e' _. exact (init_web3_raise_keeps_handle w c c' e Ei).
Qed.

Lemma startup_then_submit_witness :
  exists v,
    fst (Blockchain.record_procedure_on_blockchain Sample.world_down
           "a1b2c3d4e5f60718" "stent" 45 "" "" "0xac0974be"
           (snd (Main.lifespan_startup Sample.world_up Blockchain.no_client)))
    = Ok v.
Proof.
  destruct (proj1 (proj2 (startup_then_submit Sample.world_up Blockchain.no_client))
              eq_refl Sample.world_down "a1b2c3d4e5f60718" "stent" 45 "" "" "0xac0974be")
    as [v E].
  exists v. now rewrite E.
Defined.

Section ChainReads.
Import World Blockchain Chain BlockchainRead.
Variable w : World.t.
Variable rd : Reader.

Lemma procedure_dict_long (t : list json) :
  (9 <= List.length t)%nat ->
  exists d, procedure_dict t = Ok d /\ d <> []
            /\ get "id" d = nth_error t 0
            /\ get "patient_id" d = nth_error t 1
            /\ get "procedure_type" d = nth_error t 3
            /\ get "metadata" d = nth_error t 8.
Proof.
  intros Hlen.
  destruct t as [|f0 [|f1 [|f2 [|f3 [|f4 [|f5 [|f6 [|f7 [|f8 r]]]]]]]]];
    simpl in Hlen; try lia.
  eexists. split; [reflexivity|]. repeat split; discriminate.
Qed.

Lemma procedure_dict_short (t : list json) :
  (List.length t < 9)%nat -> exists e, procedure_dict t = Raise e.
Proof.
  intros Hlen.
  destruct t as [|f0 [|f1 [|f2 [|f3 [|f4 [|f5 [|f6 [|f7 [|f8 r]]]]]]]]];
    simpl in Hlen; try lia; eexists; reflexivity.
Qed.

Lemma resolved_nonempty (i : Z) (d : dict) : resolved rd i = Some d -> d <> [].
Proof.
  unfold resolved. destruct (getProcedure rd i) as [t|]; [|discriminate].
  destruct (Nat.le_gt_cases 9 (List.length t)) as [Hl | Hs].
  - destruct (procedure_dict_long t Hl) as (d' & -> & Hne & _). now intros [= <-].
  - destruct (procedure_dict_short t Hs) as [e ->]. discriminate.
Qed.

Lemma get_procedure_ready (i : Z) (c : client) (h : contract_handle) :
  contract c = Some h ->
  get_procedure_from_blockchain w rd i c = (Ok (resolved rd i), c).
Proof.
  intros Hc. unfold get_procedure_from_blockchain, ensure_contract, St.bind, St.ret,
    functions, resolved.
  repeat (rewrite Hc; cbn [Py.bind]).
  destruct (getProcedure rd i) as [t|]; cbn [Py.bind]; [|reflexivity].
  destruct (procedure_dict t); reflexivity.
Qed.

Lemma resolve_all_ready (c : client) (h : contract_handle) (ids : list Z) :
  contract c = Some h ->
  forall acc, resolve_all w rd ids acc c = (Ok (acc ++ resolved_all rd ids)%list, c).
Proof.
  intros Hc. induction ids as [|i ids IH]; intros acc; cbn [resolve_all].
  - unfold St.ret. cbn [resolved_all flat_map]. now rewrite app_nil_r.
  - unfold resolved_all; cbn [flat_map]; fold (resolved_all rd ids).
    unfold St.bind. rewrite (get_procedure_ready i c h Hc).
    destruct (resolved rd i) as [d|] eqn:Er.
    + assert (Ht : truth_value (JDict d) = true).
      { pose proof (resolved_nonempty i d Er). destruct d; [contradiction|reflexivity]. }
      rewrite Ht, IH. unfold append. now rewrite <- app_assoc.
    + now rewrite IH.
Qed.

Lemma resolved_all_length (ids : list Z) :
  (List.length (resolved_all rd ids) <= List.length ids)%nat.
Proof.
  induction ids as [|i ids IH]; simpl; [lia|].
  rewrite length_app. destruct (resolved rd i); simpl; lia.
Qed.

End ChainReads.

(** X10. With the contract handle in place, listing a patient's (or a
    practitioner's) procedures from the chain never raises and leaves the
    client as it is.  When the id list can be read, the result holds, in
    the order of the ids, the record of every id that can be resolved; an
    id whose record cannot be read is skipped, so the result is never
    longer than the id list.  When the id list itself cannot be read, the
    result is empty. *)
Theorem chain_listing_skips_failures (w : World.t) (rd : Chain.Reader)
    (c : Blockchain.client) (h : Blockchain.contract_handle) (key : string) :
  Blockchain.contract c = Some h ->
  (exists l,
      BlockchainRead.get_patient_procedures_from_blockchain w rd key c = (Ok l, c)
      /\ (forall ids, Chain.getPatientProcedures rd key = Ok ids ->
            l = resolved_all rd ids /\ (List.length l <= List.length ids)%nat)
      /\ (forall e, Chain.getPatientProcedures rd key = Raise e -> l = []))
  /\ (exists l,
        BlockchainRead.get_practitioner_procedures_from_blockchain w rd key c = (Ok l, c)
        /\ (forall ids, Chain.getPractitionerProcedures rd key = Ok ids ->
              l = resolved_all rd ids /\ (List.length l <= List.length ids)%nat)
        /\ (forall e, Chain.getPractitionerProcedures rd key = Raise e -> l = [])).
Proof.
  intros Hc. split.
  - unfold BlockchainRead.get_patient_procedures_from_blockchain,
      BlockchainRead.ensure_contract, St.bind, St.try_except, St.ret,
      BlockchainRead.functions.
    repeat (rewrite Hc; cbn [Py.bind]).
    destruct (Chain.getPatientProcedures rd key) as [ids|e].
    + rewrite (resolve_all_ready w rd c h ids Hc). eexists. split; [reflexivity|].
      split; [|intros e H; discriminate H].
      intros ids' [= <-]. split; [reflexivity | apply resolved_all_length].
    + eexists. split; [reflexivity|]. split; [intros ids H; discriminate H | reflexivity].
  - unfold BlockchainRead.get_practitioner_procedures_from_blockchain,
      BlockchainRead.ensure_contract, St.bind, St.try_except, St.ret,
      BlockchainRead.functions.
    repeat (rewrite Hc; cbn [Py.bind]).
    destruct (Chain.getPractitionerProcedures rd key) as [ids|e].
    + rewrite (resolve_all_ready w rd c h ids Hc). eexists. split; [reflexivity|].
      split; [|intros e H; discriminate H].
      intros ids' [= <-]. split; [reflexivity | apply resolved_all_length].
    + eexists. split; [reflexivity|]. split; [intros ids H; discriminate H | reflexivity].
Qed.

Lemma chain_listing_skips_failures_witness :
  exists l,
    fst (BlockchainRead.get_patient_procedures_from_blockchain Sample.world_up
           SampleMore.reader "a1b2c3d4e5f60718" SampleMore.ready_client) = Ok l
    /\ List.length l = 2%nat.
Proof.
  destruct (proj1 (chain_listing_skips_failures Sample.world_up SampleMore.reader
              SampleMore.ready_client _ "a1b2c3d4e5f60718" eq_refl))
    as (l & E & Hids & _).
  exists l. split; [now rewrite E|].
  destruct (Hids [1; 2; 3] eq_refl) as [-> _]. reflexivity.
Defined.

(** X11. With the contract handle in place, the chain lookup endpoint
    returns the record when the contract call gives at least nine values,
    taking [id], [patient_id], [procedure_type] and [metadata] from
    positions 0, 1, 3 and 8; when the call raises or gives fewer values it
    answers 404.  Either way the state is left as it is. *)
Theorem chain_lookup_endpoint (w : World.t) (rd : Chain.Reader) (s : Session.state)
    (h : Blockchain.contract_handle) (procedure_id : Z) :
  Blockchain.contract (Session.st_client s) = Some h ->
  (forall t, Chain.getProcedure rd procedure_id = Ok t -> (9 <= List.length t)%nat ->
     exists d,
       ProceduresRead.get_procedure_from_blockchain_endpoint w rd procedure_id s
         = (Ok d, s)
       /\ get "id" d = nth_error t 0 /\ get "patient_id" d = nth_error t 1
       /\ get "procedure_type" d = nth_error t 3 /\ get "metadata" d = nth_error t 8)
  /\ ((forall t, Chain.getProcedure rd procedure_id = Ok t -> (List.length t < 9)%nat) ->
      ProceduresRead.get_procedure_from_blockchain_endpoint w rd procedure_id s
      = (Raise (HTTPException 404 ("Acte non trouv" ++ e_acute ++ " sur la blockchain")), s)).
Proof.
  intros Hc.
  assert (Hstep : ProceduresRead.get_procedure_from_blockchain_endpoint w rd procedure_id s
                  = match resolved rd procedure_id with
                    | Some d => (Ok d, s)
                    | None => (Raise (HTTPException 404
                                 ("Acte non trouv" ++ e_acute ++ " sur la blockchain")), s)
                    end).
  { unfold ProceduresRead.get_procedure_from_blockchain_endpoint, Session.on_client,
      St.bind, St.zoom.
    rewrite (get_procedure_ready w rd procedure_id _ h Hc).
    destruct s as [d0 c0]. cbn [Session.st_db Session.st_client].
    destruct (resolved rd procedure_id); reflexivity. }
  rewrite Hstep. unfold resolved. split.
  - intros t Ht Hlen. rewrite Ht.
    destruct (procedure_dict_long t Hlen) as (d & -> & _ & H0 & H1 & H3 & H8).
    exists d. repeat split; assumption.
  - intros Hshort. destruct (Chain.getProcedure rd procedure_id) as [t|]; [|reflexivity].
    destruct (procedure_dict_short t (Hshort t eq_refl)) as [e ->]. reflexivity.
Qed.

Lemma chain_lookup_endpoint_witness :
  exists d,
    fst (ProceduresRead.get_procedure_from_blockchain_endpoint Sample.world_up
           SampleMore.reader 3
           (Session.mk_state empty_db SampleMore.ready_client)) = Ok d
    /\ get "id" d = Some (JInt 3).
Proof.
  destruct (proj1 (chain_lookup_endpoint Sample.world_up SampleMore.reader
              (Session.mk_state empty_db SampleMore.ready_client) _ 3 eq_refl)
              (SampleMore.chain_record 3) eq_refl) as (d & E & Hid & _).
  - simpl. lia.
  - exists d. split; [now rewrite E | exact Hid].
Defined.

(* ================================================================== *)
(** ** Further properties: patients and procedures *)
(* ================================================================== *)

Section Patients.
Import World Session Procedures.

Lemma first_none_hash (h : string) (rows : list Patient) :
  first (fun p => col_eq_str (patient_hash p) h) rows = None ->
  ~ In (Some h) (map patient_hash rows).
Proof.
  intros Hf Hin. apply in_map_iff in Hin as (p & Hp & Hin).
  pose proof (find_none _ _ Hf p Hin) as Hn. cbv beta in Hn.
  apply col_eq_str_eq in Hp. congruence.
Qed.

Lemma first_app_new {A} (cond : A -> bool) (rows : list A) (x : A) :
  first cond rows = None -> cond x = true -> first cond (rows ++ [x]) = Some x.
Proof.
  unfold first. induction rows as [|y r IH]; simpl; intros Hn Hx.
  - now rewrite Hx.
  - destruct (cond y); [discriminate Hn | now apply IH].
Qed.

End Patients.

(** X12. [create_patient] keeps patient hashes unique.  A request whose
    hash is already stored is refused with HTTP 400 and changes nothing;
    otherwise, when the commit goes through, exactly one patient with the
    requested hash is appended and no stored patient had that hash; in
    every case a table without two patients of the same hash stays so. *)
Theorem create_patient_keeps_hashes_unique (w : World.t)
    (patient : Schemas.PatientCreate) (user : Schemas.User)
    (s s' : Session.state) (r : result Patient) :
  Procedures.create_patient w patient user s = (r, s') ->
  (unique_patients (Session.st_db s) -> unique_patients (Session.st_db s'))
  /\ ((exists p, In p (patients (Session.st_db s))
                 /\ patient_hash p = Some (Schemas.pc_patient_hash patient)) ->
      s' = s /\ exists detail, r = Raise (HTTPException 400 detail))
  /\ (forall p, r = Ok p ->
        patients (Session.st_db s') = (patients (Session.st_db s) ++ [p])%list
        /\ patient_hash p = Some (Schemas.pc_patient_hash patient)
        /\ forall q, In q (patients (Session.st_db s)) ->
                     patient_hash q <> Some (Schemas.pc_patient_hash patient)).
Proof.
  unfold Procedures.create_patient, St.bind, St.gets, St.raise, Session.add_commit.
  destruct (Session.first _ (patients (Session.st_db s))) as [q|] eqn:Ef.
  - intros [= <- <-]. split; [auto|]. split.
    + intros _. split; [reflexivity | eexists; reflexivity].
    + intros p H; discriminate H.
  - pose proof (first_none_hash _ _ Ef) as Hfresh.
    assert (Hno : forall q, In q (patients (Session.st_db s)) ->
                    patient_hash q <> Some (Schemas.pc_patient_hash patient)).
    { intros q Hin Hq. apply Hfresh. rewrite <- Hq. now apply in_map. }
    destruct (World.commit_insert w) as [[]|e]; intros [= <- <-].
    + split; [|split].
      * unfold unique_patients. cbn [Session.st_db Session.with_db patients
          Session.set_patients]. intros Hu. rewrite map_app. simpl.
        apply NoDup_app; [exact Hu | repeat constructor; intros [] |].
        intros x Hx [<- | []]. contradiction.
      * intros (p & Hin & Hp). exfalso. exact (Hno p Hin Hp).
      * intros p [= <-]. repeat split; try reflexivity. exact Hno.
    + split; [auto|]. split.
      * intros (p & Hin & Hp). exfalso. exact (Hno p Hin Hp).
      * intros p H; discriminate H.
Qed.

Lemma create_patient_keeps_hashes_unique_witness :
  snd (Procedures.create_patient Sample.world_up
         (Schemas.mk_PatientCreate "a1b2c3d4e5f60718" None None None)
         Sample.user Sample.s0) = Sample.s0.
Proof.
  destruct (Procedures.create_patient Sample.world_up
              (Schemas.mk_PatientCreate "a1b2c3d4e5f60718" None None None)
              Sample.user Sample.s0) as [r s'] eqn:E.
  destruct (proj1 (proj2 (create_patient_keeps_hashes_unique _ _ _ _ _ _ E)))
    as [Hs _].
  - exists Sample.patient. split; [left; reflexivity | reflexivity].
  - exact Hs.
Defined.

(** X13. A patient just created is the one [get_patient] returns for its
    hash, and the lookup changes nothing; for a hash no stored patient
    has, [get_patient] answers 404. *)
Theorem created_patient_is_found (w : World.t) (patient : Schemas.PatientCreate)
    (user : Schemas.User) (s s' : Session.state) (p : Patient) :
  Procedures.create_patient w patient user s = (Ok p, s') ->
  ProceduresRead.get_patient (Schemas.pc_patient_hash patient) s' = (Ok p, s')
  /\ forall h, (forall q, In q (patients (Session.st_db s')) -> patient_hash q <> Some h) ->
       exists detail,
         ProceduresRead.get_patient h s' = (Raise (HTTPException 404 detail), s').
Proof.
  unfold Procedures.create_patient, St.bind, St.gets, St.raise, Session.add_commit.
  destruct (Session.first _ (patients (Session.st_db s))) as [q|] eqn:Ef; [discriminate|].
  destruct (World.commit_insert w) as [[]|e]; [|discriminate].
  intros [= <- <-]. split.
  - unfold ProceduresRead.get_patient, St.bind, St.gets, St.ret.
    cbn [Session.st_db Session.with_db patients Session.set_patients].
    rewrite (first_app_new _ _ _ Ef); [reflexivity|].
    cbn [patient_hash Session.col_eq_str]. apply String.eqb_refl.
  - intros h Hno. unfold ProceduresRead.get_patient, St.bind, St.gets, St.raise.
    match goal with
    | |- context [Session.first ?f (patients (Session.st_db (Session.with_db ?g s)))] =>
        destruct (Session.first f (patients (Session.st_db (Session.with_db g s))))
          as [q|] eqn:Eq; [|eexists; reflexivity]
    end.
    apply find_some in Eq as [Hin Hq]. apply col_eq_str_eq in Hq.
    exfalso. exact (Hno q Hin Hq).
Qed.

Lemma created_patient_is_found_witness :
  exists p s',
    Procedures.create_patient Sample.world_up
      (Schemas.mk_PatientCreate "0011223344556677" None None None)
      Sample.user Sample.s0 = (Ok p, s')
    /\ ProceduresRead.get_patient "0011223344556677" s' = (Ok p, s').
Proof.
  eexists _, _. split; [reflexivity|].
  exact (proj1 (created_patient_is_found Sample.world_up
                  (Schemas.mk_PatientCreate "0011223344556677" None None None)
                  Sample.user Sample.s0 _ _ eq_refl)).
Defined.

Section CreateProcedureMore.
Import World Session Procedures.
Variable w : World.t.

(** The [try] block, by what the submission and the second commit did. *)
Lemma anchor_exact (procedure : Schemas.ProcedureCreate) (s : state) (r : Procedure) :
  let out := snd (St.try_except (anchor w procedure) (fun _ => St.ret tt) (s, r)) in
  (snd out = r /\ st_db (fst out) = st_db s
   /\ submission_fails w procedure (st_client s))
  \/ (exists tx block_number gas_used key,
        PRACTITIONER_PRIVATE_KEY w = Some key /\ key <> ""
        /\ fst (Blockchain.record_procedure_on_blockchain w
                  (Schemas.patient_hash procedure) (Schemas.procedure_type procedure)
                  (Schemas.duration procedure) (Schemas.consent_hash procedure)
                  (or_empty (Schemas.metadata procedure)) key (st_client s))
           = Ok (Blockchain.Success tx block_number gas_used)
        /\ ((commit_update w <> Ok tt
             /\ snd out = stamp r tx /\ st_db (fst out) = st_db s)
            \/ (commit_update w = Ok tt
                /\ snd out = touched w (stamp r tx)
                /\ st_db (fst out) = store_procedure (touched w (stamp r tx)) (st_db s)))).
Proof.
  cbv zeta. unfold anchor, submission_fails.
  destruct (PRACTITIONER_PRIVATE_KEY w) as [key|] eqn:Ek; simpl truthy.
  2: { left. repeat split. intros key tx bn gu H; discriminate H. }
  destruct (negb (key =? "")%string) eqn:Ene.
  2: { left. repeat split. intros key' tx bn gu [= <-] Hne.
       apply negb_false_iff, String.eqb_eq in Ene. contradiction. }
  apply negb_true_iff, String.eqb_neq in Ene.
  unfold on_client.
  unfold St.try_except, St.bind, St.zoom, St.modify, St.lift, St.ret.
  cbn [fst snd or_empty st_client st_db].
  match goal with
  | |- context [Blockchain.record_procedure_on_blockchain w ?a ?b ?c ?d ?e ?k ?cl] =>
      destruct (Blockchain.record_procedure_on_blockchain w a b c d e k cl)
        as [[[tx bn gu|cause]|e'] c'] eqn:Er; cbn [fst snd st_db]
  end.
  - right. exists tx, bn, gu, key. split; [reflexivity|]. split; [exact Ene|].
    split; [rewrite Er; reflexivity|].
    destruct (commit_update w) as [[]|e]; cbn [fst snd st_db with_db].
    + right. repeat split.
    + left. repeat split. discriminate.
  - left. repeat split. intros key' tx bn gu [= <-] _. rewrite Er. discriminate.
  - left. repeat split. intros key' tx bn gu [= <-] _. rewrite Er. discriminate.
Qed.

Lemma store_last (old : list Procedure) (r0 r1 : Procedure) (d : db) :
  id r0 = next_id id old -> id r1 = id r0 ->
  store_procedure r1 (set_procedures (old ++ [r0]) d)
  = set_procedures (old ++ [r1]) d.
Proof.
  intros H0 H1. unfold store_procedure, set_procedures.
  cbn [users patients procedures consents fhir_resources]. f_equal.
  rewrite map_app. cbn [map]. rewrite H1, Z.eqb_refl. f_equal.
  rewrite <- (map_id old) at 2. apply map_ext_in.
  intros x Hin. pose proof (next_id_above id old x Hin) as Hlt.
  destruct (id x =? id r0) eqn:E; [|reflexivity].
  apply Z.eqb_eq in E. lia.
Qed.

(** Everything [create_procedure] can leave behind when it returns. *)
Lemma create_procedure_result (procedure : Schemas.ProcedureCreate)
    (user : Schemas.User) (s s' : state) (r : Procedure) :
  create_procedure w procedure user s = (Ok r, s') ->
  let r0 := new_row w procedure user s in
  (exists pa, In pa (patients (st_db s))
              /\ patient_hash pa = Some (Schemas.patient_hash procedure))
  /\ exists row,
       st_db s' = set_procedures (procedures (st_db s) ++ [row]) (st_db s)
       /\ ((row = r0 /\ r = r0 /\ submission_fails w procedure (st_client s))
           \/ exists tx block_number gas_used key,
                PRACTITIONER_PRIVATE_KEY w = Some key /\ key <> ""
                /\ fst (Blockchain.record_procedure_on_blockchain w
                          (Schemas.patient_hash procedure)
                          (Schemas.procedure_type procedure)
                          (Schemas.duration procedure) (Schemas.consent_hash procedure)
                          (or_empty (Schemas.metadata procedure)) key (st_client s))
                   = Ok (Blockchain.Success tx block_number gas_used)
                /\ ((commit_update w <> Ok tt /\ row = r0 /\ r = stamp r0 tx)
                    \/ (commit_update w = Ok tt
                        /\ row = touched w (stamp r0 tx) /\ r = row))).
Proof.
  intros E. cbv zeta.
  assert (Hpa : exists pa, In pa (patients (st_db s))
                  /\ patient_hash pa = Some (Schemas.patient_hash procedure)).
  { revert E. unfold create_procedure, St.bind, St.gets, St.ret, St.raise.
    destruct (str_in _ _); [|discriminate].
    destruct (first _ (patients (st_db s))) as [pa|] eqn:Ef; [|discriminate].
    intros _. apply find_some in Ef as [Hin Hq]. apply col_eq_str_eq in Hq.
    now exists pa. }
  split; [exact Hpa|].
  destruct (create_procedure_cases w procedure user s) as [[e E'] | E'];
    rewrite E' in E; [discriminate E|]. injection E as <- <-.
  destruct (anchor_exact procedure (inserted w procedure user s)
              (new_row w procedure user s))
    as [(Hr & Hs & Hf) | (tx & bn & gu & key & Hk & Hne & Hrec
                          & [(Hcu & Hr & Hs) | (Hcu & Hr & Hs)])].
  - exists (new_row w procedure user s). rewrite Hr, Hs. split; [reflexivity|].
    left. repeat split. exact Hf.
  - exists (new_row w procedure user s). rewrite Hr, Hs. split; [reflexivity|].
    right. exists tx, bn, gu, key. repeat split; try assumption. left. now repeat split.
  - exists (touched w (stamp (new_row w procedure user s) tx)). rewrite Hr, Hs. split.
    + unfold inserted. cbn [st_db with_db].
      apply store_last; reflexivity.
    + right. exists tx, bn, gu, key. repeat split; try assumption. right. now repeat split.
Qed.

End CreateProcedureMore.

(** X14. A call of [create_procedure] that returns has appended exactly
    one row to the procedures table and touched nothing else: the rows
    stored before are unchanged, the other tables are as they were, the new
    row has the key of the returned record, above every stored key, and it
    is the returned record itself unless the commit of the ledger stamp
    failed. *)
Theorem create_procedure_only_appends (w : World.t)
    (procedure : Schemas.ProcedureCreate) (user : Schemas.User)
    (s s' : Session.state) (r : Procedure) :
  Procedures.create_procedure w procedure user s = (Ok r, s') ->
  exists row,
    procedures (Session.st_db s') = (procedures (Session.st_db s) ++ [row])%list
    /\ id row = id r
    /\ (forall old, In old (procedures (Session.st_db s)) -> id old < id r)
    /\ (World.commit_update w = Ok tt -> row = r)
    /\ users (Session.st_db s') = users (Session.st_db s)
    /\ patients (Session.st_db s') = patients (Session.st_db s)
    /\ consents (Session.st_db s') = consents (Session.st_db s)
    /\ fhir_resources (Session.st_db s') = fhir_resources (Session.st_db s).
Proof.
  intros E.
  destruct (create_procedure_result w procedure user s s' r E)
    as (_ & row & Hdb & Hcases).
  exists row. rewrite Hdb. cbn [procedures users patients consents fhir_resources
                                Session.set_procedures].
  assert (Hid : id row = id r /\ id r = next_id id (procedures (Session.st_db s))
                /\ (World.commit_update w = Ok tt -> row = r)).
  { destruct Hcases as [(-> & -> & _)
                       | (tx & bn & gu & key & _ & _ & _
                          & [(Hcu & -> & ->) | (_ & -> & ->)])];
      repeat split; try reflexivity. intros Hok. contradiction. }
  destruct Hid as (Hid & Hnext & Hrow).
  split; [reflexivity|]. split; [exact Hid|]. split.
  - intros old Hin. rewrite Hnext. now apply next_id_above.
  - split; [exact Hrow|]. repeat split.
Qed.

Lemma create_procedure_only_appends_witness :
  exists r s',
    Procedures.create_procedure Sample.world_up Sample.request Sample.user Sample.s1
      = (Ok r, s')
    /\ procedures (Session.st_db s') = [Sample.stent; r].
Proof.
  eexists _, _. split; [reflexivity|].
  destruct (create_procedure_only_appends Sample.world_up Sample.request Sample.user
              Sample.s1 _ _ eq_refl) as (row & Hrows & _ & _ & Hrow & _).
  rewrite Hrows, (Hrow eq_refl). reflexivity.
Defined.



Section GenerateAfter.
Import World Session.

Lemma claim_facts (p : Procedure) (pa : Patient) (pr : User) (claim : dict) :
  create_fhir_claim p pa pr = Ok claim ->
  validate_fhir_claim claim = Ok (mk_validation true [] [])
  /\ get "id" claim = Some (JStr ("claim-" ++ str_int (id p)))
  /\ (forall tx, blockchain_tx_hash p = Some tx -> tx <> "" ->
        at_path [Key "meta"; Key "extension"; Idx 0; Key "valueString"] (JDict claim)
        = Some (JStr tx))
  /\ (forall c, consent_hash p = Some c -> c <> "" ->
        at_path [Key "supportingInfo"; Idx 0; Key "valueString"] (JDict claim)
        = Some (JStr c)).
Proof.
  intros H.
  invert_claim H p pa; hash_facts;
    (split; [reflexivity|]); (split; [reflexivity|]); split;
    intros h Eh Hne; first [discriminate Eh | injection Eh as <-];
    first [ reflexivity
          | exfalso; match goal with
                     | Hn : ~ carries (Some _) |- _ =>
                         apply Hn; eexists; split; [reflexivity | exact Hne]
                     end ].
Qed.

Lemma first_all_false {A} (cond : A -> bool) (rows : list A) :
  (forall x, In x rows -> cond x = false) -> first cond rows = None.
Proof.
  unfold first. induction rows as [|y r IH]; simpl; intros H; [reflexivity|].
  rewrite (H y (or_introl eq_refl)). apply IH. intros x Hx. apply H. now right.
Qed.

Lemma first_exists {A} (cond : A -> bool) (rows : list A) (x : A) :
  In x rows -> cond x = true -> exists y, first cond rows = Some y /\ cond y = true.
Proof.
  intros Hin Hx. unfold first. destruct (find cond rows) as [y|] eqn:E.
  - exists y. split; [reflexivity|]. now apply find_some in E.
  - pose proof (find_none _ _ E x Hin). congruence.
Qed.

(** What a returning call of [generate_fhir_claim] was built from. *)
Lemma generate_fhir_claim_inv (w : World.t) (pid : Z) (user : Schemas.User)
    (s s' : state) (claim : dict) :
  Fhir.generate_fhir_claim w pid user s = (Ok claim, s') ->
  exists p pa pr,
    first (fun x => id x =? pid) (procedures (st_db s)) = Some p
    /\ create_fhir_claim p pa pr = Ok claim.
Proof.
  unfold Fhir.generate_fhir_claim, St.bind, St.gets, St.raise, St.lift, St.ret, add_commit.
  destruct (first _ (procedures _)) as [p|]; [|discriminate].
  destruct (first _ (patients _)) as [pa|]; [|discriminate].
  destruct (first _ (users _)) as [pr|]; [|discriminate].
  destruct (create_fhir_claim p pa pr) as [c|] eqn:Ec; [|discriminate].
  destruct (commit_insert w); [|discriminate].
  intros [= <- _]. now exists p, pa, pr.
Qed.

Lemma generate_fhir_claim_runs (w : World.t) (pid : Z) (user : Schemas.User)
    (s : state) (p : Procedure) (pa : Patient) (pr : User) (claim : dict) :
  first (fun x => id x =? pid) (procedures (st_db s)) = Some p ->
  first (fun x => col_eq_opt_str (patient_hash x) (proc_patient_hash p))
        (patients (st_db s)) = Some pa ->
  first (fun u => col_eq_opt_int (user_id u) (practitioner_id p))
        (users (st_db s)) = Some pr ->
  create_fhir_claim p pa pr = Ok claim ->
  commit_insert w = Ok tt ->
  exists s', Fhir.generate_fhir_claim w pid user s = (Ok claim, s').
Proof.
  intros Hp Hpa Hpr Hc Hk.
  unfold Fhir.generate_fhir_claim, St.bind, St.gets, St.raise, St.lift, St.ret, add_commit.
  rewrite Hp, Hpa, Hpr, Hc, Hk. eexists; reflexivity.
Qed.

Lemma first_map_replace (pid : Z) (r' : Procedure) (rows : list Procedure) (p : Procedure) :
  first (fun x => id x =? pid) rows = Some p ->
  id r' = pid ->
  first (fun x => id x =? pid) (map (fun x => if id x =? id r' then r' else x) rows)
  = Some r'.
Proof.
  unfold first. intros Hf Hid. subst pid.
  induction rows as [|x l IH]; simpl in *; [discriminate Hf|].
  destruct (id x =? id r') eqn:E.
  - simpl. now rewrite Z.eqb_refl.
  - simpl. rewrite E. now apply IH.
Qed.

End GenerateAfter.

(** X16. A procedure that [create_procedure] has just returned can be
    turned into a claim: when the practitioner is a stored user and the
    document can be committed, [generate_fhir_claim] for the returned id
    returns a claim with id "claim-<id>" that [validate_fhir_claim] finds
    valid; and when the ledger stamp was committed, a transaction hash on
    the returned record is the [valueString] of the claim's provenance
    extension. *)
Theorem created_procedure_yields_valid_claim (w w2 : World.t)
    (procedure : Schemas.ProcedureCreate) (user user2 : Schemas.User)
    (s s' : Session.state) (r : Procedure) :
  Procedures.create_procedure w procedure user s = (Ok r, s') ->
  (exists u, In u (users (Session.st_db s)) /\ user_id u = Schemas.id user) ->
  World.commit_insert w2 = Ok tt ->
  exists claim s'',
    Fhir.generate_fhir_claim w2 (id r) user2 s' = (Ok claim, s'')
    /\ get "id" claim = Some (JStr ("claim-" ++ str_int (id r)))
    /\ validate_fhir_claim claim = Ok (mk_validation true [] [])
    /\ (World.commit_update w = Ok tt ->
        forall tx, blockchain_tx_hash r = Some tx -> tx <> "" ->
          at_path [Key "meta"; Key "extension"; Idx 0; Key "valueString"] (JDict claim)
          = Some (JStr tx)).
Proof.
  intros E (u & Hu & Huid) Hk.
  destruct (create_procedure_result w procedure user s s' r E)
    as ((pa0 & Hpa0 & Hh0) & row & Hdb & Hcases).
  assert (Hrow : id row = id r
                 /\ id r = next_id id (procedures (Session.st_db s))
                 /\ proc_patient_hash row = Some (Schemas.patient_hash procedure)
                 /\ practitioner_id row = Some (Schemas.id user)
                 /\ procedure_type row <> None
                 /\ created_at row <> None /\ updated_at row <> None
                 /\ (World.commit_update w = Ok tt -> row = r)).
  { destruct Hcases as [(-> & -> & _)
                       | (tx & bn & gu & key & _ & _ & _
                          & [(Hcu & -> & ->) | (_ & -> & ->)])];
      repeat split; try reflexivity; try discriminate. intros Hok; contradiction. }
  destruct Hrow as (Hid & Hnext & Hph & Hpr & Hty & Hca & Hua & Hsame).
  assert (Hfp : Session.first (fun x => id x =? id r) (procedures (Session.st_db s'))
                = Some row).
  { rewrite Hdb. cbn [procedures Session.set_procedures].
    apply first_app_new; [|rewrite Hid; apply Z.eqb_refl].
    apply first_all_false. intros x Hx.
    pose proof (next_id_above id _ x Hx). apply Z.eqb_neq. lia. }
  destruct (first_exists
              (fun x => Session.col_eq_opt_str (patient_hash x) (proc_patient_hash row))
              (patients (Session.st_db s')) pa0) as (pa & Hfpa & Hpa).
  { rewrite Hdb. exact Hpa0. }
  { rewrite Hph. cbn [Session.col_eq_opt_str]. now apply col_eq_str_eq. }
  destruct (first_exists
              (fun x => Session.col_eq_opt_int (user_id x) (practitioner_id row))
              (users (Session.st_db s')) u) as (pr & Hfpr & _).
  { rewrite Hdb. exact Hu. }
  { rewrite Hpr. cbn [Session.col_eq_opt_int]. apply Z.eqb_eq. exact Huid. }
  destruct (create_fhir_claim_returns row pa pr) as [claim Hclaim].
  { repeat split; try assumption.
    rewrite Hph in Hpa. cbn [Session.col_eq_opt_str] in Hpa.
    apply col_eq_str_eq in Hpa. rewrite Hpa. discriminate. }
  destruct (generate_fhir_claim_runs w2 (id r) user2 s' row pa pr claim
              Hfp Hfpa Hfpr Hclaim Hk) as [s'' Hgen].
  destruct (claim_facts row pa pr claim Hclaim) as (Hvalid & Hcid & Htx & _).
  exists claim, s''. split; [exact Hgen|]. split; [now rewrite <- Hid|].
  split; [exact Hvalid|].
  intros Hok tx Hr Hne. apply Htx; [|exact Hne]. now rewrite (Hsame Hok).
Qed.

Lemma created_procedure_yields_valid_claim_witness :
  exists r s' claim s'',
    Procedures.create_procedure Sample.world_up Sample.request Sample.user Sample.s0
      = (Ok r, s')
    /\ Fhir.generate_fhir_claim Sample.world_down (id r) Sample.user s' = (Ok claim, s'')
    /\ at_path [Key "meta"; Key "extension"; Idx 0; Key "valueString"] (JDict claim)
       = Some (JStr "0xabc").
Proof.
  destruct (Procedures.create_procedure Sample.world_up Sample.request Sample.user
              Sample.s0) as [[r|e] s'] eqn:E; [|discriminate E].
  destruct (created_procedure_yields_valid_claim Sample.world_up Sample.world_down
              Sample.request Sample.user Sample.user Sample.s0 s' r E)
    as (claim & s'' & Hgen & _ & _ & Htx).
  - exists Sample.practitioner. split; [left; reflexivity | reflexivity].
  - reflexivity.
  - exists r, s', claim, s''. split; [reflexivity|]. split; [exact Hgen|].
    apply Htx; [reflexivity | | discriminate].
    injection E as <- _. reflexivity.
Defined.

(** X17. After a consent upload that returned, every claim generated for
    that procedure carries the uploaded file's digest as the
    [valueString] of its consent entry; the upload answers with the digest
    and the locator "uploads/consents/consent_<id>_<first eight characters
    of the digest>.pdf". *)
Theorem uploaded_consent_shows_in_claim (w w2 : World.t) (procedure_id : Z)
    (digest : string) (user user2 : Schemas.User) (s s' s'' : Session.state)
    (out : string * string) (claim : dict) :
  Procedures.upload_consent w procedure_id digest user s = (Ok out, s') ->
  digest <> "" ->
  Fhir.generate_fhir_claim w2 procedure_id user2 s' = (Ok claim, s'') ->
  at_path [Key "supportingInfo"; Idx 0; Key "valueString"] (JDict claim)
    = Some (JStr digest)
  /\ out = (digest, "uploads/consents/consent_" ++ str_int procedure_id ++ "_"
                    ++ prefix 8 digest ++ ".pdf").
Proof.
  intros Hup Hne Hgen.
  unfold Procedures.upload_consent, St.bind, St.gets, St.raise, St.lift, St.ret,
    St.modify, Session.add_commit in Hup.
  destruct (Session.first (fun p => id p =? procedure_id) (procedures (Session.st_db s)))
    as [p|] eqn:Ef; [|discriminate Hup].
  destruct (Session.ne_opt_int _ _); [discriminate Hup|].
  destruct (World.write_file w _); [|discriminate Hup].
  destruct (World.commit_insert w); [|discriminate Hup].
  destruct (World.commit_update w); [|discriminate Hup].
  injection Hup as <- <-. split; [|reflexivity].
  destruct (generate_fhir_claim_inv w2 procedure_id user2 _ s'' claim Hgen)
    as (p' & pa & pr & Hp' & Hclaim).
  cbn [Session.st_db Session.with_db] in Hp'.
  unfold Session.store_procedure in Hp'.
  cbn [procedures Session.set_procedures Session.set_consents] in Hp'.
  assert (Hidp : id p = procedure_id).
  { apply find_some in Ef as [_ Hid]. now apply Z.eqb_eq in Hid. }
  rewrite (first_map_replace procedure_id _ _ p Ef) in Hp' by exact Hidp.
  injection Hp' as <-.
  destruct (claim_facts _ pa pr claim Hclaim) as (_ & _ & _ & Hconsent).
  apply Hconsent; [reflexivity | exact Hne].
Qed.

Lemma uploaded_consent_shows_in_claim_witness :
  exists out s' claim s'',
    Procedures.upload_consent Sample.world_up 1 Sample.digest Sample.user Sample.s1
      = (Ok out, s')
    /\ Fhir.generate_fhir_claim Sample.world_up 1 Sample.user s' = (Ok claim, s'')
    /\ at_path [Key "supportingInfo"; Idx 0; Key "valueString"] (JDict claim)
       = Some (JStr Sample.digest)
    /\ snd out = "uploads/consents/consent_1_9f86d081.pdf".
Proof.
  destruct (Procedures.upload_consent Sample.world_up 1 Sample.digest Sample.user
              Sample.s1) as [[out|e] s'] eqn:Eu; [|discriminate Eu].
  destruct (Fhir.generate_fhir_claim Sample.world_up 1 Sample.user s')
    as [[claim|e] s''] eqn:Eg.
  - destruct (uploaded_consent_shows_in_claim _ _ _ _ _ _ _ _ _ _ _ Eu
                ltac:(discriminate) Eg) as [Hv Ho].
    exists out, s', claim, s''. repeat split; try assumption. now rewrite Ho.
  - exfalso. injection Eu as _ <-. discriminate Eg.
Defined.

(** X18. A consent upload that is refused changes nothing: for an id no
    stored procedure has it answers 404, and when the procedure found
    belongs to another practitioner (or to none) it answers 403; in both
    cases the state is as before.  Whatever exception the upload raises,
    the procedures table is left as it was. *)
Theorem refused_upload_changes_nothing (w : World.t) (procedure_id : Z)
    (digest : string) (user : Schemas.User) (s : Session.state) :
  ((forall p, In p (procedures (Session.st_db s)) -> id p <> procedure_id) ->
     exists detail,
       Procedures.upload_consent w procedure_id digest user s
       = (Raise (HTTPException 404 detail), s))
  /\ (forall p,
        Session.first (fun x => id x =? procedure_id) (procedures (Session.st_db s))
          = Some p ->
        practitioner_id p <> Some (Schemas.id user) ->
        exists detail,
          Procedures.upload_consent w procedure_id digest user s
          = (Raise (HTTPException 403 detail), s))
  /\ (forall e s', Procedures.upload_consent w procedure_id digest user s = (Raise e, s') ->
        procedures (Session.st_db s') = procedures (Session.st_db s)).
Proof.
  unfold Procedures.upload_consent, St.bind, St.gets, St.raise, St.lift, St.ret,
    St.modify, Session.add_commit.
  split; [|split].
  - intros Hno. rewrite first_all_false; [eexists; reflexivity|].
    intros x Hx. apply Z.eqb_neq. exact (Hno x Hx).
  - intros p Hp Hother. rewrite Hp.
    assert (Hne : Session.ne_opt_int (practitioner_id p) (Schemas.id user) = true).
    { unfold Session.ne_opt_int. destruct (practitioner_id p) as [n|]; [|reflexivity].
      apply negb_true_iff, Z.eqb_neq. congruence. }
    rewrite Hne. eexists; reflexivity.
  - intros e s'.
    destruct (Session.first _ (procedures _)) as [p|]; [|intros [= _ <-]; reflexivity].
    destruct (Session.ne_opt_int _ _); [intros [= _ <-]; reflexivity|].
    destruct (World.write_file w _); [|intros [= _ <-]; reflexivity].
    destruct (World.commit_insert w); [|intros [= _ <-]; reflexivity].
    destruct (World.commit_update w); [discriminate|].
    intros [= _ <-]. reflexivity.
Qed.

Lemma refused_upload_changes_nothing_witness :
  exists detail,
    Procedures.upload_consent Sample.world_up 1 Sample.digest
      (Schemas.mk_User 8 "dr.other" "other@example.org" "practitioner" "0x70" true)
      Sample.s1
    = (Raise (HTTPException 403 detail), Sample.s1).
Proof.
  apply (proj1 (proj2 (refused_upload_changes_nothing Sample.world_up 1 Sample.digest
                         (Schemas.mk_User 8 "dr.other" "other@example.org"
                            "practitioner" "0x70" true) Sample.s1)) Sample.stent).
  - reflexivity.
  - discriminate.
Defined.

Section Listing.
Import World Session.

Lemma offset_limit_in {A} (skip limit : Z) (rows : list A) (x : A) :
  In x (offset_limit skip limit rows) -> In x rows.
Proof.
  unfold offset_limit. intros H.
  assert (Hs : In x (skipn (Z.to_nat skip) rows)).
  { destruct (limit <? 0); [exact H|].
    rewrite <- (firstn_skipn (Z.to_nat limit) (skipn (Z.to_nat skip) rows)).
    apply in_or_app. now left. }
  rewrite <- (firstn_skipn (Z.to_nat skip) rows). apply in_or_app. now right.
Qed.

Lemma offset_limit_length {A} (skip limit : Z) (rows : list A) :
  0 <= limit -> (List.length (offset_limit skip limit rows) <= Z.to_nat limit)%nat.
Proof.
  intros Hl. unfold offset_limit.
  destruct (limit <? 0) eqn:E; [apply Z.ltb_lt in E; lia|].
  apply firstn_le_length.
Qed.

Lemma offset_limit_all {A} (limit : Z) (rows : list A) :
  Z.of_nat (List.length rows) <= limit -> offset_limit 0 limit rows = rows.
Proof.
  intros Hl. unfold offset_limit. cbn [Z.to_nat skipn].
  destruct (limit <? 0) eqn:E; [reflexivity|].
  apply firstn_all2. lia.
Qed.

End Listing.

(** X19. [get_procedures] returns stored procedures only, never changes
    the state, and applies each filter that is given and true: with a
    non-empty patient hash every returned procedure has that hash, with a
    non-zero practitioner id every returned procedure has that
    practitioner.  With a non-negative limit it returns at most [limit]
    rows, and from offset 0 with a limit that is not reached it returns
    every match.  A practitioner id of 0 does not filter: the result is
    that of the call without practitioner id. *)
Theorem get_procedures_filters (skip limit : Z) (patient_hash_ : option string)
    (practitioner_id_ : option Z) (s : Session.state) :
  exists l,
    ProceduresRead.get_procedures skip limit patient_hash_ practitioner_id_ s = (Ok l, s)
    /\ (forall p, In p l ->
          In p (procedures (Session.st_db s))
          /\ (forall h, patient_hash_ = Some h -> h <> "" -> proc_patient_hash p = Some h)
          /\ (forall n, practitioner_id_ = Some n -> n <> 0 -> practitioner_id p = Some n))
    /\ (0 <= limit -> (List.length l <= Z.to_nat limit)%nat)
    /\ (skip = 0 -> Z.of_nat (List.length (procedures (Session.st_db s))) <= limit ->
        forall p, In p (procedures (Session.st_db s)) ->
          (forall h, patient_hash_ = Some h -> h <> "" -> proc_patient_hash p = Some h) ->
          (forall n, practitioner_id_ = Some n -> n <> 0 -> practitioner_id p = Some n) ->
          In p l)
    /\ (practitioner_id_ = Some 0 ->
        ProceduresRead.get_procedures skip limit patient_hash_ None s = (Ok l, s)).
Proof.
  unfold ProceduresRead.get_procedures, St.gets.
  eexists. split; [reflexivity|].
  set (q1 := match patient_hash_ with
             | Some h => if truthy (Some h) then filter _ _ else _
             | None => _
             end).
  set (q2 := match practitioner_id_ with
             | Some n => if ProceduresRead.truthy_int (Some n) then filter _ q1 else q1
             | None => q1
             end).
  assert (H1 : forall p, In p q1 <->
                 In p (procedures (Session.st_db s))
                 /\ (forall h, patient_hash_ = Some h -> h <> "" ->
                       proc_patient_hash p = Some h)).
  { intros p. subst q1. destruct patient_hash_ as [h|].
    - cbn [truthy]. destruct (h =? "")%string eqn:Eh; cbn [negb].
      + apply String.eqb_eq in Eh. split; [|tauto].
        intros Hin. split; [exact Hin|]. intros h' [= <-] Hne. contradiction.
      + apply String.eqb_neq in Eh. rewrite filter_In, col_eq_str_eq. split.
        * intros [Hin Hp]. split; [exact Hin|]. now intros h' [= <-] _.
        * intros [Hin Hp]. split; [exact Hin | now apply Hp].
    - split; [|tauto]. intros Hin. split; [exact Hin|]. intros h H; discriminate H. }
  assert (H2 : forall p, In p q2 <->
                 In p q1
                 /\ (forall n, practitioner_id_ = Some n -> n <> 0 ->
                       practitioner_id p = Some n)).
  { intros p. subst q2. destruct practitioner_id_ as [n|].
    - cbn [ProceduresRead.truthy_int]. destruct (n =? 0) eqn:En; cbn [negb].
      + apply Z.eqb_eq in En. split; [|tauto].
        intros Hin. split; [exact Hin|]. intros n' [= <-] Hne. contradiction.
      + apply Z.eqb_neq in En. rewrite filter_In. split.
        * intros [Hin Hp]. split; [exact Hin|]. intros n' [= <-] _.
          unfold ProceduresRead.col_eq_int in Hp.
          destruct (practitioner_id p) as [m|]; [|discriminate Hp].
          apply Z.eqb_eq in Hp. now subst.
        * intros [Hin Hp]. split; [exact Hin|].
          unfold ProceduresRead.col_eq_int. rewrite (Hp n eq_refl En). apply Z.eqb_refl.
    - split; [|tauto]. intros Hin. split; [exact Hin|]. intros n H; discriminate H. }
  split; [|split; [|split]].
  - intros p Hin. apply offset_limit_in in Hin. apply H2 in Hin as [Hin Hpr].
    apply H1 in Hin as [Hin Hph]. repeat split; assumption.
  - apply offset_limit_length.
  - intros -> Hlen p Hin Hph Hpr.
    rewrite offset_limit_all.
    + apply H2. split; [apply H1; now split | exact Hpr].
    + assert (Hq1 : (List.length q1 <= List.length (procedures (Session.st_db s)))%nat).
      { subst q1. destruct patient_hash_ as [h|]; [destruct (truthy (Some h))|];
          first [apply filter_length_le | lia]. }
      assert (Hq2 : (List.length q2 <= List.length q1)%nat).
      { subst q2. destruct practitioner_id_ as [n|];
          [destruct (ProceduresRead.truthy_int (Some n))|];
          first [apply filter_length_le | lia]. }
      lia.
  - intros ->. subst q2. reflexivity.
Qed.

Lemma get_procedures_filters_witness :
  fst (ProceduresRead.get_procedures 0 100 None (Some 0) Sample.s1)
  = fst (ProceduresRead.get_procedures 0 100 None None Sample.s1).
Proof.
  destruct (get_procedures_filters 0 100 None (Some 0) Sample.s1)
    as (l & E & _ & _ & _ & Hzero).
  now rewrite E, (Hzero eq_refl).
Defined.

Section OrderByDesc.
Import World Session.

Lemma lex_opp (a b : comparison) : CompOpp (lex a b) = lex (CompOpp a) (CompOpp b).
Proof. destruct a; reflexivity. Qed.

Lemma datetime_compare_antisym (a b : datetime) :
  datetime_compare b a = CompOpp (datetime_compare a b).
Proof.
  unfold datetime_compare. rewrite !lex_opp.
  now rewrite <- !N.compare_antisym.
Qed.

Lemma column_compare_antisym (a b : option datetime) :
  column_compare b a = CompOpp (column_compare a b).
Proof.
  destruct a as [x|], b as [y|]; try reflexivity. apply datetime_compare_antisym.
Qed.

Lemma desc_ok_total (a b : option datetime) : desc_ok a b = false -> desc_ok b a = true.
Proof.
  unfold desc_ok. rewrite (column_compare_antisym a b).
  destruct (column_compare a b); simpl; congruence.
Qed.

Lemma lex_trans (x y z : N) (c1 c2 c3 : comparison) :
  (c1 <> Lt -> c2 <> Lt -> c3 <> Lt) ->
  lex (x ?= y)%N c1 <> Lt -> lex (y ?= z)%N c2 <> Lt -> lex (x ?= z)%N c3 <> Lt.
Proof.
  intros Hin.
  destruct (N.compare_spec x y), (N.compare_spec y z), (N.compare_spec x z);
    simpl; try lia; try congruence; auto.
Qed.

Lemma datetime_compare_trans (a b c : datetime) :
  datetime_compare a b <> Lt -> datetime_compare b c <> Lt -> datetime_compare a c <> Lt.
Proof.
  unfold datetime_compare. repeat apply lex_trans.
  destruct (N.compare_spec (microsecond a) (microsecond b)),
           (N.compare_spec (microsecond b) (microsecond c)),
           (N.compare_spec (microsecond a) (microsecond c));
    try lia; congruence.
Qed.

Lemma column_compare_trans (a b c : option datetime) :
  column_compare a b <> Lt -> column_compare b c <> Lt -> column_compare a c <> Lt.
Proof.
  destruct a as [x|], b as [y|], c as [z|]; simpl; try congruence.
  apply datetime_compare_trans.
Qed.

Lemma column_compare_refl (a : option datetime) : column_compare a a = Eq.
Proof.
  destruct a as [x|]; [|reflexivity]. unfold column_compare, datetime_compare.
  now rewrite !N.compare_refl.
Qed.

Lemma desc_ok_not_lt (a b : option datetime) :
  desc_ok a b = true <-> column_compare a b <> Lt.
Proof.
  unfold desc_ok. destruct (column_compare a b); split; congruence.
Qed.

Context {A : Type}.
Variable column : A -> option datetime.

Lemma insert_desc_perm (x : A) (l : list A) :
  Permutation (insert_desc column x l) (x :: l).
Proof.
  induction l as [|y r IH]; simpl; [reflexivity|].
  destruct (desc_ok (column y) (column x)); [|reflexivity].
  rewrite IH. apply perm_swap.
Qed.

Lemma insert_desc_hd (x y : A) (l : list A) :
  (newest_first column) y x -> HdRel (newest_first column) y l -> HdRel (newest_first column) y (insert_desc column x l).
Proof.
  intros Hyx Hhd. destruct l as [|z r]; simpl.
  - now constructor.
  - inversion Hhd; subst. destruct (desc_ok (column z) (column x)); now constructor.
Qed.

Lemma insert_desc_sorted (x : A) (l : list A) :
  Sorted (newest_first column) l -> Sorted (newest_first column) (insert_desc column x l).
Proof.
  induction 1 as [|y r Hs IH Hhd]; simpl.
  - repeat constructor.
  - destruct (desc_ok (column y) (column x)) eqn:E.
    + constructor; [exact IH|]. now apply insert_desc_hd.
    + constructor; [now constructor|]. constructor.
      now apply desc_ok_total.
Qed.

Lemma order_by_desc_spec (rows : list A) :
  Permutation (order_by_desc column rows) rows
  /\ Sorted (newest_first column) (order_by_desc column rows).
Proof.
  unfold order_by_desc.
  assert (H : forall acc, Sorted (newest_first column) acc ->
            Permutation (fold_left (fun sorted x => insert_desc column x sorted) rows acc)
                        (rows ++ acc)
            /\ Sorted (newest_first column)
                 (fold_left (fun sorted x => insert_desc column x sorted) rows acc)).
  { induction rows as [|x r IH]; intros acc Hacc; simpl.
    - now split.
    - destruct (IH (insert_desc column x acc) (insert_desc_sorted x acc Hacc)) as [Hp Hs].
      split; [|exact Hs]. rewrite Hp, insert_desc_perm.
      symmetry. apply Permutation_middle. }
  destruct (H [] (Sorted_nil _)) as [Hp Hs]. rewrite app_nil_r in Hp. now split.
Qed.

Lemma order_by_desc_strong (rows : list A) :
  StronglySorted (fun a b => column_compare (column a) (column b) <> Lt)
                 (order_by_desc column rows).
Proof.
  apply Sorted_StronglySorted.
  - intros a b c. apply column_compare_trans.
  - destruct (order_by_desc_spec rows) as [_ Hs].
    induction Hs as [|a l _ IH Hhd]; constructor; [exact IH|].
    destruct Hhd as [|b l' Hab]; constructor. now apply desc_ok_not_lt.
Qed.

(** The first row of the ordered result is a row of the table, and no row
    of the table has a later value. *)
Lemma order_by_desc_head (rows : list A) (newest : A) (rest : list A) :
  order_by_desc column rows = newest :: rest ->
  In newest rows
  /\ forall x, In x rows -> column_compare (column newest) (column x) <> Lt.
Proof.
  intros E. destruct (order_by_desc_spec rows) as [Hp _].
  pose proof (order_by_desc_strong rows) as Hs. rewrite E in Hp, Hs.
  split.
  - apply (Permutation_in _ Hp). now left.
  - intros x Hx. apply (Permutation_in _ (Permutation_sym Hp)) in Hx.
    destruct Hx as [<- | Hx].
    + rewrite column_compare_refl. discriminate.
    + inversion Hs as [|? ? _ Hall]; subst. rewrite Forall_forall in Hall. now apply Hall.
Qed.

Lemma order_by_desc_nil (rows : list A) : order_by_desc column rows = [] -> rows = [].
Proof.
  intros E. destruct (order_by_desc_spec rows) as [Hp _]. rewrite E in Hp.
  now apply Permutation_nil in Hp.
Qed.

End OrderByDesc.

(** X20. [get_patient_history] returns exactly the stored procedures of
    the patient (each as often as it is stored, and no other), newest
    first: no procedure in the result comes before one created later.
    A procedure without creation time counts as the oldest.  The state is
    left as it is. *)
Theorem patient_history_newest_first (patient_hash_ : string) (s : Session.state) :
  exists l,
    ProceduresRead.get_patient_history patient_hash_ s = (Ok l, s)
    /\ Permutation l
         (filter (fun p => Session.col_eq_str (proc_patient_hash p) patient_hash_)
                 (procedures (Session.st_db s)))
    /\ StronglySorted (fun a b => column_compare (created_at a) (created_at b) <> Lt) l.
Proof.
  unfold ProceduresRead.get_patient_history, St.gets.
  eexists. split; [reflexivity|].
  split; [apply order_by_desc_spec | apply order_by_desc_strong].
Qed.

Lemma patient_history_newest_first_witness :
  fst (ProceduresRead.get_patient_history "a1b2c3d4e5f60718"
         (Session.mk_state
            (mk_db [] [Sample.patient] [Sample.stent; SampleMore.followup] [] [])
            Blockchain.no_client))
  = Ok [SampleMore.followup; Sample.stent].
Proof.
  destruct (patient_history_newest_first "a1b2c3d4e5f60718"
              (Session.mk_state
                 (mk_db [] [Sample.patient] [Sample.stent; SampleMore.followup] [] [])
                 Blockchain.no_client)) as (l & E & _).
  rewrite E. vm_compute in E. injection E as <-. reflexivity.
Defined.

Section Counting.
Import ProceduresRead.

Lemma opt_str_eqb_eq (a b : option string) : opt_str_eqb a b = true <-> a = b.
Proof.
  destruct a as [x|], b as [y|]; simpl; try (split; congruence).
  rewrite String.eqb_eq. split; congruence.
Qed.

Lemma total_count_set (k : option string) (n : Z) (counts : list (option string * Z)) :
  total_count (count_set k n counts) = total_count counts - count_get k counts + n.
Proof.
  induction counts as [|[k' n'] r IH]; simpl; [lia|].
  destruct (opt_str_eqb k' k); simpl; [lia | rewrite IH; lia].
Qed.

Lemma count_get_set_same (k : option string) (n : Z) (counts : list (option string * Z)) :
  count_get k (count_set k n counts) = n.
Proof.
  induction counts as [|[k' n'] r IH]; simpl.
  - now rewrite (proj2 (opt_str_eqb_eq k k) eq_refl).
  - destruct (opt_str_eqb k' k) eqn:E; simpl; rewrite E; [reflexivity | exact IH].
Qed.

Lemma count_get_set_other (k k0 : option string) (n : Z)
    (counts : list (option string * Z)) :
  k <> k0 -> count_get k (count_set k0 n counts) = count_get k counts.
Proof.
  intros Hne. induction counts as [|[k' n'] r IH]; simpl.
  - destruct (opt_str_eqb k0 k) eqn:E; [apply opt_str_eqb_eq in E; congruence | reflexivity].
  - destruct (opt_str_eqb k' k0) eqn:E0; simpl.
    + apply opt_str_eqb_eq in E0. subst k'.
      destruct (opt_str_eqb k0 k) eqn:E; [apply opt_str_eqb_eq in E; congruence|reflexivity].
    + destruct (opt_str_eqb k' k); [reflexivity | exact IH].
Qed.

(** How often [k] occurs in a list of column values. *)
Lemma count_types_spec (values : list (option string)) :
  total_count (count_types values) = Z.of_nat (List.length values)
  /\ forall k, count_get k (count_types values)
               = Z.of_nat (List.length (filter (fun v => opt_str_eqb v k) values)).
Proof.
  unfold count_types.
  assert (H : forall acc,
            total_count (fold_left (fun tc v => count_set v (count_get v tc + 1) tc)
                                   values acc)
            = total_count acc + Z.of_nat (List.length values)
            /\ forall k,
                 count_get k (fold_left (fun tc v => count_set v (count_get v tc + 1) tc)
                                        values acc)
                 = count_get k acc
                   + Z.of_nat (List.length (filter (fun v => opt_str_eqb v k) values))).
  { induction values as [|v r IH]; intros acc; simpl.
    - split; [lia | intros k; lia].
    - destruct (IH (count_set v (count_get v acc + 1) acc)) as [Ht Hk]. split.
      + rewrite Ht, total_count_set. lia.
      + intros k. rewrite Hk. destruct (opt_str_eqb v k) eqn:E.
        * apply opt_str_eqb_eq in E. subst k. rewrite count_get_set_same.
          simpl List.length. lia.
        * rewrite count_get_set_other; [lia|].
          intros ->. rewrite (proj2 (opt_str_eqb_eq v v) eq_refl) in E. discriminate E.
  }
  destruct (H []) as [Ht Hk]. split; [exact Ht | intros k; now rewrite Hk].
Qed.

Lemma filter_map_length {A B} (f : B -> bool) (g : A -> B) (l : list A) :
  List.length (filter f (map g l)) = List.length (filter (fun x => f (g x)) l).
Proof.
  induction l as [|x r IH]; simpl; [reflexivity|].
  destruct (f (g x)); simpl; now rewrite IH.
Qed.

Lemma distinct_length (values : list (option string)) :
  (List.length (distinct values) <= List.length values)%nat.
Proof.
  induction values as [|v r IH]; simpl; [lia|].
  pose proof (filter_length_le (fun x => negb (opt_str_eqb x v)) (distinct r)). lia.
Qed.

Lemma distinct_in (values : list (option string)) (x : option string) :
  In x (distinct values) <-> In x values.
Proof.
  induction values as [|v r IH]; simpl; [tauto|].
  rewrite filter_In, IH, negb_true_iff. split.
  - intros [-> | [Hin _]]; auto.
  - intros [-> | Hin]; [now left|].
    destruct (opt_str_eqb x v) eqn:E.
    + apply opt_str_eqb_eq in E. left. congruence.
    + right. now split.
Qed.

Lemma distinct_nodup (values : list (option string)) : NoDup (distinct values).
Proof.
  induction values as [|v r IH]; simpl; constructor.
  - rewrite filter_In, negb_true_iff. intros [_ H].
    rewrite (proj2 (opt_str_eqb_eq v v) eq_refl) in H. discriminate H.
  - now apply NoDup_filter.
Qed.

End Counting.

(** X21. The statistics of [get_procedure_stats] are consistent with the
    procedures table: the total is the number of stored procedures, the
    count under each procedure type is the number of stored procedures of
    that type and the counts add up to the total, the user's count and the
    number of distinct patients never exceed the total, and the distinct
    patients are counted once each.  The state is left as it is. *)
Theorem procedure_stats_consistent (user : Schemas.User) (s : Session.state) :
  exists st,
    ProceduresRead.get_procedure_stats user s = (Ok st, s)
    /\ ProceduresRead.total_procedures st
       = Z.of_nat (List.length (procedures (Session.st_db s)))
    /\ total_count (ProceduresRead.procedure_types st) = ProceduresRead.total_procedures st
    /\ (forall t, ProceduresRead.count_get t (ProceduresRead.procedure_types st)
                  = Z.of_nat (List.length
                      (filter (fun p => ProceduresRead.opt_str_eqb (procedure_type p) t)
                              (procedures (Session.st_db s)))))
    /\ 0 <= ProceduresRead.user_procedures st <= ProceduresRead.total_procedures st
    /\ 0 <= ProceduresRead.unique_patients st <= ProceduresRead.total_procedures st
    /\ exists hashes,
         NoDup hashes
         /\ ProceduresRead.unique_patients st = Z.of_nat (List.length hashes)
         /\ forall h, In h hashes
                      <-> exists p, In p (procedures (Session.st_db s))
                                    /\ proc_patient_hash p = h.
Proof.
  unfold ProceduresRead.get_procedure_stats, St.gets.
  eexists. split; [reflexivity|].
  cbn [ProceduresRead.total_procedures ProceduresRead.user_procedures
       ProceduresRead.procedure_types ProceduresRead.unique_patients].
  destruct (count_types_spec (map procedure_type (procedures (Session.st_db s))))
    as [Ht Hk].
  split; [reflexivity|]. split; [rewrite Ht, length_map; reflexivity|]. split.
  - intros t. rewrite Hk. f_equal. apply filter_map_length.
  - split.
    + pose proof (filter_length_le
        (fun p => ProceduresRead.col_eq_int (practitioner_id p) (Schemas.id user))
        (procedures (Session.st_db s))). lia.
    + split.
      * pose proof (distinct_length (map proc_patient_hash (procedures (Session.st_db s)))).
        rewrite length_map in H. lia.
      * exists (ProceduresRead.distinct (map proc_patient_hash (procedures (Session.st_db s)))).
        split; [apply distinct_nodup|]. split; [reflexivity|].
        intros h. rewrite distinct_in, in_map_iff. split.
        -- intros (p & Hp & Hin). now exists p.
        -- intros (p & Hin & Hp). now exists p.
Qed.

Lemma procedure_stats_consistent_witness :
  exists st,
    fst (ProceduresRead.get_procedure_stats Sample.user Sample.s1) = Ok st
    /\ ProceduresRead.total_procedures st = 1
    /\ ProceduresRead.count_get (Some "stent") (ProceduresRead.procedure_types st) = 1.
Proof.
  destruct (procedure_stats_consistent Sample.user Sample.s1)
    as (st & E & Htot & _ & Hcount & _).
  exists st. split; [now rewrite E|]. split; [exact Htot | exact (Hcount (Some "stent"))].
Defined.

(** X22. The supported procedure types and the coded-concept catalog
    agree: the catalog's keys are exactly [PROCEDURE_TYPES], in the same
    order, and each is its own lowercasing.  So a procedure type that
    [create_procedure] accepts is looked up under its own catalog entry and
    never through the default. *)
Theorem supported_types_have_codes :
  map fst SNOMED_PROCEDURE_CODES = Schemas.PROCEDURE_TYPES
  /\ forall t, In t Schemas.PROCEDURE_TYPES ->
       lower t = t
       /\ exists entry, catalog_get (lower t) SNOMED_PROCEDURE_CODES = Some entry
                        /\ get_snomed_code t = entry.
Proof.
  split; [reflexivity|].
  intros t Hin. simpl in Hin.
  repeat (destruct Hin as [<- | Hin];
          [split; [reflexivity | eexists; split; reflexivity]|]).
  contradiction.
Qed.

Lemma supported_types_have_codes_witness :
  get_snomed_code "stent"
  = mk_snomed "384692006" "Insertion of stent" "http://snomed.info/sct".
Proof.
  destruct (proj2 supported_types_have_codes "stent") as (_ & entry & Hget & ->).
  - simpl. tauto.
  - vm_compute in Hget. now injection Hget as <-.
Defined.

(* ================================================================== *)
(** ** Further properties: stored documents, bundles, statistics *)
(* ================================================================== *)

Section StoredDocuments.
Import World Session.
Variable w : World.t.

Lemma first_app_found {A} (cond : A -> bool) (rows more : list A) (x : A) :
  first cond rows = Some x -> first cond (rows ++ more) = Some x.
Proof.
  unfold first. induction rows as [|y r IH]; simpl; [discriminate|].
  destruct (cond y); [trivial | exact IH].
Qed.

(** Looking a document up after one more row was stored. *)
Lemma lookup_after_append (key : string) (row : FHIRResource) (s : state) :
  resource_id row = Some key ->
  FhirRead.get_fhir_resource key
    (with_db (set_fhir_resources (fhir_resources (st_db s) ++ [row])) s)
  = (match first (fun r => col_eq_str (resource_id r) key) (fhir_resources (st_db s)) with
     | Some old => FhirRead.resource_view old
     | None => FhirRead.resource_view row
     end,
     with_db (set_fhir_resources (fhir_resources (st_db s) ++ [row])) s).
Proof.
  intros Hkey. unfold FhirRead.get_fhir_resource, St.bind, St.gets, St.raise, St.lift.
  cbn [st_db with_db fhir_resources set_fhir_resources].
  destruct (first _ (fhir_resources (st_db s))) as [old|] eqn:Ef.
  - rewrite (first_app_found _ _ [row] old Ef). reflexivity.
  - rewrite (first_app_new _ _ row Ef); [reflexivity|].
    now apply col_eq_str_eq.
Qed.

Lemma lookup_before (key : string) (s : state) (old : FHIRResource) :
  first (fun r => col_eq_str (resource_id r) key) (fhir_resources (st_db s)) = Some old ->
  fst (FhirRead.get_fhir_resource key s) = FhirRead.resource_view old.
Proof.
  intros Hf. unfold FhirRead.get_fhir_resource, St.bind, St.gets, St.raise, St.lift.
  now rewrite Hf.
Qed.

End StoredDocuments.

(** X23. A generated claim can be read back: when no document is stored
    under "claim-<id>" yet, [get_fhir_resource] for that id returns, after
    [generate_fhir_claim], a view whose [fhir_data] is the claim just
    returned.  When a document is already stored under that id, the lookup
    keeps answering as before the generation: it shows the earliest stored
    document, not the regenerated one. *)
Theorem generated_claim_is_read_back (w : World.t) (procedure_id : Z)
    (user : Schemas.User) (s s' : Session.state) (claim : dict) :
  Fhir.generate_fhir_claim w procedure_id user s = (Ok claim, s') ->
  let key := "claim-" ++ str_int procedure_id in
  ((forall r, In r (fhir_resources (Session.st_db s)) -> resource_id r <> Some key) ->
     exists view,
       FhirRead.get_fhir_resource key s' = (Ok view, s')
       /\ get "fhir_data" view = Some (JDict claim)
       /\ get "resource_type" view = Some (JStr "Claim")
       /\ get "resource_id" view = Some (JStr key))
  /\ (forall old,
        Session.first (fun r => Session.col_eq_str (resource_id r) key)
                      (fhir_resources (Session.st_db s)) = Some old ->
        fst (FhirRead.get_fhir_resource key s') = fst (FhirRead.get_fhir_resource key s)).
Proof.
  unfold Fhir.generate_fhir_claim, St.bind, St.gets, St.raise, St.lift, St.ret,
    Session.add_commit.
  destruct (Session.first _ (procedures _)) as [p|]; [|discriminate].
  destruct (Session.first _ (patients _)) as [pa|]; [|discriminate].
  destruct (Session.first _ (users _)) as [pr|]; [|discriminate].
  destruct (create_fhir_claim p pa pr) as [c|]; [|discriminate].
  destruct (World.commit_insert w); [|discriminate].
  intros [= <- <-]. cbv zeta. split.
  - intros Hno. rewrite lookup_after_append by reflexivity.
    rewrite first_all_false.
    + eexists. split; [reflexivity|]. repeat split.
    + intros r Hr. destruct (Session.col_eq_str _ _) eqn:E; [|reflexivity].
      apply col_eq_str_eq in E. exfalso. exact (Hno r Hr E).
  - intros old Hold. rewrite lookup_after_append by reflexivity.
    rewrite Hold. cbn [fst]. symmetry. now apply lookup_before.
Qed.

Lemma generated_claim_is_read_back_witness :
  exists claim s' view,
    Fhir.generate_fhir_claim Sample.world_up 1 Sample.user Sample.s1 = (Ok claim, s')
    /\ FhirRead.get_fhir_resource "claim-1" s' = (Ok view, s')
    /\ get "fhir_data" view = Some (JDict claim).
Proof.
  destruct (Fhir.generate_fhir_claim Sample.world_up 1 Sample.user Sample.s1)
    as [[claim|e] s'] eqn:E; [|discriminate E].
  destruct (proj1 (generated_claim_is_read_back _ _ _ _ _ _ E)) as (view & Hv & Hd & _).
  - intros r [].
  - exists claim, s', view. repeat split; assumption.
Defined.

(** X24. [generate_fhir_patient] and [generate_fhir_practitioner] store
    what they return: a call that returns has appended exactly one row,
    of type "Patient" under "patient-<hash>" (of type "Practitioner" under
    "practitioner-<id>"), holding the returned document; a call for an
    unknown patient or user answers 404 and changes nothing. *)
Theorem generated_resources_are_stored (w : World.t) (user : Schemas.User)
    (s : Session.state) :
  (forall h doc s',
      FhirRead.generate_fhir_patient w h user s = (Ok doc, s') ->
      exists row,
        fhir_resources (Session.st_db s') = (fhir_resources (Session.st_db s) ++ [row])%list
        /\ resource_type row = Some "Patient"
        /\ resource_id row = Some ("patient-" ++ h)
        /\ fhir_data row = Some doc)
  /\ (forall n doc s',
        FhirRead.generate_fhir_practitioner w n user s = (Ok doc, s') ->
        exists row,
          fhir_resources (Session.st_db s')
            = (fhir_resources (Session.st_db s) ++ [row])%list
          /\ resource_type row = Some "Practitioner"
          /\ resource_id row = Some ("practitioner-" ++ str_int n)
          /\ fhir_data row = Some doc)
  /\ (forall h, (forall p, In p (patients (Session.st_db s)) -> patient_hash p <> Some h) ->
        exists detail,
          FhirRead.generate_fhir_patient w h user s = (Raise (HTTPException 404 detail), s))
  /\ (forall n, (forall u, In u (users (Session.st_db s)) -> user_id u <> n) ->
        exists detail,
          FhirRead.generate_fhir_practitioner w n user s
          = (Raise (HTTPException 404 detail), s)).
Proof.
  unfold FhirRead.generate_fhir_patient, FhirRead.generate_fhir_practitioner,
    St.bind, St.gets, St.raise, St.lift, St.ret, Session.add_commit.
  split; [|split; [|split]].
  - intros h doc s'.
    destruct (Session.first _ (patients _)) as [pa|]; [|discriminate].
    destruct (create_fhir_patient pa) as [d|]; [|discriminate].
    destruct (World.commit_insert w); [|discriminate].
    intros [= <- <-]. eexists. repeat split.
  - intros n doc s'.
    destruct (Session.first _ (users _)) as [pr|]; [|discriminate].
    destruct (create_fhir_practitioner pr) as [d|]; [|discriminate].
    destruct (World.commit_insert w); [|discriminate].
    intros [= <- <-]. eexists. repeat split.
  - intros h Hno. rewrite first_all_false; [eexists; reflexivity|].
    intros p Hp. destruct (Session.col_eq_str _ _) eqn:E; [|reflexivity].
    apply col_eq_str_eq in E. exfalso. exact (Hno p Hp E).
  - intros n Hno. rewrite first_all_false; [eexists; reflexivity|].
    intros u Hu. apply Z.eqb_neq. exact (Hno u Hu).
Qed.

Lemma generated_resources_are_stored_witness :
  exists detail,
    FhirRead.generate_fhir_practitioner Sample.world_up 99 Sample.user Sample.s0
    = (Raise (HTTPException 404 detail), Sample.s0).
Proof.
  apply (proj2 (proj2 (proj2 (generated_resources_are_stored Sample.world_up
                                Sample.user Sample.s0)))).
  intros u [<- | []]. discriminate.
Defined.

Section PatientBundle.
Import World Session.
Variable repr_other : json -> string.

Lemma bundle_claims_spec (d : db) (pa : Patient) (procs : list Procedure) :
  forall entry out,
    FhirRead.bundle_claims repr_other d pa procs entry = Ok out ->
    exists added,
      out = (entry ++ added)%list
      /\ List.length added = List.length (filter (has_practitioner d) procs)
      /\ Forall (fun e => exists claim, at_path [Key "resource"] e = Some (JDict claim)
                                        /\ get "resourceType" claim = Some (JStr "Claim"))
                added.
Proof.
  induction procs as [|p r IH]; simpl; intros entry out H.
  - injection H as <-. exists []. rewrite app_nil_r. repeat split. constructor.
  - unfold has_practitioner at 1.
    destruct (first _ (users d)) as [pr|].
    + destruct (create_fhir_claim p pa pr) as [claim|] eqn:Ec; [|discriminate H].
      cbn [Py.bind] in H.
      destruct (item "id" claim) as [cid|]; [|discriminate H]. cbn [Py.bind] in H.
      destruct (IH _ _ H) as (added & -> & Hlen & Hall).
      eexists (_ :: added). split; [unfold append; now rewrite <- app_assoc|].
      split; [simpl; now rewrite Hlen|].
      constructor; [|exact Hall]. exists claim. split; [reflexivity|].
      clear H IH. invert_claim Ec p pa; reflexivity.
    + exact (IH _ _ H).
Qed.

End PatientBundle.

(** X25. [generate_patient_bundle] never writes: whatever it returns or
    raises, the state is as before.  For a hash no stored patient has it
    answers 404.  The bundle it returns is a collection named
    "bundle-patient-<hash>" whose first entry is the Patient document,
    addressed as "Patient/<hash>", followed by one Claim entry for each
    stored procedure of the patient whose practitioner is a stored user;
    procedures of unknown practitioners are left out. *)
Theorem patient_bundle_is_read_only (repr_other : json -> string) (utcnow : datetime)
    (patient_hash_ : string) (user : Schemas.User) (s s' : Session.state)
    (r : result dict) :
  FhirRead.generate_patient_bundle repr_other utcnow patient_hash_ user s = (r, s') ->
  s' = s
  /\ ((forall p, In p (patients (Session.st_db s)) -> patient_hash p <> Some patient_hash_) ->
      exists detail, r = Raise (HTTPException 404 detail))
  /\ forall bundle, r = Ok bundle ->
       get "type" bundle = Some (JStr "collection")
       /\ get "id" bundle = Some (JStr ("bundle-patient-" ++ patient_hash_))
       /\ exists first_entry claims,
            get "entry" bundle = Some (JList (first_entry :: claims))
            /\ at_path [Key "fullUrl"] first_entry = Some (JStr ("Patient/" ++ patient_hash_))
            /\ at_path [Key "resource"; Key "resourceType"] first_entry
               = Some (JStr "Patient")
            /\ List.length claims
               = List.length
                   (filter (has_practitioner (Session.st_db s))
                      (filter (fun p => Session.col_eq_str (proc_patient_hash p)
                                          patient_hash_)
                              (procedures (Session.st_db s))))
            /\ Forall (fun e => exists claim,
                          at_path [Key "resource"] e = Some (JDict claim)
                          /\ get "resourceType" claim = Some (JStr "Claim"))
                      claims.
Proof.
  unfold FhirRead.generate_patient_bundle, St.bind, St.gets, St.raise, St.lift, St.ret.
  destruct (Session.first _ (patients (Session.st_db s))) as [pa|] eqn:Ef.
  - destruct (create_fhir_patient pa) as [doc|] eqn:Ed.
    + destruct (FhirRead.bundle_claims repr_other _ pa _ _) as [out|] eqn:Eb;
        intros [= <- <-]; (split; [reflexivity|]).
      * split.
        -- intros Hno. apply find_some in Ef as [Hin Hq]. apply col_eq_str_eq in Hq.
           exfalso. exact (Hno pa Hin Hq).
        -- intros bundle [= <-]. split; [reflexivity|]. split; [reflexivity|].
           destruct (bundle_claims_spec repr_other _ _ _ _ _ Eb)
             as (added & -> & Hlen & Hall).
           eexists _, added. split; [reflexivity|]. split; [reflexivity|].
           split; [|split; [exact Hlen | exact Hall]].
           cbn [at_path get String.eqb Ascii.eqb Bool.eqb].
           clear Eb. unfold create_fhir_patient in Ed.
           destruct (patient_created_at pa); [|discriminate Ed].
           cbn [isoformat_opt Py.bind] in Ed.
           destruct (truthy (first_name_hash pa)).
           ++ destruct (patient_hash pa); [|discriminate Ed].
              cbn [Py.bind] in Ed. injection Ed as <-. reflexivity.
           ++ injection Ed as <-. reflexivity.
      * split; [|intros bundle H; discriminate H].
        intros Hno. apply find_some in Ef as [Hin Hq]. apply col_eq_str_eq in Hq.
        exfalso. exact (Hno pa Hin Hq).
    + intros [= <- <-]. split; [reflexivity|]. split; [|intros bundle H; discriminate H].
      intros Hno. apply find_some in Ef as [Hin Hq]. apply col_eq_str_eq in Hq.
      exfalso. exact (Hno pa Hin Hq).
  - intros [= <- <-]. split; [reflexivity|]. split; [|intros bundle H; discriminate H].
    intros _. eexists; reflexivity.
Qed.

Lemma patient_bundle_is_read_only_witness :
  exists bundle first_entry claims,
    FhirRead.generate_patient_bundle SampleMore.repr_stub Sample.t2 "a1b2c3d4e5f60718"
      Sample.user Sample.s1 = (Ok bundle, Sample.s1)
    /\ get "entry" bundle = Some (JList (first_entry :: claims))
    /\ List.length claims = 1%nat.
Proof.
  destruct (FhirRead.generate_patient_bundle SampleMore.repr_stub Sample.t2
              "a1b2c3d4e5f60718" Sample.user Sample.s1) as [[bundle|e] s'] eqn:E;
    [|discriminate E].
  destruct (patient_bundle_is_read_only _ _ _ _ _ _ _ E) as (-> & _ & Hb).
  destruct (Hb bundle eq_refl) as (_ & _ & fe & claims & He & _ & _ & Hlen & _).
  exists bundle, fe, claims. split; [reflexivity|]. split; [exact He | exact Hlen].
Defined.

Section ResourceViews.
Import World Session.

Lemma resource_views_spec (rows : list FHIRResource) :
  forall acc out,
    FhirRead.resource_views rows acc = Ok out ->
    exists views, out = (acc ++ views)%list
                  /\ Forall2 (fun row v => FhirRead.resource_view row = Ok v) rows views.
Proof.
  induction rows as [|row r IH]; simpl; intros acc out H.
  - injection H as <-. exists []. rewrite app_nil_r. split; [reflexivity | constructor].
  - destruct (FhirRead.resource_view row) as [v|] eqn:Ev; [|discriminate H].
    cbn [Py.bind] in H. destruct (IH _ _ H) as (views & -> & Hall).
    exists (v :: views). split; [unfold append; now rewrite <- app_assoc|].
    now constructor.
Qed.

Lemma resource_view_fields (row : FHIRResource) (v : dict) :
  FhirRead.resource_view row = Ok v ->
  get "id" v = Some (JInt (fhir_id row))
  /\ get "resource_type" v = Some (of_opt_str (resource_type row))
  /\ get "resource_id" v = Some (of_opt_str (resource_id row))
  /\ exists data, fhir_data row = Some data /\ get "fhir_data" v = Some (JDict data).
Proof.
  unfold FhirRead.resource_view.
  destruct (fhir_data row) as [data|]; [|discriminate]. cbn [Py.bind].
  destruct (fhir_created_at row); [|discriminate].
  destruct (fhir_updated_at row); [|discriminate].
  cbn [isoformat_opt Py.bind]. intros [= <-]. repeat split. now exists data.
Qed.

End ResourceViews.

(** X26. [get_fhir_resources] never changes the state.  The views it
    returns show stored documents, in table order, each with its own
    payload; with a non-empty resource type every view has that type, and
    with a non-negative limit there are at most [limit] views. *)
Theorem listed_resources_match (resource_type_ : option string) (skip limit : Z)
    (s s' : Session.state) (views : list dict) :
  FhirRead.get_fhir_resources resource_type_ skip limit s = (Ok views, s') ->
  s' = s
  /\ (0 <= limit -> (List.length views <= Z.to_nat limit)%nat)
  /\ Forall (fun v => exists row data,
                In row (fhir_resources (Session.st_db s))
                /\ fhir_data row = Some data
                /\ get "fhir_data" v = Some (JDict data)
                /\ get "id" v = Some (JInt (fhir_id row))
                /\ forall t, resource_type_ = Some t -> t <> "" ->
                     get "resource_type" v = Some (JStr t))
            views.
Proof.
  unfold FhirRead.get_fhir_resources, St.bind, St.gets, St.lift.
  set (q := match resource_type_ with
            | Some t => if truthy (Some t) then filter _ _ else _
            | None => _
            end).
  destruct (FhirRead.resource_views (offset_limit skip limit q) []) as [out|] eqn:Ev;
    [|discriminate].
  intros [= <- <-]. split; [reflexivity|].
  destruct (resource_views_spec _ _ _ Ev) as (vs & -> & Hall). cbn [app].
  assert (Hq : forall row, In row q ->
                 In row (fhir_resources (Session.st_db s))
                 /\ forall t, resource_type_ = Some t -> t <> "" ->
                      resource_type row = Some t).
  { intros row Hin. subst q. destruct resource_type_ as [t|].
    - cbn [truthy] in Hin. destruct (t =? "")%string eqn:Et; cbn [negb] in Hin.
      + apply String.eqb_eq in Et. split; [exact Hin|]. intros t' [= <-] Hne. contradiction.
      + apply filter_In in Hin as [Hin Ht]. apply col_eq_str_eq in Ht.
        split; [exact Hin|]. now intros t' [= <-] _.
    - split; [exact Hin|]. intros t H; discriminate H. }
  split.
  - intros Hl. rewrite <- (Forall2_length Hall). now apply offset_limit_length.
  - assert (Hrows : Forall (fun row => In row q) (offset_limit skip limit q)).
    { apply Forall_forall. intros row Hin. exact (offset_limit_in _ _ _ _ Hin). }
    clear Ev. revert Hrows. generalize dependent (offset_limit skip limit q).
    intros rows0 Hall. induction Hall as [|row v rows vs0 Hv _ IH]; intros Hrows;
      constructor.
    + inversion Hrows as [|? ? Hrow _]; subst.
      destruct (Hq row Hrow) as [Hin Hty].
      destruct (resource_view_fields row v Hv) as (Hid & Hrt & _ & data & Hd & Hfd).
      exists row, data. repeat split; try assumption.
      intros t Ht Hne. rewrite Hrt, (Hty t Ht Hne). reflexivity.
    + apply IH. now inversion Hrows.
Qed.

Lemma listed_resources_match_witness :
  exists claim s1 views,
    Fhir.generate_fhir_claim Sample.world_up 1 Sample.user Sample.s1 = (Ok claim, s1)
    /\ FhirRead.get_fhir_resources (Some "Claim") 0 100 s1 = (Ok views, s1)
    /\ (List.length views <= 100)%nat.
Proof.
  destruct (Fhir.generate_fhir_claim Sample.world_up 1 Sample.user Sample.s1)
    as [[claim|e] s1] eqn:Eg; [|discriminate Eg].
  destruct (FhirRead.get_fhir_resources (Some "Claim") 0 100 s1)
    as [[views|e] s2] eqn:El.
  - destruct (listed_resources_match _ _ _ _ _ _ El) as (-> & Hlen & _).
    exists claim, s1, views. split; [reflexivity|]. split; [exact El|].
    apply Hlen. lia.
  - exfalso. injection Eg as _ <-. discriminate El.
Defined.

(** X27. The statistics of [get_fhir_stats] are consistent with the
    stored documents: the total is their number, the count under each
    resource type is the number of documents of that type, and the counts
    add up to the total.  With no document stored [last_created] is
    absent; otherwise it is the creation time of a stored document, and no
    stored document was created later.  The state is left as it is. *)
Theorem fhir_stats_consistent (s s' : Session.state) (st : FhirRead.fhir_stats) :
  FhirRead.get_fhir_stats s = (Ok st, s') ->
  s' = s
  /\ FhirRead.total_resources st = Z.of_nat (List.length (fhir_resources (Session.st_db s)))
  /\ total_count (FhirRead.resource_types st) = FhirRead.total_resources st
  /\ (forall t, ProceduresRead.count_get t (FhirRead.resource_types st)
                = Z.of_nat (List.length
                    (filter (fun r => ProceduresRead.opt_str_eqb (resource_type r) t)
                            (fhir_resources (Session.st_db s)))))
  /\ (fhir_resources (Session.st_db s) = [] -> FhirRead.last_created st = None)
  /\ (fhir_resources (Session.st_db s) <> [] ->
      exists row d,
        In row (fhir_resources (Session.st_db s))
        /\ fhir_created_at row = Some d
        /\ FhirRead.last_created st = Some (isoformat d)
        /\ forall other, In other (fhir_resources (Session.st_db s)) ->
             column_compare (Some d) (fhir_created_at other) <> Lt).
Proof.
  unfold FhirRead.get_fhir_stats, St.bind, St.gets, St.lift, St.ret.
  set (rows := fhir_resources (Session.st_db s)).
  destruct (count_types_spec (map resource_type rows)) as [Ht Hk].
  destruct (0 <? Z.of_nat (List.length rows)) eqn:Epos.
  - destruct (order_by_desc fhir_created_at rows) as [|newest rest] eqn:Eo;
      [discriminate|].
    destruct (fhir_created_at newest) as [d|] eqn:Ed; [|discriminate].
    cbn [isoformat_opt Py.bind]. intros [= <- <-].
    cbn [FhirRead.total_resources FhirRead.resource_types FhirRead.last_created].
    split; [reflexivity|]. split; [reflexivity|].
    split; [now rewrite Ht, length_map|].
    split; [intros t; rewrite Hk; f_equal; apply filter_map_length|].
    split.
    + intros Hnil. rewrite Hnil in Epos. discriminate Epos.
    + intros _. destruct (order_by_desc_head fhir_created_at rows newest rest Eo)
        as [Hin Hmax].
      exists newest, d. repeat split; try assumption.
      intros other Ho. rewrite <- Ed. now apply Hmax.
  - intros [= <- <-].
    cbn [FhirRead.total_resources FhirRead.resource_types FhirRead.last_created].
    split; [reflexivity|]. split; [reflexivity|].
    split; [now rewrite Ht, length_map|].
    split; [intros t; rewrite Hk; f_equal; apply filter_map_length|].
    split; [reflexivity|].
    intros Hne. exfalso. apply Z.ltb_ge in Epos.
    destruct rows; [now apply Hne | simpl in Epos; lia].
Qed.

Lemma fhir_stats_consistent_witness :
  exists claim s1 st,
    Fhir.generate_fhir_claim Sample.world_up 1 Sample.user Sample.s1 = (Ok claim, s1)
    /\ FhirRead.get_fhir_stats s1 = (Ok st, s1)
    /\ FhirRead.total_resources st = 1
    /\ FhirRead.last_created st = Some "2024-03-07T09:05:00".
Proof.
  destruct (Fhir.generate_fhir_claim Sample.world_up 1 Sample.user Sample.s1)
    as [[claim|e] s1] eqn:Eg; [|discriminate Eg].
  destruct (FhirRead.get_fhir_stats s1) as [[st|e] s2] eqn:Es.
  - destruct (fhir_stats_consistent _ _ _ Es) as (-> & Htot & _).
    exists claim, s1, st. split; [reflexivity|]. split; [exact Es|].
    injection Eg as _ <-. split; [exact Htot|].
    vm_compute in Es. injection Es as <-. reflexivity.
  - exfalso. injection Eg as _ <-. discriminate Es.
Defined.

(* ================================================================== *)
(** ** Further properties: accounts *)
(* ================================================================== *)

(** X28. The role checks are nested: a user passes the practitioner
    check exactly when the role is "practitioner" or "admin", and the
    admin check exactly when it is "admin", so whoever passes the admin
    check passes the practitioner check; a user without role passes
    neither.  Both checks refuse with HTTP 403, and the activity check
    lets through exactly the users flagged active. *)
Theorem role_checks_are_nested (u : User) :
  (Auth.get_current_practitioner u = Ok u
     <-> role u = Some "practitioner" \/ role u = Some "admin")
  /\ (Auth.get_current_admin u = Ok u <-> role u = Some "admin")
  /\ (Auth.get_current_admin u = Ok u -> Auth.get_current_practitioner u = Ok u)
  /\ (forall e, Auth.get_current_practitioner u = Raise e \/ Auth.get_current_admin u = Raise e ->
        exists detail, e = HTTPException 403 detail)
  /\ (Auth.get_current_active_user u = Ok u <-> Database.is_active u = Some true).
Proof.
  assert (Hp : Auth.get_current_practitioner u = Ok u
               <-> role u = Some "practitioner" \/ role u = Some "admin").
  { unfold Auth.get_current_practitioner. destruct (role u) as [r|]; cbn [str_in existsb].
    - destruct (r =? "practitioner")%string eqn:E1; cbn [orb].
      + apply String.eqb_eq in E1. subst. split; [now left | reflexivity].
      + destruct (r =? "admin")%string eqn:E2; cbn [orb].
        * apply String.eqb_eq in E2. subst. split; [now right | reflexivity].
        * apply String.eqb_neq in E1, E2. split; [discriminate|].
          intros [[= H] | [= H]]; congruence.
    - split; [discriminate | intros [H | H]; discriminate H]. }
  assert (Ha : Auth.get_current_admin u = Ok u <-> role u = Some "admin").
  { unfold Auth.get_current_admin.
    destruct (Session.col_eq_str (role u) "admin") eqn:E.
    - apply col_eq_str_eq in E. split; [now intros _ | reflexivity].
    - split; [discriminate|]. intros H. apply col_eq_str_eq in H. congruence. }
  split; [exact Hp|]. split; [exact Ha|]. split.
  - intros H. apply Hp. right. now apply Ha.
  - split.
    + intros e [H | H].
      * unfold Auth.get_current_practitioner in H.
        destruct (match role u with Some r => _ | None => _ end);
          [discriminate H | injection H as <-; eexists; reflexivity].
      * unfold Auth.get_current_admin in H.
        destruct (Session.col_eq_str _ _);
          [discriminate H | injection H as <-; eexists; reflexivity].
    + unfold Auth.get_current_active_user.
      destruct (Database.is_active u) as [[]|]; split; congruence.
Qed.

Lemma role_checks_are_nested_witness :
  Auth.get_current_practitioner SampleMore.admin = Ok SampleMore.admin.
Proof.
  apply (proj1 (proj2 (proj2 (role_checks_are_nested SampleMore.admin)))).
  reflexivity.
Defined.

(** X29. [register] keeps user names and email addresses unique.  A
    request whose user name or email address is already stored is refused
    with HTTP 400 and changes nothing; otherwise, when the commit goes
    through, exactly one user is appended, active, with the requested
    name, address and role, and with the hash of the password (not the
    password) in [hashed_password]; in every case tables without two users
    of the same name, or of the same address, stay so. *)
Theorem register_keeps_names_unique (w : World.t) (get_password_hash : string -> string)
    (user : Auth.UserCreate) (s s' : Session.state) (r : result User) :
  Auth.register w get_password_hash user s = (r, s') ->
  (unique_usernames (Session.st_db s) -> unique_usernames (Session.st_db s'))
  /\ (unique_emails (Session.st_db s) -> unique_emails (Session.st_db s'))
  /\ ((exists u, In u (users (Session.st_db s))
                 /\ (username u = Some (Auth.uc_username user)
                     \/ email u = Some (Auth.uc_email user))) ->
      s' = s /\ exists detail, r = Raise (HTTPException 400 detail))
  /\ (forall u, r = Ok u ->
        users (Session.st_db s') = (users (Session.st_db s) ++ [u])%list
        /\ username u = Some (Auth.uc_username user)
        /\ email u = Some (Auth.uc_email user)
        /\ role u = Some (Auth.uc_role user)
        /\ hashed_password u = Some (get_password_hash (Auth.uc_password user))
        /\ Database.is_active u = Some true).
Proof.
  unfold Auth.register, Auth.create_user, Auth.get_user_by_username,
    Auth.get_user_by_email, St.bind, St.gets, St.raise, Session.add_commit.
  destruct (Session.first (fun u => Session.col_eq_str (username u) _)
                          (users (Session.st_db s))) as [u1|] eqn:E1.
  { intros [= <- <-]. split; [auto|]. split; [auto|]. split.
    - intros _. split; [reflexivity | eexists; reflexivity].
    - intros u H; discriminate H. }
  destruct (Session.first (fun u => Session.col_eq_str (email u) _)
                          (users (Session.st_db s))) as [u2|] eqn:E2.
  { intros [= <- <-]. split; [auto|]. split; [auto|]. split.
    - intros _. split; [reflexivity | eexists; reflexivity].
    - intros u H; discriminate H. }
  assert (Hn1 : ~ In (Some (Auth.uc_username user)) (map username (users (Session.st_db s)))).
  { intros Hin. apply in_map_iff in Hin as (q & Hq & Hin).
    pose proof (find_none _ _ E1 q Hin) as Hn. cbv beta in Hn.
    apply col_eq_str_eq in Hq. congruence. }
  assert (Hn2 : ~ In (Some (Auth.uc_email user)) (map email (users (Session.st_db s)))).
  { intros Hin. apply in_map_iff in Hin as (q & Hq & Hin).
    pose proof (find_none _ _ E2 q Hin) as Hn. cbv beta in Hn.
    apply col_eq_str_eq in Hq. congruence. }
  assert (Hdup : (exists u, In u (users (Session.st_db s))
                   /\ (username u = Some (Auth.uc_username user)
                       \/ email u = Some (Auth.uc_email user))) -> False).
  { intros (u & Hin & [Hu | Hu]).
    - apply Hn1. rewrite <- Hu. now apply in_map.
    - apply Hn2. rewrite <- Hu. now apply in_map. }
  destruct (World.commit_insert w) as [[]|e]; intros [= <- <-].
  - unfold unique_usernames, unique_emails.
    cbn [Session.st_db Session.with_db users Auth.set_users].
    split; [|split; [|split]].
    + intros Hu. rewrite map_app. simpl.
      apply NoDup_app; [exact Hu | repeat constructor; intros [] |].
      intros x Hx [<- | []]. contradiction.
    + intros Hu. rewrite map_app. simpl.
      apply NoDup_app; [exact Hu | repeat constructor; intros [] |].
      intros x Hx [<- | []]. contradiction.
    + intros H. exfalso. exact (Hdup H).
    + intros u [= <-]. repeat split.
  - split; [auto|]. split; [auto|]. split.
    + intros H. exfalso. exact (Hdup H).
    + intros u H; discriminate H.
Qed.

Lemma register_keeps_names_unique_witness :
  exists u s',
    Auth.register Sample.world_up (fun p => "$2b$12$" ++ p) SampleMore.new_user Sample.s0
      = (Ok u, s')
    /\ users (Session.st_db s') = [Sample.practitioner; u].
Proof.
  destruct (Auth.register Sample.world_up (fun p => "$2b$12$" ++ p) SampleMore.new_user
              Sample.s0) as [[u|e] s'] eqn:E; [|discriminate E].
  destruct (proj2 (proj2 (proj2 (register_keeps_names_unique _ _ _ _ _ _ E))) u eq_refl)
    as (Hrows & _).
  exists u, s'. split; [reflexivity | exact Hrows].
Defined.

(* ================================================================== *)
(** ** Further checks on concrete inputs *)
(* ================================================================== *)

Example endpoint_refuses_list_type :
  FhirRead.validate_fhir_resource SampleMore.repr_stub
    [ ("resourceType", JList [ JStr "Claim" ]); ("id", JStr "x") ]
  = Raise (TypeError "unhashable type: 'list'").
Proof. reflexivity. Qed.

Example endpoint_reports_missing_fields :
  FhirRead.validate_fhir_resource SampleMore.repr_stub
    [ ("resourceType", JStr "Claim"); ("id", JStr "claim-1"); ("status", JStr "bogus") ]
  = Raise (HTTPException 400
             "Champs manquants pour Claim: ['type', 'patient', 'provider']").
Proof. reflexivity. Qed.

Example bundle_stops_at_missing_id :
  create_fhir_bundle SampleMore.md5_stub SampleMore.repr_stub Sample.t0
    [ [("resourceType", JStr "Patient")] ] "collection"
  = Raise (LibraryError "KeyError" "'id'").
Proof. reflexivity. Qed.

Example chain_listing_skips_second :
  fst (BlockchainRead.get_patient_procedures_from_blockchain Sample.world_up
         SampleMore.reader "a1b2c3d4e5f60718" SampleMore.ready_client)
  = Ok [ [ ("id", JInt 1); ("patient_id", JStr "a1b2c3d4e5f60718");
           ("practitioner", JStr "0xf39F"); ("procedure_type", JStr "stent");
           ("duration", JInt 45); ("timestamp", JInt 1700000000);
           ("consent_hash", JStr ""); ("is_active", JBool true); ("metadata", JStr "") ];
         [ ("id", JInt 3); ("patient_id", JStr "a1b2c3d4e5f60718");
           ("practitioner", JStr "0xf39F"); ("procedure_type", JStr "stent");
           ("duration", JInt 45); ("timestamp", JInt 1700000000);
           ("consent_hash", JStr ""); ("is_active", JBool true); ("metadata", JStr "") ] ].
Proof. reflexivity. Qed.

Example offset_limit_window : offset_limit 1 2 [10; 20; 30; 40] = [20; 30].
Proof. reflexivity. Qed.

Example offset_limit_negative : offset_limit (-3) (-1) [10; 20; 30] = [10; 20; 30].
Proof. reflexivity. Qed.

Example order_by_desc_keeps_ties :
  map id (order_by_desc created_at [Sample.stent; SampleMore.followup; Sample.anchored])
  = [2; 1; 2].
Proof. reflexivity. Qed.

Example count_types_example :
  ProceduresRead.count_types [Some "stent"; None; Some "stent"]
  = [(Some "stent", 2); (None, 1)].
Proof. reflexivity. Qed.
